(** * A shallow embedding of the upload/retrieve file service (main.go)

    The service has three functions of interest: [basicAuth] (the credential
    check), [uploadHander] (ingest) and [getHandler] (retrieval), wired to two
    routes in [main].  They are embedded below as Rocq functions over

    - Go strings as [string] (sequences of bytes);
    - the request and the response writer as records;
    - the file system as a finite map from resolved paths to nodes, threaded
      explicitly through the handlers;
    - the library calls the handlers make ([strings.Cut], [base64], [fmt],
      [path/filepath], [os], [mime], [net/http], [mux], [uuid]) as functions
      written after the documented behaviour of each call.

    What a call takes from outside the program is an explicit input: the
    date, the UUID drawn, a fault of the copy, the MIME table of the system.

    The system is a Unix: '/' separates path elements and an element has at
    most 255 bytes.  The store has regular files and directories, and for a
    directory whether the server may use it; it has no symbolic links, no
    rights per file and no modification times.  [URL_Path] is the decoded
    path of the request.  How [net/http] answers a request with
    preconditions or byte ranges, and how it lists a directory, is left open
    (a parameter of the file server). *)

From Stdlib Require Import ZArith NArith Ascii String Lia Bool DecimalString.
From stdpp Require Import gmap strings list.

Local Open Scope string_scope.
Local Open Scope list_scope.
Local Open Scope Z_scope.

(* String concatenation computes on literals. *)
Local Arguments String.append !_ _ / : simpl nomatch.

(** ** Package [strings] *)

Module strings.

(** [s] without its prefix [p], when it has it. *)
Fixpoint TrimPrefix (p s : string) : option string :=
  match p, s with
  | EmptyString, _ => Some s
  | String a p', String b s' => if Ascii.eqb a b then TrimPrefix p' s' else None
  | String _ _, EmptyString => None
  end.

Definition HasPrefix (s p : string) : bool :=
  match TrimPrefix p s with Some _ => true | None => false end.

(** [strings.Cut]: slices [s] around the first instance of [sep]; the flag
    tells whether [sep] occurs.  Without [sep] the result is [(s, empty, false)]. *)
Fixpoint Cut (s sep : string) : string * string * bool :=
  match TrimPrefix sep s with
  | Some after => (EmptyString, after, true)
  | None =>
      match s with
      | EmptyString => (EmptyString, EmptyString, false)
      | String c s' =>
          let '(before, after, found) := Cut s' sep in
          (String c before, after, found)
      end
  end.

(** [strings.Contains] for a one-byte needle. *)
Fixpoint ContainsByte (s : string) (c : ascii) : bool :=
  match s with
  | EmptyString => false
  | String a s' => Ascii.eqb a c || ContainsByte s' c
  end.

Fixpoint HasSuffix (s suffix : string) : bool :=
  String.eqb s suffix ||
  match s with
  | EmptyString => false
  | String _ s' => HasSuffix s' suffix
  end.

(** The pieces of [s] between the bytes that satisfy [sep], always at least
    one piece. *)
Fixpoint SplitFunc (sep : ascii -> bool) (s : string) : list string :=
  match s with
  | EmptyString => [EmptyString]
  | String c s' =>
      if sep c then EmptyString :: SplitFunc sep s'
      else match SplitFunc sep s' with
           | piece :: pieces => String c piece :: pieces
           | [] => [String c EmptyString]
           end
  end.

(** [strings.Split] for a one-byte separator. *)
Definition Split (s : string) (sep : ascii) : list string :=
  SplitFunc (Ascii.eqb sep) s.

Definition nonEmpty (s : string) : bool := negb (String.eqb s EmptyString).

(** [strings.FieldsFunc]: the non-empty pieces. *)
Definition FieldsFunc (s : string) (sep : ascii -> bool) : list string :=
  List.filter nonEmpty (SplitFunc sep s).

(** [strings.Contains]. *)
Fixpoint Contains (s substr : string) : bool :=
  HasPrefix s substr ||
  match s with
  | EmptyString => false
  | String _ s' => Contains s' substr
  end.

(** [strings.TrimSuffix] for a one-byte suffix. *)
Fixpoint TrimSuffixByte (s : string) (c : ascii) : string :=
  match s with
  | EmptyString => EmptyString
  | String a EmptyString => if Ascii.eqb a c then EmptyString else s
  | String a s' => String a (TrimSuffixByte s' c)
  end.

Fixpoint Join (elems : list string) (sep : string) : string :=
  match elems with
  | [] => EmptyString
  | [e] => e
  | e :: rest => e ++ sep ++ Join rest sep
  end.

End strings.

(** ** Package [encoding/base64], the standard padded encoding *)

Module base64.

Definition encodeStd : string :=
  "ABCDEFGHIJKLMNOPQRSTUVWXYZabcdefghijklmnopqrstuvwxyz0123456789+/".

Fixpoint indexByte (alphabet : string) (c : ascii) : option N :=
  match alphabet with
  | EmptyString => None
  | String a rest =>
      if Ascii.eqb a c then Some 0%N else N.succ <$> indexByte rest c
  end.

(** The decode map of the encoding: the position of a byte in the alphabet. *)
Definition decodeMap (c : ascii) : option N := indexByte encodeStd c.

Definition padChar : ascii := "="%char.

Definition byte (n : N) : ascii := ascii_of_N (n mod 256).

(** The 24-bit value of four sextets, as [decodeQuantum] assembles it. *)
Definition quantum (d0 d1 d2 d3 : N) : N :=
  N.lor (N.lor (N.lor (N.shiftl d0 18) (N.shiftl d1 12)) (N.shiftl d2 6)) d3.

Definition isNewline (c : ascii) : bool :=
  Ascii.eqb c "010"%char || Ascii.eqb c "013"%char.

Fixpoint stripNewlines (s : string) : string :=
  match s with
  | EmptyString => EmptyString
  | String c s' =>
      if isNewline c then stripNewlines s' else String c (stripNewlines s')
  end.

(** Quantum by quantum over an input without line breaks.  [None] is Go's
    [CorruptInputError]. *)
Fixpoint decodeQuanta (src : string) : option string :=
  match src with
  | EmptyString => Some EmptyString
  | String a (String b (String c (String d rest))) =>
      match decodeMap a, decodeMap b with
      | Some d0, Some d1 =>
          match decodeMap c, decodeMap d with
          | Some d2, Some d3 =>
              let val := quantum d0 d1 d2 d3 in
              match decodeQuanta rest with
              | Some out =>
                  Some (String (byte (N.shiftr val 16))
                          (String (byte (N.shiftr val 8))
                             (String (byte val) out)))
              | None => None
              end
          | Some d2, None =>
              (* one pad: two bytes, and nothing may follow *)
              if Ascii.eqb d padChar && String.eqb rest EmptyString then
                let val := quantum d0 d1 d2 0 in
                Some (String (byte (N.shiftr val 16))
                        (String (byte (N.shiftr val 8)) EmptyString))
              else None
          | None, _ =>
              (* two pads: one byte, and nothing may follow *)
              if Ascii.eqb c padChar && Ascii.eqb d padChar
                 && String.eqb rest EmptyString then
                let val := quantum d0 d1 0 0 in
                Some (String (byte (N.shiftr val 16)) EmptyString)
              else None
          end
      | _, _ => None
      end
  | _ => None
  end.

(** [base64.StdEncoding.DecodeString]: line breaks in the input are skipped,
    padding is required, trailing bits are not checked. *)
Definition DecodeString (s : string) : option string :=
  decodeQuanta (stripNewlines s).

(** [enc.encode[n]], the byte for a sextet. *)
Definition encodeByte (n : N) : ascii :=
  match String.get (N.to_nat n) encodeStd with
  | Some c => c
  | None => "A"%char
  end.

Definition sextet (val shift : N) : ascii :=
  encodeByte (N.land (N.shiftr val shift) 63).

(** [base64.StdEncoding.EncodeToString], the text a client sends: three
    bytes make four sextets, and what is left at the end is padded. *)
Fixpoint EncodeToString (src : string) : string :=
  match src with
  | EmptyString => EmptyString
  | String b0 EmptyString =>
      let val := N.shiftl (N_of_ascii b0) 16 in
      String (sextet val 18)
        (String (sextet val 12) (String padChar (String padChar EmptyString)))
  | String b0 (String b1 EmptyString) =>
      let val :=
        N.lor (N.shiftl (N_of_ascii b0) 16) (N.shiftl (N_of_ascii b1) 8) in
      String (sextet val 18)
        (String (sextet val 12)
           (String (sextet val 6) (String padChar EmptyString)))
  | String b0 (String b1 (String b2 rest)) =>
      let val :=
        N.lor
          (N.lor (N.shiftl (N_of_ascii b0) 16) (N.shiftl (N_of_ascii b1) 8))
          (N_of_ascii b2) in
      String (sextet val 18)
        (String (sextet val 12)
           (String (sextet val 6)
              (String (sextet val 0) (EncodeToString rest))))
  end.

End base64.

(** ** Package [fmt]: the two integer verbs the handlers use *)

Module fmt.

(** The decimal digits of a non-negative integer. *)
Definition digits (n : Z) : string :=
  NilZero.string_of_uint (N.to_uint (Z.to_N n)).

Fixpoint zeros (k : nat) : string :=
  match k with
  | O => EmptyString
  | S k' => String "0" (zeros k')
  end.

(** Verb [%d]. *)
Definition verb_d (n : Z) : string :=
  if n <? 0 then String "-" (digits (- n)) else digits n.

(** Verb [%0wd]: zeros fill the width; a sign takes one place of it. *)
Definition verb_0d (width : nat) (n : Z) : string :=
  if n <? 0 then
    let ds := digits (- n) in
    String "-" (zeros (Nat.pred width - String.length ds) ++ ds)
  else
    let ds := digits n in
    zeros (width - String.length ds) ++ ds.

(** The double quote of a format string. *)
Definition quote : string := String "034"%char EmptyString.

End fmt.

(** ** Package [github.com/google/uuid] *)

Module uuid.

(** A UUID is an array of 16 bytes; a slot past the end of the list reads as
    zero, which a value produced by [uuid.New] never has. *)
Definition UUID : Type := list ascii.

Definition hextable : string := "0123456789abcdef".

Definition hexDigit (n : N) : ascii :=
  match String.get (N.to_nat n) hextable with
  | Some c => c
  | None => "0"%char
  end.

(** [hex.Encode]: two lower-case digits per byte, high nibble first. *)
Fixpoint hexEncode (src : list ascii) : string :=
  match src with
  | [] => EmptyString
  | b :: rest =>
      String (hexDigit (N.shiftr (N_of_ascii b) 4))
        (String (hexDigit (N.land (N_of_ascii b) 15)) (hexEncode rest))
  end.

(** [u[lo:hi]] of the 16-byte array. *)
Definition slice (u : UUID) (lo hi : nat) : list ascii :=
  List.map (fun i => List.nth i u zero) (List.seq lo (hi - lo)).

(** [UUID.String]: xxxxxxxx-xxxx-xxxx-xxxx-xxxxxxxxxxxx. *)
Definition String_ (u : UUID) : string :=
  hexEncode (slice u 0 4) ++ "-" ++ hexEncode (slice u 4 6) ++ "-" ++
  hexEncode (slice u 6 8) ++ "-" ++ hexEncode (slice u 8 10) ++ "-" ++
  hexEncode (slice u 10 16).

End uuid.

(** ** Package [path/filepath] (and [path]) on a system whose separator is '/' *)

Module filepath.

Definition Separator : ascii := "/"%char.

Definition isRooted (path : string) : bool :=
  match path with
  | String c _ => Ascii.eqb c Separator
  | EmptyString => false
  end.

(** One step of [Clean] over the elements kept so far, the last one first:
    empty and "." elements are dropped; ".." removes the element before it,
    is dropped at the root, and is kept at the start of a relative path. *)
Definition cleanStep (rooted : bool) (kept : list string) (elem : string)
  : list string :=
  if String.eqb elem EmptyString || String.eqb elem "." then kept
  else if String.eqb elem ".." then
    match kept with
    | top :: below =>
        if String.eqb top ".." then elem :: kept else below
    | [] => if rooted then kept else [elem]
    end
  else elem :: kept.

Definition cleanElems (rooted : bool) (elems : list string) : list string :=
  List.rev (List.fold_left (cleanStep rooted) elems []).

(** [filepath.Clean]: the shortest path naming the same place by lexical
    processing alone; the empty result is ".". *)
Definition Clean (path : string) : string :=
  let rooted := isRooted path in
  let body := strings.Join (cleanElems rooted (strings.Split path Separator)) "/" in
  let out := if rooted then String Separator body else body in
  if String.eqb out EmptyString then "." else out.

(** [filepath.Join]: the elements from the first non-empty one on, joined by
    the separator and cleaned; the empty string when there is none. *)
Fixpoint Join (elem : list string) : string :=
  match elem with
  | [] => EmptyString
  | e :: rest =>
      if String.eqb e EmptyString then Join rest
      else Clean (strings.Join elem "/")
  end.

(** The loop of [filepath.Ext], from the last byte backwards: [rpath] is
    what is left to scan, reversed, and [seen] what was scanned. *)
Fixpoint extScan (rpath : list ascii) (seen : list ascii) : list ascii :=
  match rpath with
  | [] => []
  | c :: before =>
      if Ascii.eqb c Separator then []
      else if Ascii.eqb c "."%char then c :: seen
      else extScan before (c :: seen)
  end.

(** [filepath.Ext]: the suffix beginning at the final dot in the final
    element of the path; empty if there is no dot. *)
Definition Ext (path : string) : string :=
  string_of_list_ascii (extScan (List.rev (list_ascii_of_string path)) []).

Fixpoint lastNonEmpty (elems : list string) (found : string) : string :=
  match elems with
  | [] => found
  | e :: rest => lastNonEmpty rest (if String.eqb e EmptyString then found else e)
  end.

(** [filepath.Base]: the last element of the path, trailing separators
    removed; "." for the empty path and "/" for a path of separators only. *)
Definition Base (path : string) : string :=
  if String.eqb path EmptyString then "."
  else
    let last := lastNonEmpty (strings.Split path Separator) EmptyString in
    if String.eqb last EmptyString then "/" else last.

End filepath.

(** ** Package [os]: the file system

    The store maps a resolved name to a node.  A name is resolved as the
    kernel does: whether it starts at the root or at the working directory,
    and the elements in between the separators, with the empty and the "."
    elements dropped (the handlers pass cleaned paths only, in which ".." can
    stand at the start of a relative path alone; it is kept as a name).  The
    two starting directories always exist. *)

Module os.

Inductive errno : Type :=
  ENOENT | ENOTDIR | EACCES | ENAMETOOLONG | EEXIST | EISDIR.

Global Instance errno_eq_dec : EqDecision errno.
Proof. solve_decision. Defined.

(** A regular file with its bytes, or a directory; [accessible] is the
    calling process's right to look names up and create them in it. *)
Inductive node : Type :=
| File (data : string)
| Dir (accessible : bool).

Abbreviation FS := (gmap (bool * list string) node).

(** The longest element a directory takes (Linux). *)
Definition NAME_MAX : nat := 255.

Definition keptElem (e : string) : bool :=
  negb (String.eqb e EmptyString || String.eqb e ".").

Definition elements (path : string) : list string :=
  List.filter keptElem (strings.Split path filepath.Separator).

Definition startDir : node := Dir true.

(** Looks [name] up in the directory [cur], whose own name is [seen]. *)
Definition lookupIn (fs : FS) (rooted : bool) (seen : list string)
    (cur : node) (name : string) : errno + option node :=
  match cur with
  | File _ => inl ENOTDIR
  | Dir acc =>
      if negb acc then inl EACCES
      else if (NAME_MAX <? String.length name)%nat then inl ENAMETOOLONG
      else inr (fs !! (rooted, seen ++ [name]))
  end.

(** Walks down [todo] from the node [cur] reached along [seen]. *)
Fixpoint walk (fs : FS) (rooted : bool) (seen : list string) (cur : node)
    (todo : list string) : errno + node :=
  match todo with
  | [] => inr cur
  | name :: rest =>
      match lookupIn fs rooted seen cur name with
      | inl e => inl e
      | inr None => inl ENOENT
      | inr (Some next) => walk fs rooted (seen ++ [name]) next rest
      end
  end.

Definition resolve (fs : FS) (rooted : bool) (elems : list string)
  : errno + node :=
  walk fs rooted [] startDir elems.

(** [os.Stat] (there are no symbolic links, so [os.Lstat] is the same). *)
Definition Stat (fs : FS) (path : string) : errno + node :=
  resolve fs (filepath.isRooted path) (elements path).

Definition errOf {A : Type} (res : errno + A) : option errno :=
  match res with
  | inl e => Some e
  | inr _ => None
  end.

(** [os.IsNotExist]; [None] is the [nil] error. *)
Definition IsNotExist (err : option errno) : bool :=
  match err with
  | Some ENOENT => true
  | _ => false
  end.

Definition IsPermission (err : option errno) : bool :=
  match err with
  | Some EACCES => true
  | _ => false
  end.

Definition IsDir (n : node) : bool :=
  match n with
  | Dir _ => true
  | File _ => false
  end.

(** The entry named by the last element, resolved up to its directory:
    [None] when the name is free there. *)
Definition entry (fs : FS) (rooted : bool) (elems : list string)
  : errno + option node :=
  match List.rev elems with
  | [] => inr (Some startDir)
  | name :: rparent =>
      match resolve fs rooted (List.rev rparent) with
      | inl e => inl e
      | inr dir => lookupIn fs rooted (List.rev rparent) dir name
      end
  end.

(** [os.Mkdir]. *)
Definition mkdirAt (fs : FS) (rooted : bool) (elems : list string)
  : errno + FS :=
  match entry fs rooted elems with
  | inl e => inl e
  | inr (Some _) => inl EEXIST
  | inr None => inr (<[(rooted, elems) := Dir true]> fs)
  end.

(** [os.MkdirAll], on the elements of the path, the last one first: when
    the path is a directory there is nothing to do, when it is a file the
    call fails; otherwise the parent is made first and then the directory
    itself, a failure of which is forgiven if the directory is there.  The
    directories made before a failure stay. *)
Fixpoint mkdirAllAt (fs : FS) (rooted : bool) (relems : list string)
  : option errno * FS :=
  match resolve fs rooted (List.rev relems) with
  | inr (Dir _) => (None, fs)
  | inr (File _) => (Some ENOTDIR, fs)
  | inl _ =>
      let '(err, fs1) :=
        match relems with
        | [] => (None, fs)
        | _ :: rparent => mkdirAllAt fs rooted rparent
        end in
      match err with
      | Some e => (Some e, fs1)
      | None =>
          match mkdirAt fs1 rooted (List.rev relems) with
          | inr fs2 => (None, fs2)
          | inl e =>
              match resolve fs1 rooted (List.rev relems) with
              | inr (Dir _) => (None, fs1)
              | _ => (Some e, fs1)
              end
          end
      end
  end.

Definition MkdirAll (fs : FS) (path : string) : option errno * FS :=
  mkdirAllAt fs (filepath.isRooted path) (List.rev (elements path)).

(** [os.Create]: the file is made, or emptied when it is there already.
    The result is the new store and the name the descriptor refers to. *)
Definition Create (fs : FS) (path : string)
  : errno + (FS * (bool * list string)) :=
  let k := (filepath.isRooted path, elements path) in
  match entry fs k.1 k.2 with
  | inl e => inl e
  | inr (Some (Dir _)) => inl EISDIR
  | inr _ => inr (<[k := File EmptyString]> fs, k)
  end.

(** Appends to an open file. *)
Definition write (fs : FS) (dst : bool * list string) (bytes : string) : FS :=
  match fs !! dst with
  | Some (File data) => <[dst := File (data ++ bytes)]> fs
  | _ => fs
  end.

End os.

(** ** Package [io] *)

Module io.

Fixpoint take (n : nat) (s : string) : string :=
  match n, s with
  | S n', String c s' => String c (take n' s')
  | _, _ => EmptyString
  end.

(** [io.Copy] from a source holding [src] into the open file [dst].  When
    the copy breaks, [fault] is the number of bytes that got through; what
    was written stays.  The flag is [err == nil]. *)
Definition Copy (fs : os.FS) (dst : bool * list string) (src : string)
    (fault : option nat) : os.FS * bool :=
  match fault with
  | None => (os.write fs dst src, true)
  | Some n => (os.write fs dst (take n src), false)
  end.

End io.

(** ** Package [mime/multipart] and the request *)

(** One file of a parsed multipart form: the file name the form gives and the
    bytes of the part. *)
Record FileHeader : Type := {
  Filename : string;
  Content : string
}.

(** [http.Request], the fields the handlers read.  [Header] is keyed by the
    canonical header name; [MultipartForm] is the [File] map of the parsed
    form, [None] when the body does not parse as a multipart form; [Vars] are
    the route variables the router attached. *)
Record Request : Type := {
  Method : string;
  URL_Path : string;
  Header : gmap string (list string);
  MultipartForm : option (gmap string (list FileHeader));
  Vars : gmap string string
}.

(** [Header.Get]: the first value of the key, or the empty string. *)
Definition Header_Get (h : gmap string (list string)) (key : string) : string :=
  match h !! key with
  | Some (v :: _) => v
  | _ => EmptyString
  end.

(** [Request.FormFile]: the first file of the form under [key]; [None] is
    any of its errors (no multipart form, no such file). *)
Definition FormFile (r : Request) (key : string) : option FileHeader :=
  match MultipartForm r with
  | None => None
  | Some files =>
      match files !! key with
      | Some (fh :: _) => Some fh
      | _ => None
      end
  end.

(** ** Package [net/http]: the response writer *)

Module http.

Definition StatusOK : Z := 200.
Definition StatusMovedPermanently : Z := 301.
Definition StatusBadRequest : Z := 400.
Definition StatusUnauthorized : Z := 401.
Definition StatusForbidden : Z := 403.
Definition StatusNotFound : Z := 404.
Definition StatusMethodNotAllowed : Z := 405.
Definition StatusInternalServerError : Z := 500.

Definition MethodPost : string := "POST".

(** What a handler has put on the wire: the header map, the status once it
    is written, and the body so far. *)
Record ResponseWriter : Type := {
  RHeader : gmap string (list string);
  Status : option Z;
  Body : string
}.

Definition newResponse : ResponseWriter :=
  {| RHeader := ∅; Status := None; Body := EmptyString |}.

(** [w.Header().Set(key, value)]. *)
Definition Header_Set (w : ResponseWriter) (key value : string)
  : ResponseWriter :=
  {| RHeader := <[key := [value]]> (RHeader w);
     Status := Status w; Body := Body w |}.

(** [w.WriteHeader(code)]: the first status counts. *)
Definition WriteHeader (w : ResponseWriter) (code : Z) : ResponseWriter :=
  match Status w with
  | Some _ => w
  | None => {| RHeader := RHeader w; Status := Some code; Body := Body w |}
  end.

(** [w.Write(bytes)]: writes the status 200 first if none was written. *)
Definition Write (w : ResponseWriter) (bytes : string) : ResponseWriter :=
  let w := WriteHeader w StatusOK in
  {| RHeader := RHeader w; Status := Status w; Body := Body w ++ bytes |}.

Definition newline : string := String "010"%char EmptyString.

(** [http.Error]. *)
Definition Error (w : ResponseWriter) (msg : string) (code : Z)
  : ResponseWriter :=
  let w := Header_Set w "Content-Type" "text/plain; charset=utf-8" in
  let w := Header_Set w "X-Content-Type-Options" "nosniff" in
  let w := WriteHeader w code in
  Write w (msg ++ newline).

(** [http.NotFound]. *)
Definition NotFound (w : ResponseWriter) (r : Request) : ResponseWriter :=
  Error w "404 page not found" StatusNotFound.

(** What the file server does outside the plain case, left open: its
    answer to a request with preconditions or byte ranges, and its answer
    for a directory whose URL ends in a slash (an index page or a listing). *)
Record FileServer : Type := {
  conditionalReply : Request -> string -> ResponseWriter -> ResponseWriter;
  directoryReply :
    Request -> os.FS -> string -> ResponseWriter -> ResponseWriter
}.

Definition isSlashRune (c : ascii) : bool :=
  Ascii.eqb c "/"%char || Ascii.eqb c "\"%char.

Definition containsDotDot (v : string) : bool :=
  if negb (strings.Contains v "..") then false
  else List.existsb (String.eqb "..") (strings.FieldsFunc v isSlashRune).

(** The headers that make a request conditional or partial. *)
Definition conditionHeaders : list string :=
  ["If-Match"; "If-Unmodified-Since"; "If-None-Match"; "If-Modified-Since";
   "Range"; "If-Range"].

Definition conditional (r : Request) : bool :=
  List.existsb (fun k => strings.nonEmpty (Header_Get (Header r) k))
    conditionHeaders.

Definition lastByteIs (s : string) (c : ascii) : bool :=
  strings.HasSuffix s (String c EmptyString).

Definition localRedirect (w : ResponseWriter) (r : Request) (newPath : string)
  : ResponseWriter :=
  WriteHeader (Header_Set w "Location" newPath) StatusMovedPermanently.

(** [mapOpenError]: an error that is neither "not exist" nor "permission"
    becomes "not exist" when an element on the way is not a directory. *)
Fixpoint mapOpenErrorWalk (fs : os.FS) (rooted : bool)
    (seen todo : list string) (originalErr : os.errno) : os.errno :=
  match todo with
  | [] => originalErr
  | name :: rest =>
      match os.resolve fs rooted (seen ++ [name]) with
      | inl _ => originalErr
      | inr (os.File _) => os.ENOENT
      | inr (os.Dir _) =>
          mapOpenErrorWalk fs rooted (seen ++ [name]) rest originalErr
      end
  end.

Definition mapOpenError (fs : os.FS) (originalErr : os.errno) (name : string)
  : os.errno :=
  if os.IsNotExist (Some originalErr) || os.IsPermission (Some originalErr)
  then originalErr
  else mapOpenErrorWalk fs (filepath.isRooted name) [] (os.elements name)
         originalErr.

Definition toHTTPError (err : os.errno) : string * Z :=
  if os.IsNotExist (Some err) then ("404 page not found", StatusNotFound)
  else if os.IsPermission (Some err) then ("403 Forbidden", StatusForbidden)
  else ("500 Internal Server Error", StatusInternalServerError).

(** [serveContent] for a request without preconditions and ranges: the
    whole content with status 200; a content type set by the handler stays.
    Modification times are not part of the store, so no [Last-Modified]. *)
Definition serveContent (srv : FileServer) (w : ResponseWriter) (r : Request)
    (data : string) : ResponseWriter :=
  if conditional r then conditionalReply srv r data w
  else
    let w := Header_Set w "Accept-Ranges" "bytes" in
    let w :=
      Header_Set w "Content-Length"
        (fmt.verb_d (Z.of_nat (String.length data))) in
    let w := WriteHeader w StatusOK in
    if String.eqb (Method r) "HEAD" then w else Write w data.

(** [http.ServeFile]: a URL path with a ".." element is refused; a URL path
    ending in "/index.html" is redirected; an open error is answered by its
    status; a directory is redirected to its URL with a slash; a file is
    served by [serveContent]. *)
Definition ServeFile (srv : FileServer) (w : ResponseWriter) (r : Request)
    (name : string) (fs : os.FS) : ResponseWriter :=
  if containsDotDot (URL_Path r) then
    Error w "invalid URL path" StatusBadRequest
  else if strings.HasSuffix (URL_Path r) "/index.html" then
    localRedirect w r "./"
  else
    match os.Stat fs name with
    | inl err =>
        let '(msg, code) := toHTTPError (mapOpenError fs err name) in
        Error w msg code
    | inr (os.Dir _) =>
        if lastByteIs (URL_Path r) "/"%char then directoryReply srv r fs name w
        else localRedirect w r (filepath.Base (URL_Path r) ++ "/")
    | inr (os.File data) => serveContent srv w r data
    end.

End http.

(** ** Package [mime] *)

Module mime.

(** The extension table of the running system, with its lower-case copy. *)
Record Table : Type := {
  mimeTypes : gmap string string;
  mimeTypesLower : gmap string string
}.

Definition lowerByte (c : ascii) : ascii :=
  let n := N_of_ascii c in
  if ((65 <=? n) && (n <=? 90))%N then ascii_of_N (n + 32) else c.

(** Lower case of the ASCII letters (the bytes outside ASCII are left). *)
Fixpoint toLower (s : string) : string :=
  match s with
  | EmptyString => EmptyString
  | String c s' => String (lowerByte c) (toLower s')
  end.

(** [mime.TypeByExtension]: the extension as it is first, in lower case
    second; the empty string when the table has neither. *)
Definition TypeByExtension (t : Table) (ext : string) : string :=
  match mimeTypes t !! ext with
  | Some v => v
  | None =>
      match mimeTypesLower t !! toLower ext with
      | Some v => v
      | None => EmptyString
      end
  end.

(** Some entries of the table Go builds in. *)
Definition builtin : Table :=
  let types : gmap string string :=
    list_to_map
      [(".css", "text/css; charset=utf-8"); (".gif", "image/gif");
       (".htm", "text/html; charset=utf-8");
       (".html", "text/html; charset=utf-8"); (".jpeg", "image/jpeg");
       (".jpg", "image/jpeg"); (".js", "text/javascript; charset=utf-8");
       (".json", "application/json"); (".pdf", "application/pdf");
       (".png", "image/png"); (".svg", "image/svg+xml");
       (".wasm", "application/wasm"); (".webp", "image/webp");
       (".xml", "text/xml; charset=utf-8")] in
  {| mimeTypes := types; mimeTypesLower := types |}.

End mime.

(** ** Package [github.com/gorilla/mux] *)

Module mux.

(** [mux.Vars(r)[name]]: a missing name reads as the empty string. *)
Definition Var (r : Request) (name : string) : string :=
  default EmptyString (Vars r !! name).

(** The router's [cleanPath]. *)
Definition cleanPath (p : string) : string :=
  if String.eqb p EmptyString then "/"
  else
    let p := if filepath.isRooted p then p else String "/" p in
    let np := filepath.Clean p in
    if http.lastByteIs p "/"%char && negb (String.eqb np "/")
    then np ++ "/" else np.

Fixpoint bindVars (names segments : list string)
  : option (gmap string string) :=
  match names, segments with
  | [], [] => Some ∅
  | n :: names', seg :: segments' =>
      if strings.nonEmpty seg then
        (fun vars => <[n := seg]> vars) <$> bindVars names' segments'
      else None
  | _, _ => None
  end.

(** Matching a path against a template made of a literal text followed by
    variables separated by slashes, as in "/files/{year}/{month}": each
    variable takes one non-empty element of the path. *)
Definition matchTemplate (literal : string) (names : list string)
    (path : string) : option (gmap string string) :=
  match strings.TrimPrefix literal path with
  | None => None
  | Some rest =>
      match names with
      | [] => if String.eqb rest EmptyString then Some ∅ else None
      | _ :: _ => bindVars names (strings.Split rest "/"%char)
      end
  end.

End mux.

(** ** main.go *)

Record config : Type := {
  Host : string;
  Port : string;
  UploadDir : string;
  AccessPrefix : string;
  Username : string;
  Password : string
}.

(** Go's [error]: [None] is [nil], otherwise the message. *)
Definition error : Type := option string.

(** What a handler takes from its surroundings: the date of [time.Now], the
    value of [uuid.New], whether and where the copy of the upload breaks, and
    the libraries' tables. *)
Record Time : Type := { Year : Z; Month : Z; Day : Z }.

Record Env : Type := {
  Now : Time;
  NewUUID : uuid.UUID;
  CopyFault : option nat;
  MimeTable : mime.Table;
  Files : http.FileServer
}.

Definition basicAuth (r : Request) (cfg : config) : error :=
  let authHeader := Header_Get (Header r) "Authorization" in
  if (String.length authHeader =? 0)%nat then
    Some "authorization header is missing"
  else
    let '(authType, authInfo, ok) := strings.Cut authHeader " " in
    if negb ok || negb (String.eqb authType "Basic") then
      Some "invalid authorization type"
    else
      match base64.DecodeString authInfo with
      | None =>
          (* the text of the wrapped decoder error is left out *)
          Some "failed to decode basic auth info"
      | Some decoded =>
          let '(username, password, ok) := strings.Cut decoded ":" in
          if negb ok || negb (String.eqb username (Username cfg))
             || negb (String.eqb password (Password cfg)) then
            Some "invalid credentials"
          else None
      end.

(** The handler returns the response it wrote and the store it leaves. *)
Definition uploadHander (w : http.ResponseWriter) (r : Request) (cfg : config)
    (env : Env) (fs : os.FS) : http.ResponseWriter * os.FS :=
  if negb (String.eqb (Method r) http.MethodPost) then
    (http.Error w "Method not allowed" http.StatusMethodNotAllowed, fs)
  else
    match basicAuth r cfg with
    | Some _ => (http.Error w "Unauthorized" http.StatusUnauthorized, fs)
    | None =>
        match FormFile r "file" with
        | None =>
            (http.Error w "Bad Request: Missing file" http.StatusBadRequest, fs)
        | Some header =>
            let file := Content header in
            let ext := filepath.Ext (Filename header) in
            let filename := (uuid.String_ (NewUUID env) ++ ext)%string in
            let now := Now env in
            let timePath :=
              (fmt.verb_d (Year now) ++ "/" ++ fmt.verb_0d 2 (Month now) ++ "/"
               ++ fmt.verb_0d 2 (Day now))%string in
            let timeNameString := (timePath ++ "/" ++ filename)%string in
            let dirPath := filepath.Join [UploadDir cfg; timePath] in
            let filePath := filepath.Join [UploadDir cfg; timeNameString] in
            match os.MkdirAll fs dirPath with
            | (Some _, fs1) =>
                (http.Error w "Internal Server Error"
                   http.StatusInternalServerError, fs1)
            | (None, fs1) =>
                match os.Create fs1 filePath with
                | inl _ =>
                    (http.Error w "Internal Server Error"
                       http.StatusInternalServerError, fs1)
                | inr (fs2, dst) =>
                    let '(fs3, copied) := io.Copy fs2 dst file (CopyFault env) in
                    if negb copied then
                      (http.Error w "Internal Server Error"
                         http.StatusInternalServerError, fs3)
                    else
                      let url :=
                        (AccessPrefix cfg ++ "/" ++ timeNameString)%string in
                      let w := http.WriteHeader w http.StatusOK in
                      (http.Write w url, fs3)
                end
            end
        end
    end.

Definition getHandler (w : http.ResponseWriter) (r : Request) (cfg : config)
    (env : Env) (fs : os.FS) : http.ResponseWriter :=
  let year := mux.Var r "year" in
  let month := mux.Var r "month" in
  let day := mux.Var r "day" in
  let filename := mux.Var r "filename" in
  let ext := filepath.Ext filename in
  let filePath := filepath.Join [UploadDir cfg; year; month; day; filename] in
  let err := os.errOf (os.Stat fs filePath) in
  if os.IsNotExist err then http.NotFound w r
  else
    let contentType := mime.TypeByExtension (MimeTable env) ext in
    let contentType :=
      if (String.length contentType =? 0)%nat then "application/octet-stream"
      else contentType in
    let w := http.Header_Set w "Content-Type" contentType in
    let w := http.Header_Set w "Cache-Control" "public, max-age=315360000" in
    let w :=
      http.Header_Set w "Content-Disposition"
        ("inline; filename=" ++ fmt.quote ++ filename ++ fmt.quote) in
    http.ServeFile (Files env) w r filePath fs.

(** The two routes of [main], tried in the order they are registered, behind
    the router's redirect of a path that is not clean. *)
Definition withVars (r : Request) (vars : gmap string string) : Request :=
  {| Method := Method r; URL_Path := URL_Path r; Header := Header r;
     MultipartForm := MultipartForm r; Vars := vars |}.

Definition serve (cfg : config) (env : Env) (r : Request) (fs : os.FS)
  : http.ResponseWriter * os.FS :=
  let w := http.newResponse in
  let p := mux.cleanPath (URL_Path r) in
  if negb (String.eqb p (URL_Path r)) then
    (http.WriteHeader (http.Header_Set w "Location" p)
       http.StatusMovedPermanently, fs)
  else
    match mux.matchTemplate "/upload" [] (URL_Path r) with
    | Some vars => uploadHander w (withVars r vars) cfg env fs
    | None =>
        match mux.matchTemplate ("/" ++ AccessPrefix cfg ++ "/")
                ["year"; "month"; "day"; "filename"] (URL_Path r) with
        | Some vars => (getHandler w (withVars r vars) cfg env fs, fs)
        | None => (http.NotFound w r, fs)
        end
    end.

(** ** Vocabulary of the statements *)

(** The path [getHandler] looks at. *)
Definition storedPath (cfg : config) (r : Request) : string :=
  filepath.Join
    [UploadDir cfg; mux.Var r "year"; mux.Var r "month"; mux.Var r "day";
     mux.Var r "filename"].

(** The content type [getHandler] sets. *)
Definition contentTypeOf (env : Env) (filename : string) : string :=
  let byExt := mime.TypeByExtension (MimeTable env) (filepath.Ext filename) in
  if String.eqb byExt EmptyString then "application/octet-stream" else byExt.

(** The response writer as [getHandler] hands it to [http.ServeFile]. *)
Definition withFileHeaders (w : http.ResponseWriter) (r : Request) (env : Env)
  : http.ResponseWriter :=
  let filename := mux.Var r "filename" in
  http.Header_Set
    (http.Header_Set
       (http.Header_Set w "Content-Type" (contentTypeOf env filename))
       "Cache-Control" "public, max-age=315360000")
    "Content-Disposition"
    ("inline; filename=" ++ fmt.quote ++ filename ++ fmt.quote).

(** In the spec's words: everything from the last '.' of the name onward,
    empty when the name has no '.'. *)
Fixpoint fromLastDot (name : string) : string :=
  match name with
  | EmptyString => EmptyString
  | String c rest =>
      if strings.ContainsByte rest "." then fromLastDot rest
      else if Ascii.eqb c "." then name else EmptyString
  end.

(** The last element of a path: what follows its last '/'. *)
Fixpoint lastElement (path : string) : string :=
  match path with
  | EmptyString => EmptyString
  | String c rest =>
      if strings.ContainsByte rest "/" then lastElement rest
      else if Ascii.eqb c "/" then rest else path
  end.

(** A number below 100 in two decimal digits. *)
Definition twoDigits (n : Z) : string :=
  String (ascii_of_N (48 + Z.to_N (n / 10)))
    (String (ascii_of_N (48 + Z.to_N (n mod 10))) EmptyString).

(** The relative path of the spec:
    {year}/{month:02}/{day:02}/{randomID}{extension}. *)
Definition relativePath (now : Time) (id : uuid.UUID) (extension : string)
  : string :=
  fmt.verb_d (Year now) ++ "/" ++ fmt.verb_0d 2 (Month now) ++ "/"
  ++ fmt.verb_0d 2 (Day now) ++ "/" ++ uuid.String_ id ++ extension.

(** The bytes at which the scan of [filepath.Ext] ends. *)
Definition isStop (c : ascii) : bool :=
  Ascii.eqb c "/" || Ascii.eqb c ".".

(** A string without separator and dot. *)
Fixpoint plain (s : string) : bool :=
  match s with
  | EmptyString => true
  | String c rest => negb (isStop c) && plain rest
  end.

(** An element that [Clean] keeps as it is. *)
Definition goodElem (e : string) : bool :=
  negb (String.eqb e EmptyString || String.eqb e "." || String.eqb e "..").

(** An access prefix that is a clean relative path: elements separated by
    single slashes, none of them empty, "." or "..", and no ".." inside. *)
Definition validPrefix (prefix : string) : bool :=
  List.forallb goodElem (strings.Split prefix "/")
  && negb (strings.Contains prefix "..").

(** A GET request for a path, with no header at all. *)
Definition plainGet (path : string) : Request :=
  {| Method := "GET"; URL_Path := path; Header := ∅;
     MultipartForm := None; Vars := ∅ |}.

(** An element that stands in a path as one name: [Clean] keeps it as it is
    and it holds no separator. *)
Definition oneName (e : string) : bool :=
  goodElem e && negb (strings.ContainsByte e "/").

(** The name under which the store keeps what a path leads to: where the
    walk starts and the elements walked. *)
Definition resolvedName (path : string) : bool * list string :=
  (filepath.isRooted path, os.elements path).

(** The three directories [uploadHander] makes for a date, and the file name
    it gives an upload. *)
Definition dateElems (now : Time) : list string :=
  [fmt.verb_d (Year now); fmt.verb_0d 2 (Month now); fmt.verb_0d 2 (Day now)].

Definition storedName (env : Env) (header : FileHeader) : string :=
  uuid.String_ (NewUUID env) ++ filepath.Ext (Filename header).

(** The path [uploadHander] creates the file at. *)
Definition uploadTarget (cfg : config) (env : Env) (header : FileHeader)
  : string :=
  filepath.Join
    [UploadDir cfg;
     relativePath (Now env) (NewUUID env) (filepath.Ext (Filename header))].

(** The same surroundings with another outcome of the copy. *)
Definition withCopyFault (env : Env) (fault : option nat) : Env :=
  {| Now := Now env; NewUUID := NewUUID env; CopyFault := fault;
     MimeTable := MimeTable env; Files := Files env |}.

(** The same surroundings with another way of the file server to answer
    for a directory whose URL ends in a slash. *)
Definition withDirectoryReply (env : Env)
    (reply : Request -> os.FS -> string -> http.ResponseWriter
             -> http.ResponseWriter) : Env :=
  {| Now := Now env; NewUUID := NewUUID env; CopyFault := CopyFault env;
     MimeTable := MimeTable env;
     Files := {| http.conditionalReply := http.conditionalReply (Files env);
                 http.directoryReply := reply |} |}.

(** The same request with other values of the Authorization header. *)
Definition withAuthorization (r : Request) (auth : list string) : Request :=
  {| Method := Method r; URL_Path := URL_Path r;
     Header := <["Authorization" := auth]> (Header r);
     MultipartForm := MultipartForm r; Vars := Vars r |}.

(** A name of the store that is free, or a directory the server may use. *)
Definition freeOrOpen (fs : os.FS) (name : bool * list string) : bool :=
  match fs !! name with
  | None | Some (os.Dir true) => true
  | Some _ => false
  end.

(** The names that lead from [base] down along [elems], [base] itself left
    out: base/e1, base/e1/e2, ... *)
Fixpoint namesBelow (base elems : list string) : list (list string) :=
  match elems with
  | [] => []
  | e :: rest => (base ++ [e]) :: namesBelow (base ++ [e]) rest
  end.

(** ** A sample deployment, for running the handlers *)

Module Sample.

Definition cfg : config :=
  {| Host := "0.0.0.0"; Port := "8080"; UploadDir := "/data";
     AccessPrefix := "files"; Username := "u"; Password := "p:q" |}.

Definition plainFiles : http.FileServer :=
  {| http.conditionalReply := fun _ _ w => w;
     http.directoryReply := fun _ _ _ w => w |}.

Definition env : Env :=
  {| Now := {| Year := 2024; Month := 3; Day := 5 |};
     NewUUID :=
       List.map ascii_of_nat
         [1; 35; 69; 103; 137; 171; 205; 239; 0; 17; 34; 51; 68; 85; 102; 255]%nat;
     CopyFault := None;
     MimeTable := mime.builtin;
     Files := plainFiles |}.

(** "dTpwOnE=" is the base64 text of "u:p:q". *)
Definition post (auth : list string) (files : list FileHeader) : Request :=
  {| Method := "POST"; URL_Path := "/upload";
     Header := {[ "Authorization" := auth ]};
     MultipartForm := Some {[ "file" := files ]};
     Vars := ∅ |}.

Definition upload (name data : string) : Request :=
  post ["Basic dTpwOnE="] [{| Filename := name; Content := data |}].

Definition get (path : string) : Request :=
  {| Method := "GET"; URL_Path := path; Header := ∅;
     MultipartForm := None; Vars := ∅ |}.

(** The store with the upload root and one day's directory in it. *)
Definition disk : os.FS :=
  list_to_map
    [((true, ["data"]), os.Dir true);
     ((true, ["data"; "2024"]), os.Dir true);
     ((true, ["data"; "2024"; "03"]), os.Dir true);
     ((true, ["data"; "2024"; "03"; "05"]), os.Dir true);
     ((true, ["data"; "2024"; "03"; "05"; "notes.txt"]), os.File "hello");
     ((true, ["data"; "2024"; "03"; "05"; "cat.png"]), os.File "PNG");
     ((true, ["data"; "misc"]), os.Dir true);
     ((true, ["data"; "misc"; "not a month"]), os.Dir true);
     ((true, ["data"; "misc"; "not a month"; "x"]), os.Dir true);
     ((true, ["data"; "misc"; "not a month"; "x"; "README"]), os.File "read me")].

(** The same store after the directory of the year was closed to the
    server. *)
Definition lockedDisk : os.FS := <[(true, ["data"; "2024"]) := os.Dir false]> disk.

Definition vars (year month day filename : string) : gmap string string :=
  list_to_map
    [("year", year); ("month", month); ("day", day); ("filename", filename)].

(** A name of 256 bytes. *)
Definition longName : string := string_of_list_ascii (List.repeat "a"%char 256).

(** The store with a file named index.html in the directory of the day. *)
Definition siteDisk : os.FS :=
  <[(true, ["data"; "2024"; "03"; "05"; "index.html"]) := os.File "<html>"]> disk.

(** A store that holds the upload root and nothing else. *)
Definition emptyRoot : os.FS := {[ (true, ["data"]) := os.Dir true ]}.

(** A store in which the upload root is a regular file. *)
Definition rootIsFile : os.FS := {[ (true, ["data"]) := os.File "not a directory" ]}.

(** The surroundings of a second upload: another id, a day later. *)
Definition env2 : Env :=
  {| Now := {| Year := 2024; Month := 3; Day := 6 |};
     NewUUID := List.map ascii_of_nat (List.seq 16 16);
     CopyFault := None;
     MimeTable := mime.builtin;
     Files := plainFiles |}.

(** A configuration without access prefix, as a configuration file without
    the key gives it. *)
Definition noPrefixCfg : config :=
  {| Host := "0.0.0.0"; Port := "8080"; UploadDir := "/data";
     AccessPrefix := EmptyString; Username := "u"; Password := "p:q" |}.

(** A configuration whose user name holds a colon; "YTpiOnB3" is the base64
    text of "a:b:pw". *)
Definition colonCfg : config :=
  {| Host := "0.0.0.0"; Port := "8080"; UploadDir := "/data";
     AccessPrefix := "files"; Username := "a:b"; Password := "pw" |}.

End Sample.

(** * Properties *)

(** Closed statements about the sample deployment are settled by running the
    handlers, one conjunct at a time. *)
Ltac run := vm_compute; first [reflexivity | discriminate].
Ltac run_all := repeat match goal with |- _ /\ _ => split end; run.

(** ** Strings *)

Section StringFacts.

Lemma TrimPrefix_Some (p s rest : string) :
  strings.TrimPrefix p s = Some rest <-> s = (p ++ rest)%string.
Proof.
  revert s. induction p as [|a p IH]; intros s; simpl.
  - split; [intros [= ->]; reflexivity | intros ->; reflexivity].
  - destruct s as [|b s]; [split; discriminate|].
    destruct (Ascii.eqb_spec a b) as [->|Hne].
    + rewrite IH. split; [intros ->; reflexivity | intros [= ->]; reflexivity].
    + split; [discriminate | intros [= Hab _]; congruence].
Qed.

Lemma TrimPrefix_app (p s : string) :
  strings.TrimPrefix p (p ++ s) = Some s.
Proof. apply TrimPrefix_Some. reflexivity. Qed.

Lemma ContainsByte_app (a b : string) (c : ascii) :
  strings.ContainsByte (a ++ b) c
  = strings.ContainsByte a c || strings.ContainsByte b c.
Proof.
  induction a as [|x a IH]; simpl; [reflexivity|].
  rewrite IH. apply orb_assoc.
Qed.

(** When the separator is one byte, [Cut] finds its first occurrence. *)
Lemma Cut_found (s before after : string) (c : ascii) :
  strings.Cut s (String c EmptyString) = (before, after, true) <->
  s = (before ++ String c after)%string /\ strings.ContainsByte before c = false.
Proof.
  revert before. induction s as [|x s IH]; intros before.
  - simpl. split; [discriminate|].
    intros [H _]. destruct before; discriminate.
  - cbn [strings.Cut strings.TrimPrefix].
    destruct (Ascii.eqb_spec c x) as [->|Hne].
    + split.
      * intros [= <- <-]. split; reflexivity.
      * intros [H Hc]. destruct before as [|y before].
        -- simpl in H. injection H as ->. reflexivity.
        -- simpl in H, Hc. injection H as -> _.
           rewrite Ascii.eqb_refl in Hc. discriminate.
    + destruct (strings.Cut s (String c EmptyString)) as [[b a] found] eqn:E.
      split.
      * intros [= <- <- ->].
        destruct (proj1 (IH b) eq_refl) as [-> Hc].
        split; [reflexivity|]. simpl. rewrite Hc.
        destruct (Ascii.eqb_spec x c); [congruence | reflexivity].
      * intros [H Hc]. destruct before as [|y before].
        -- simpl in H. injection H as E1 _. congruence.
        -- simpl in H, Hc. injection H as -> ->.
           apply orb_false_elim in Hc as [_ Hc].
           assert (Hcut : (b, a, found) = (before, after, true))
             by (apply IH; split; [reflexivity | assumption]).
           injection Hcut as -> -> ->. reflexivity.
Qed.

Lemma Cut_missing (s before after : string) (c : ascii) :
  strings.Cut s (String c EmptyString) = (before, after, false) ->
  strings.ContainsByte s c = false.
Proof.
  revert before. induction s as [|x s IH]; intros before; [reflexivity|].
  cbn [strings.Cut strings.TrimPrefix].
  destruct (Ascii.eqb_spec c x) as [->|Hne]; [discriminate|].
  destruct (strings.Cut s (String c EmptyString)) as [[b a] found] eqn:E.
  intros [= <- <- ->]. simpl. rewrite (IH b eq_refl).
  destruct (Ascii.eqb_spec x c); [congruence | reflexivity].
Qed.

Lemma Cut_no_sep (s : string) (c : ascii) :
  strings.ContainsByte s c = false ->
  strings.Cut s (String c EmptyString) = (s, EmptyString, false).
Proof.
  intros H.
  destruct (strings.Cut s (String c EmptyString)) as [[b a] [|]] eqn:E.
  - apply Cut_found in E as [-> _].
    rewrite ContainsByte_app in H. simpl in H.
    rewrite Ascii.eqb_refl, orb_true_r in H. discriminate.
  - clear H. revert b a E. induction s as [|x s IH]; intros b a.
    + simpl. intros [= <- <-]. reflexivity.
    + cbn [strings.Cut strings.TrimPrefix].
      destruct (Ascii.eqb c x); [discriminate|].
      destruct (strings.Cut s (String c EmptyString)) as [[b' a'] found] eqn:E.
      intros [= <- <- ->]. specialize (IH b' a' eq_refl).
      injection IH as -> ->. reflexivity.
Qed.

End StringFacts.

(** ** Base64: what the encoder writes, the decoder reads back *)

Section Base64.

Local Open Scope N_scope.

Lemma land_disjoint (a b k : N) : b < 2 ^ k -> N.land (a * 2 ^ k) b = 0.
Proof.
  intros Hb. apply N.bits_inj_0. intros n. rewrite N.land_spec.
  destruct (N.lt_ge_cases n k) as [Hn|Hn].
  - rewrite N.mul_pow2_bits_low by exact Hn. reflexivity.
  - destruct (N.eq_dec b 0) as [->|Hb0].
    + rewrite N.bits_0. apply andb_false_r.
    + rewrite (N.bits_above_log2 b n), andb_false_r; [reflexivity|].
      apply N.log2_lt_pow2; [lia|].
      apply N.lt_le_trans with (2 ^ k); [exact Hb|].
      apply N.pow_le_mono_r; lia.
Qed.

Lemma lor_disjoint (a b k : N) :
  b < 2 ^ k -> N.lor (a * 2 ^ k) b = a * 2 ^ k + b.
Proof.
  intros Hb. pose proof (land_disjoint a b k Hb) as H.
  rewrite <- N.lxor_lor by exact H. symmetry. apply N.add_nocarry_lxor, H.
Qed.

Ltac euclid := zify; Z.to_euclidean_division_equations; lia.

(** The value of three bytes, and of four sextets, in plain arithmetic. *)
Lemma val3_sum (x0 x1 x2 : N) :
  x1 < 256 -> x2 < 256 ->
  N.lor (N.lor (N.shiftl x0 16) (N.shiftl x1 8)) x2
  = x0 * 65536 + x1 * 256 + x2.
Proof.
  intros H1 H2. rewrite !N.shiftl_mul_pow2.
  rewrite (lor_disjoint x0 (x1 * 2 ^ 8) 16) by (change (2 ^ 8) with 256; change (2 ^ 16) with 65536; lia).
  replace (x0 * 2 ^ 16 + x1 * 2 ^ 8) with ((x0 * 256 + x1) * 2 ^ 8)
    by (change (2 ^ 8) with 256; change (2 ^ 16) with 65536; lia).
  rewrite lor_disjoint by (change (2 ^ 8) with 256; lia).
  change (2 ^ 8) with 256. lia.
Qed.

Lemma quantum_sum (d0 d1 d2 d3 : N) :
  d1 < 64 -> d2 < 64 -> d3 < 64 ->
  base64.quantum d0 d1 d2 d3 = d0 * 262144 + d1 * 4096 + d2 * 64 + d3.
Proof.
  intros H1 H2 H3. unfold base64.quantum. rewrite !N.shiftl_mul_pow2.
  rewrite (lor_disjoint d0 (d1 * 2 ^ 12) 18)
    by (change (2 ^ 12) with 4096; change (2 ^ 18) with 262144; lia).
  replace (d0 * 2 ^ 18 + d1 * 2 ^ 12) with ((d0 * 64 + d1) * 2 ^ 12)
    by (change (2 ^ 12) with 4096; change (2 ^ 18) with 262144; lia).
  rewrite (lor_disjoint _ (d2 * 2 ^ 6) 12)
    by (change (2 ^ 12) with 4096; change (2 ^ 6) with 64; lia).
  replace ((d0 * 64 + d1) * 2 ^ 12 + d2 * 2 ^ 6)
    with ((d0 * 4096 + d1 * 64 + d2) * 2 ^ 6)
    by (change (2 ^ 12) with 4096; change (2 ^ 6) with 64; lia).
  rewrite lor_disjoint by (change (2 ^ 6) with 64; lia).
  change (2 ^ 6) with 64. lia.
Qed.

Lemma below_64 (P : N -> bool) :
  List.forallb (fun k => P (N.of_nat k)) (List.seq 0 64) = true ->
  forall n, n < 64 -> P n = true.
Proof.
  intros H n Hn. rewrite forallb_forall in H.
  specialize (H (N.to_nat n)). rewrite N2Nat.id in H.
  apply H. apply in_seq. lia.
Qed.

Lemma decodeMap_encodeByte (n : N) :
  n < 64 -> base64.decodeMap (base64.encodeByte n) = Some n.
Proof.
  intros Hn.
  pose proof (below_64
    (fun n => match base64.decodeMap (base64.encodeByte n) with
              | Some m => N.eqb m n
              | None => false
              end)) as H.
  specialize (H ltac:(vm_compute; reflexivity) n Hn). cbv beta in H.
  destruct (base64.decodeMap (base64.encodeByte n)); [|discriminate].
  apply N.eqb_eq in H. congruence.
Qed.

Lemma encodeByte_not_newline (n : N) :
  n < 64 -> base64.isNewline (base64.encodeByte n) = false.
Proof.
  intros Hn. apply negb_true_iff.
  apply (below_64 (fun n => negb (base64.isNewline (base64.encodeByte n))));
    [vm_compute; reflexivity | exact Hn].
Qed.

Lemma sextet_value (val shift : N) :
  N.land (N.shiftr val shift) 63 = (val / 2 ^ shift) mod 64.
Proof.
  change 63 with (N.ones 6). rewrite N.land_ones, N.shiftr_div_pow2.
  reflexivity.
Qed.

Lemma sextet_small (val shift : N) : N.land (N.shiftr val shift) 63 < 64.
Proof. rewrite sextet_value. apply N.mod_lt. discriminate. Qed.

Lemma decodeMap_sextet (val shift : N) :
  base64.decodeMap (base64.sextet val shift)
  = Some ((val / 2 ^ shift) mod 64).
Proof.
  unfold base64.sextet. rewrite decodeMap_encodeByte by apply sextet_small.
  rewrite sextet_value. reflexivity.
Qed.

Lemma sextet_not_newline (val shift : N) :
  base64.isNewline (base64.sextet val shift) = false.
Proof. apply encodeByte_not_newline, sextet_small. Qed.

Lemma byte_of (x n : N) (b : ascii) :
  x = N_of_ascii b -> n mod 256 = x -> base64.byte n = b.
Proof. intros -> H. unfold base64.byte. rewrite H. apply ascii_N_embedding. Qed.

(** One full quantum, and the two padded ones, decode to their bytes. *)
Lemma decode_three (b0 b1 b2 : ascii) (rest : string) :
  base64.decodeQuanta (base64.EncodeToString (String b0 (String b1 (String b2 rest))))
  = match base64.decodeQuanta (base64.EncodeToString rest) with
    | Some out => Some (String b0 (String b1 (String b2 out)))
    | None => None
    end.
Proof.
  cbn [base64.EncodeToString]. cbv zeta.
  pose proof (N_ascii_bounded b0) as H0.
  pose proof (N_ascii_bounded b1) as H1.
  pose proof (N_ascii_bounded b2) as H2.
  rewrite val3_sum by assumption.
  set (val := N_of_ascii b0 * 65536 + N_of_ascii b1 * 256 + N_of_ascii b2).
  cbn [base64.decodeQuanta]. rewrite !decodeMap_sextet.
  rewrite quantum_sum by (apply N.mod_lt; discriminate).
  destruct (base64.decodeQuanta (base64.EncodeToString rest)); [|reflexivity].
  rewrite !N.shiftr_div_pow2.
  change (2 ^ 18) with 262144. change (2 ^ 12) with 4096.
  change (2 ^ 6) with 64. change (2 ^ 0) with 1.
  change (2 ^ 16) with 65536. change (2 ^ 8) with 256.
  f_equal. f_equal; [|f_equal; [|f_equal]].
  - apply (byte_of (N_of_ascii b0)); [reflexivity | subst val; euclid].
  - apply (byte_of (N_of_ascii b1)); [reflexivity | subst val; euclid].
  - apply (byte_of (N_of_ascii b2)); [reflexivity | subst val; euclid].
Qed.

Lemma val2_sum (x0 x1 : N) :
  x1 < 256 ->
  N.lor (N.shiftl x0 16) (N.shiftl x1 8) = x0 * 65536 + x1 * 256.
Proof.
  intros H1. rewrite !N.shiftl_mul_pow2.
  rewrite (lor_disjoint x0 (x1 * 2 ^ 8) 16)
    by (change (2 ^ 8) with 256; change (2 ^ 16) with 65536; lia).
  reflexivity.
Qed.

Lemma decode_two (b0 b1 : ascii) :
  base64.decodeQuanta (base64.EncodeToString (String b0 (String b1 EmptyString)))
  = Some (String b0 (String b1 EmptyString)).
Proof.
  cbn [base64.EncodeToString]. cbv zeta.
  pose proof (N_ascii_bounded b0) as H0.
  pose proof (N_ascii_bounded b1) as H1.
  rewrite val2_sum by assumption.
  set (val := N_of_ascii b0 * 65536 + N_of_ascii b1 * 256).
  cbn [base64.decodeQuanta]. rewrite !decodeMap_sextet.
  replace (base64.decodeMap base64.padChar) with (@None N) by reflexivity.
  rewrite Ascii.eqb_refl. cbn [String.eqb andb].
  rewrite quantum_sum by (try (apply N.mod_lt; discriminate); lia).
  rewrite !N.shiftr_div_pow2.
  change (2 ^ 18) with 262144. change (2 ^ 12) with 4096.
  change (2 ^ 6) with 64.
  change (2 ^ 16) with 65536. change (2 ^ 8) with 256.
  f_equal. f_equal; [|f_equal].
  - apply (byte_of (N_of_ascii b0)); [reflexivity | subst val; euclid].
  - apply (byte_of (N_of_ascii b1)); [reflexivity | subst val; euclid].
Qed.

Lemma decode_one (b0 : ascii) :
  base64.decodeQuanta (base64.EncodeToString (String b0 EmptyString))
  = Some (String b0 EmptyString).
Proof.
  cbn [base64.EncodeToString]. cbv zeta.
  pose proof (N_ascii_bounded b0) as H0.
  rewrite N.shiftl_mul_pow2. change (2 ^ 16) with 65536.
  set (val := N_of_ascii b0 * 65536).
  cbn [base64.decodeQuanta]. rewrite !decodeMap_sextet.
  replace (base64.decodeMap base64.padChar) with (@None N) by reflexivity.
  rewrite Ascii.eqb_refl. cbn [String.eqb andb].
  rewrite quantum_sum by (try (apply N.mod_lt; discriminate); lia).
  rewrite !N.shiftr_div_pow2.
  change (2 ^ 18) with 262144. change (2 ^ 12) with 4096.
  change (2 ^ 16) with 65536.
  f_equal. f_equal.
  apply (byte_of (N_of_ascii b0)); [reflexivity | subst val; euclid].
Qed.

Lemma string_ind3 (P : string -> Prop) :
  P EmptyString ->
  (forall a, P (String a EmptyString)) ->
  (forall a b, P (String a (String b EmptyString))) ->
  (forall a b c s, P s -> P (String a (String b (String c s)))) ->
  forall s, P s.
Proof.
  intros H0 H1 H2 H3.
  refine (fix go (s : string) : P s :=
            match s with
            | EmptyString => H0
            | String a EmptyString => H1 a
            | String a (String b EmptyString) => H2 a b
            | String a (String b (String c rest)) => H3 a b c rest (go rest)
            end).
Qed.

Lemma decodeQuanta_EncodeToString (s : string) :
  base64.decodeQuanta (base64.EncodeToString s) = Some s.
Proof.
  induction s as [| a | a b | a b c s IH] using string_ind3.
  - reflexivity.
  - apply decode_one.
  - apply decode_two.
  - rewrite decode_three, IH. reflexivity.
Qed.

Lemma stripNewlines_EncodeToString (s : string) :
  base64.stripNewlines (base64.EncodeToString s) = base64.EncodeToString s.
Proof.
  induction s as [| a | a b | a b c s IH] using string_ind3;
    cbn [base64.EncodeToString base64.stripNewlines]; cbv zeta;
    rewrite ?sextet_not_newline;
    replace (base64.isNewline base64.padChar) with false by reflexivity;
    rewrite ?IH; reflexivity.
Qed.

(** What [EncodeToString] writes, [DecodeString] reads back. *)
Lemma DecodeString_EncodeToString (s : string) :
  base64.DecodeString (base64.EncodeToString s) = Some s.
Proof.
  unfold base64.DecodeString.
  rewrite stripNewlines_EncodeToString. apply decodeQuanta_EncodeToString.
Qed.

End Base64.

(** ** The response writer *)

Lemma Error_Status (w : http.ResponseWriter) (msg : string) (code : Z) :
  http.Status w = None -> http.Status (http.Error w msg code) = Some code.
Proof.
  intros H. unfold http.Error, http.Write, http.WriteHeader, http.Header_Set.
  simpl. rewrite H. reflexivity.
Qed.

Lemma Error_Body (w : http.ResponseWriter) (msg : string) (code : Z) :
  http.Body (http.Error w msg code) = (http.Body w ++ msg ++ http.newline)%string.
Proof.
  unfold http.Error, http.Write, http.WriteHeader, http.Header_Set. simpl.
  destruct (http.Status w); reflexivity.
Qed.

(** ** The credential check *)

(** The check passes exactly on a header "Basic <info>" whose <info> decodes
    to the configured user name, a colon and the configured password, the
    user name being what stands before the first colon. *)
Lemma basicAuth_passes (r : Request) (cfg : config) :
  basicAuth r cfg = None <->
  exists info,
    Header_Get (Header r) "Authorization" = ("Basic " ++ info)%string /\
    base64.DecodeString info
      = Some (Username cfg ++ ":" ++ Password cfg)%string /\
    strings.ContainsByte (Username cfg) ":" = false.
Proof.
  unfold basicAuth.
  set (h := Header_Get (Header r) "Authorization").
  destruct h as [|c0 h0] eqn:Eh.
  { simpl. split; [discriminate | intros (info & H & _); discriminate]. }
  rewrite <- Eh. replace (String.length h =? 0)%nat with false
    by (rewrite Eh; reflexivity).
  destruct (strings.Cut h " ") as [[authType authInfo] found] eqn:Ecut.
  destruct found; cbn [negb orb].
  - apply Cut_found in Ecut as [Hh Hsp].
    destruct (String.eqb_spec authType "Basic") as [->|Hty]; cbn [negb].
    + destruct (base64.DecodeString authInfo) as [decoded|] eqn:Edec.
      * destruct (strings.Cut decoded ":") as [[u p] ok] eqn:Ecut2.
        destruct ok; cbn [negb orb].
        -- apply Cut_found in Ecut2 as [-> Hcolon].
           destruct (String.eqb_spec u (Username cfg)) as [->|Hu]; cbn [negb orb].
           ++ destruct (String.eqb_spec p (Password cfg)) as [->|Hp]; cbn [negb].
              ** split; [intros _ | reflexivity]. exists authInfo. auto.
              ** split; [discriminate|]. intros (info & H1 & H2 & _).
                 rewrite Hh in H1. injection H1 as H1. simpl in H1. subst info.
                 rewrite Edec in H2. injection H2 as H2.
                 apply String.app_inj in H2. injection H2 as H2. congruence.
           ++ split; [discriminate|]. intros (info & H1 & H2 & H3).
              rewrite Hh in H1. injection H1 as H1. simpl in H1. subst info.
              rewrite Edec in H2. injection H2 as H2.
              assert (Hc : strings.Cut (u ++ String ":" p) ":"
                           = (Username cfg, Password cfg, true))
                by (rewrite H2; apply Cut_found; auto).
              assert (Hc' : strings.Cut (u ++ String ":" p) ":" = (u, p, true))
                by (apply Cut_found; auto).
              congruence.
        -- split; [discriminate|]. intros (info & H1 & H2 & _).
           rewrite Hh in H1. injection H1 as H1. simpl in H1. subst info.
           rewrite Edec in H2. injection H2 as ->.
           apply Cut_missing in Ecut2. rewrite ContainsByte_app in Ecut2.
           simpl in Ecut2. rewrite orb_true_r in Ecut2. discriminate.
      * split; [discriminate|]. intros (info & H1 & H2 & _).
        rewrite Hh in H1. injection H1 as H1. simpl in H1. subst info. congruence.
    + split; [discriminate|]. intros (info & H1 & _).
      assert (Hc : strings.Cut h " " = ("Basic", info, true))
        by (apply Cut_found; rewrite H1; split; reflexivity).
      assert (Hc' : strings.Cut h " " = (authType, authInfo, true))
        by (apply Cut_found; auto).
      congruence.
  - split; [discriminate|]. intros (info & H1 & _).
    apply Cut_missing in Ecut. rewrite H1 in Ecut. discriminate.
Qed.

(** Every configured pair with a colon-free user name has its header: the
    request that carries the base64 text of user:password passes. *)
Lemma basicAuth_accepts_encoded (r : Request) (cfg : config) :
  strings.ContainsByte (Username cfg) ":" = false ->
  Header_Get (Header r) "Authorization"
  = ("Basic " ++ base64.EncodeToString (Username cfg ++ ":" ++ Password cfg))%string ->
  basicAuth r cfg = None.
Proof.
  intros Hu Hh. apply basicAuth_passes.
  exists (base64.EncodeToString (Username cfg ++ ":" ++ Password cfg)).
  split; [exact Hh|]. split; [apply DecodeString_EncodeToString | exact Hu].
Qed.

(** ** Ingest: the checks before any work *)

(** C3: the ingest handler checks the method first (405), the credentials
    second (401) and the presence of the form file "file" third (400). *)
Theorem upload_checks_in_order (w : http.ResponseWriter) (r : Request)
    (cfg : config) (env : Env) (fs : os.FS) :
  http.Status w = None ->
  let out := uploadHander w r cfg env fs in
  (Method r <> "POST" ->
     out = (http.Error w "Method not allowed" 405, fs) /\
     http.Status out.1 = Some 405) /\
  (Method r = "POST" -> basicAuth r cfg <> None ->
     out = (http.Error w "Unauthorized" 401, fs) /\
     http.Status out.1 = Some 401) /\
  (Method r = "POST" -> basicAuth r cfg = None -> FormFile r "file" = None ->
     out = (http.Error w "Bad Request: Missing file" 400, fs) /\
     http.Status out.1 = Some 400).
Proof.
  intros Hw out. subst out. unfold uploadHander, http.MethodPost.
  repeat split.
  - destruct (String.eqb_spec (Method r) "POST"); [contradiction | reflexivity].
  - destruct (String.eqb_spec (Method r) "POST"); [contradiction|].
    cbn [negb fst]. apply Error_Status, Hw.
  - rewrite H, String.eqb_refl. cbn [negb].
    destruct (basicAuth r cfg); [reflexivity | contradiction].
  - rewrite H, String.eqb_refl. cbn [negb].
    destruct (basicAuth r cfg); [|contradiction].
    cbn [fst]. apply Error_Status, Hw.
  - rewrite H, String.eqb_refl, H0, H1. reflexivity.
  - rewrite H, String.eqb_refl, H0, H1. cbn [negb fst].
    apply Error_Status, Hw.
Qed.

Lemma upload_checks_in_order_witness :
  http.Status
    (uploadHander http.newResponse (Sample.get "/upload") Sample.cfg
       Sample.env Sample.disk).1 = Some 405 /\
  http.Status
    (uploadHander http.newResponse
       (Sample.post ["Basic dTpwOnEx"] []) Sample.cfg Sample.env Sample.disk).1
  = Some 401 /\
  http.Status
    (uploadHander http.newResponse
       (Sample.post ["Basic dTpwOnE="] []) Sample.cfg Sample.env Sample.disk).1
  = Some 400.
Proof.
  split; [|split].
  - apply (upload_checks_in_order http.newResponse (Sample.get "/upload")
             Sample.cfg Sample.env Sample.disk eq_refl).
    discriminate.
  - apply (upload_checks_in_order http.newResponse
             (Sample.post ["Basic dTpwOnEx"] []) Sample.cfg Sample.env
             Sample.disk eq_refl); [reflexivity|].
    vm_compute. discriminate.
  - apply (upload_checks_in_order http.newResponse
             (Sample.post ["Basic dTpwOnE="] []) Sample.cfg Sample.env
             Sample.disk eq_refl); [reflexivity| |].
    + vm_compute. reflexivity.
    + vm_compute. reflexivity.
Defined.

(** C7: an ingest request refused for its method (405) or for its
    credentials (401) leaves the store as it was: nothing is created. *)
Theorem refused_upload_keeps_store (w : http.ResponseWriter) (r : Request)
    (cfg : config) (env : Env) (fs : os.FS) :
  http.Status w = None ->
  Method r <> "POST" \/ basicAuth r cfg <> None ->
  let out := uploadHander w r cfg env fs in
  out.2 = fs /\
  (forall path, os.Stat out.2 path = os.Stat fs path) /\
  http.Status out.1
  = Some (if String.eqb (Method r) "POST" then 401 else 405).
Proof.
  intros Hw Hwhy out.
  assert (Hout : out.2 = fs /\
                 http.Status out.1
                 = Some (if String.eqb (Method r) "POST" then 401 else 405)).
  { subst out. unfold uploadHander, http.MethodPost.
    destruct (String.eqb_spec (Method r) "POST") as [Hm|Hm]; cbn [negb].
    - destruct Hwhy as [Hwhy|Hwhy]; [contradiction|].
      destruct (basicAuth r cfg); [|contradiction].
      split; [reflexivity | apply Error_Status, Hw].
    - split; [reflexivity | apply Error_Status, Hw]. }
  destruct Hout as [Hfs Hst]. repeat split; [assumption | | assumption].
  intros path. rewrite Hfs. reflexivity.
Qed.

Lemma refused_upload_keeps_store_witness :
  (uploadHander http.newResponse
     (Sample.post [] [{| Filename := "photo.png"; Content := "PNG" |}])
     Sample.cfg Sample.env Sample.disk).2 = Sample.disk.
Proof.
  apply (refused_upload_keeps_store http.newResponse
           (Sample.post [] [{| Filename := "photo.png"; Content := "PNG" |}])
           Sample.cfg Sample.env Sample.disk eq_refl).
  right. vm_compute. discriminate.
Defined.

(** ** The credential check, as the specification puts it *)

(** Two texts user:password with colon-free user names are equal only if
    their parts are. *)
Lemma credentials_inj (u p u' p' : string) :
  strings.ContainsByte u ":" = false ->
  strings.ContainsByte u' ":" = false ->
  (u ++ ":" ++ p)%string = (u' ++ ":" ++ p')%string ->
  u = u' /\ p = p'.
Proof.
  intros Hu Hu' E.
  assert (H : strings.Cut (u ++ String ":" p) ":" = (u, p, true))
    by (apply Cut_found; auto).
  assert (H' : strings.Cut (u' ++ String ":" p') ":" = (u', p', true))
    by (apply Cut_found; auto).
  change (u ++ ":" ++ p)%string with (u ++ String ":" p)%string in E.
  change (u' ++ ":" ++ p')%string with (u' ++ String ":" p')%string in E.
  rewrite E in H. rewrite H in H'. injection H' as -> ->. auto.
Qed.

(** C4: the credential check passes if and only if the Authorization header
    is there, names the Basic scheme, carries base64 text that decodes to
    username:password (the user name ending at the first colon) and both
    fields equal the configured ones.  A missing header, another scheme,
    text that is not base64, a decoded text without colon and credentials
    that differ all make it fail, and whatever makes it fail, the ingest
    handler gives the one answer 401 "Unauthorized" and leaves the store as
    it was. *)
Theorem credential_check (r : Request) (cfg : config) :
  let header := Header_Get (Header r) "Authorization" in
  (basicAuth r cfg = None <->
   exists info username password,
     header = ("Basic " ++ info)%string /\
     base64.DecodeString info = Some (username ++ ":" ++ password)%string /\
     strings.ContainsByte username ":" = false /\
     username = Username cfg /\ password = Password cfg) /\
  (header = EmptyString -> basicAuth r cfg <> None) /\
  ((forall info, header <> ("Basic " ++ info)%string) ->
   basicAuth r cfg <> None) /\
  (forall info,
     header = ("Basic " ++ info)%string ->
     base64.DecodeString info = None -> basicAuth r cfg <> None) /\
  (forall info decoded,
     header = ("Basic " ++ info)%string ->
     base64.DecodeString info = Some decoded ->
     strings.ContainsByte decoded ":" = false -> basicAuth r cfg <> None) /\
  (forall info username password,
     header = ("Basic " ++ info)%string ->
     base64.DecodeString info = Some (username ++ ":" ++ password)%string ->
     strings.ContainsByte username ":" = false ->
     username <> Username cfg \/ password <> Password cfg ->
     basicAuth r cfg <> None) /\
  (forall w env fs,
     Method r = "POST" -> basicAuth r cfg <> None ->
     uploadHander w r cfg env fs = (http.Error w "Unauthorized" 401, fs)).
Proof.
  cbv zeta. set (header := Header_Get (Header r) "Authorization").
  assert (Hsame : forall info info' : string,
            header = ("Basic " ++ info)%string ->
            header = ("Basic " ++ info')%string -> info' = info).
  { intros info info' H H'. rewrite H in H'. injection H' as H'.
    simpl in H'. congruence. }
  pose proof (basicAuth_passes r cfg) as Hiff. fold header in Hiff.
  repeat match goal with |- _ /\ _ => split end.
  - rewrite Hiff. split.
    + intros (info & H1 & H2 & H3).
      exists info, (Username cfg), (Password cfg). auto.
    + intros (info & u & p & H1 & H2 & H3 & -> & ->). exists info. auto.
  - intros Hempty Hpass. apply Hiff in Hpass as (info & H & _).
    rewrite Hempty in H. discriminate.
  - intros Hscheme Hpass. apply Hiff in Hpass as (info & H & _).
    exact (Hscheme info H).
  - intros info Hh Hdec Hpass.
    apply Hiff in Hpass as (info' & H & Hdec' & _).
    rewrite (Hsame info info' Hh H) in Hdec'. congruence.
  - intros info decoded Hh Hdec Hcolon Hpass.
    apply Hiff in Hpass as (info' & H & Hdec' & _).
    rewrite (Hsame info info' Hh H), Hdec in Hdec'. injection Hdec' as ->.
    rewrite ContainsByte_app in Hcolon. simpl in Hcolon.
    rewrite orb_true_r in Hcolon. discriminate.
  - intros info u p Hh Hdec Hu Hdiff Hpass.
    apply Hiff in Hpass as (info' & H & Hdec' & Hu').
    rewrite (Hsame info info' Hh H), Hdec in Hdec'. injection Hdec' as E.
    destruct (credentials_inj u p (Username cfg) (Password cfg) Hu Hu' E).
    destruct Hdiff; contradiction.
  - intros w env fs Hm Hfail. unfold uploadHander, http.MethodPost.
    rewrite Hm, String.eqb_refl. cbn [negb].
    destruct (basicAuth r cfg); [reflexivity | contradiction].
Qed.

Lemma credential_check_witness :
  basicAuth (Sample.upload "photo.png" "PNG") Sample.cfg = None /\
  basicAuth (Sample.post ["Basic dTpwOnEx"] []) Sample.cfg <> None /\
  uploadHander http.newResponse (Sample.post ["Bearer dTpwOnE="] [])
    Sample.cfg Sample.env Sample.disk
  = (http.Error http.newResponse "Unauthorized" 401, Sample.disk).
Proof.
  pose proof (credential_check (Sample.upload "photo.png" "PNG") Sample.cfg)
    as (Hpass & _).
  pose proof (credential_check (Sample.post ["Basic dTpwOnEx"] []) Sample.cfg)
    as (_ & _ & _ & _ & _ & Hdiff & _).
  pose proof (credential_check (Sample.post ["Bearer dTpwOnE="] []) Sample.cfg)
    as (_ & _ & _ & _ & _ & _ & Hsame).
  split; [|split].
  - apply Hpass. exists "dTpwOnE=", "u", "p:q".
    repeat match goal with |- _ /\ _ => split end; run.
  - apply (Hdiff "dTpwOnEx" "u" "p:q1"); try run.
    right. discriminate.
  - apply Hsame; run.
Defined.

(** C9: the header value is cut at its first space, and the check fails
    unless what stands before that space is exactly "Basic": another
    spelling of the scheme, or a value without a space, is refused. *)
Theorem scheme_token_exact (r : Request) (cfg : config)
    (authType authInfo : string) (found : bool) :
  strings.Cut (Header_Get (Header r) "Authorization") " "
  = (authType, authInfo, found) ->
  (found = true ->
     Header_Get (Header r) "Authorization"
     = (authType ++ " " ++ authInfo)%string /\
     strings.ContainsByte authType " " = false) /\
  (found = false \/ authType <> "Basic" -> basicAuth r cfg <> None).
Proof.
  intros Hcut. split.
  - intros ->. apply Cut_found in Hcut. exact Hcut.
  - intros Hbad Hpass. apply basicAuth_passes in Hpass as (info & Hh & _).
    assert (Hc : strings.Cut (Header_Get (Header r) "Authorization") " "
                 = ("Basic", info, true))
      by (apply Cut_found; rewrite Hh; split; reflexivity).
    rewrite Hcut in Hc. injection Hc as -> _ ->.
    destruct Hbad; [discriminate | contradiction].
Qed.

Lemma scheme_token_exact_witness :
  basicAuth (Sample.post ["basic dTpwOnE="] []) Sample.cfg <> None /\
  basicAuth (Sample.post ["BASIC dTpwOnE="] []) Sample.cfg <> None /\
  basicAuth (Sample.post ["BasicdTpwOnE="] []) Sample.cfg <> None /\
  basicAuth (Sample.post ["Basic dTpwOnE="] []) Sample.cfg = None.
Proof.
  repeat split.
  - apply (scheme_token_exact (Sample.post ["basic dTpwOnE="] []) Sample.cfg
             "basic" "dTpwOnE=" true eq_refl).
    right. discriminate.
  - apply (scheme_token_exact (Sample.post ["BASIC dTpwOnE="] []) Sample.cfg
             "BASIC" "dTpwOnE=" true eq_refl).
    right. discriminate.
  - apply (scheme_token_exact (Sample.post ["BasicdTpwOnE="] []) Sample.cfg
             "BasicdTpwOnE=" EmptyString false eq_refl).
    left. reflexivity.
Defined.

(** C10: the decoded credentials are cut at the first colon only.  With a
    configured user name free of colons, the text username:password passes
    whatever colons the password holds ("u:p:q" is the user "u" with the
    password "p:q"), and so the header that carries its base64 text passes;
    a decoded text without any colon is refused. *)
Theorem credentials_cut_at_first_colon (r : Request) (cfg : config)
    (info decoded : string) :
  Header_Get (Header r) "Authorization" = ("Basic " ++ info)%string ->
  base64.DecodeString info = Some decoded ->
  (strings.ContainsByte (Username cfg) ":" = false ->
   decoded = (Username cfg ++ ":" ++ Password cfg)%string ->
   strings.Cut decoded ":" = (Username cfg, Password cfg, true) /\
   basicAuth r cfg = None) /\
  (strings.ContainsByte decoded ":" = false -> basicAuth r cfg <> None) /\
  strings.Cut "u:p:q" ":" = ("u", "p:q", true) /\
  (strings.ContainsByte (Username cfg) ":" = false ->
   info = base64.EncodeToString (Username cfg ++ ":" ++ Password cfg) ->
   basicAuth r cfg = None).
Proof.
  intros Hh Hdec. split; [|split; [|split]].
  - intros Hu ->. split.
    + apply Cut_found. auto.
    + apply basicAuth_passes. exists info. auto.
  - intros Hnc Hpass.
    apply basicAuth_passes in Hpass as (info' & Hh' & Hdec' & _).
    rewrite Hh in Hh'. injection Hh' as Hh'. simpl in Hh'. subst info'.
    rewrite Hdec in Hdec'. injection Hdec' as ->.
    rewrite ContainsByte_app in Hnc. simpl in Hnc.
    rewrite orb_true_r in Hnc. discriminate.
  - reflexivity.
  - intros Hu ->. apply basicAuth_accepts_encoded; assumption.
Qed.

Lemma credentials_cut_at_first_colon_witness :
  basicAuth (Sample.upload "photo.png" "PNG") Sample.cfg = None /\
  basicAuth (Sample.post ["Basic dXBx"] []) Sample.cfg <> None.
Proof.
  split.
  - apply (credentials_cut_at_first_colon (Sample.upload "photo.png" "PNG")
             Sample.cfg "dTpwOnE=" "u:p:q" eq_refl eq_refl); reflexivity.
  - apply (credentials_cut_at_first_colon (Sample.post ["Basic dXBx"] [])
             Sample.cfg "dXBx" "upq" eq_refl eq_refl).
    reflexivity.
Defined.

(** ** The response writer, field by field *)

Section Writer.

Variable w : http.ResponseWriter.

Lemma RHeader_Set (k v : string) :
  http.RHeader (http.Header_Set w k v) = <[k := [v]]> (http.RHeader w).
Proof. reflexivity. Qed.

Lemma Status_Set (k v : string) :
  http.Status (http.Header_Set w k v) = http.Status w.
Proof. reflexivity. Qed.

Lemma Body_Set (k v : string) :
  http.Body (http.Header_Set w k v) = http.Body w.
Proof. reflexivity. Qed.

Lemma RHeader_WriteHeader (code : Z) :
  http.RHeader (http.WriteHeader w code) = http.RHeader w.
Proof. unfold http.WriteHeader. destruct (http.Status w); reflexivity. Qed.

Lemma Body_WriteHeader (code : Z) :
  http.Body (http.WriteHeader w code) = http.Body w.
Proof. unfold http.WriteHeader. destruct (http.Status w); reflexivity. Qed.

Lemma Status_WriteHeader (code : Z) :
  http.Status w = None -> http.Status (http.WriteHeader w code) = Some code.
Proof. intros H. unfold http.WriteHeader. rewrite H. reflexivity. Qed.

Lemma Status_WriteHeader_again (code first : Z) :
  http.Status w = Some first ->
  http.Status (http.WriteHeader w code) = Some first.
Proof. intros H. unfold http.WriteHeader. rewrite H. exact H. Qed.

Lemma RHeader_Write (bytes : string) :
  http.RHeader (http.Write w bytes) = http.RHeader w.
Proof. unfold http.Write. simpl. apply RHeader_WriteHeader. Qed.

Lemma Body_Write (bytes : string) :
  http.Body (http.Write w bytes) = (http.Body w ++ bytes)%string.
Proof. unfold http.Write. simpl. rewrite Body_WriteHeader. reflexivity. Qed.

Lemma Status_Write (bytes : string) (first : Z) :
  http.Status w = Some first -> http.Status (http.Write w bytes) = Some first.
Proof.
  intros H. unfold http.Write. simpl. apply Status_WriteHeader_again, H.
Qed.

End Writer.

(** ** Retrieval *)

Lemma length_zero_eqb (s : string) :
  (String.length s =? 0)%nat = String.eqb s EmptyString.
Proof. destruct s; reflexivity. Qed.

Lemma getHandler_missing (w : http.ResponseWriter) (r : Request) (cfg : config)
    (env : Env) (fs : os.FS) :
  os.Stat fs (storedPath cfg r) = inl os.ENOENT ->
  getHandler w r cfg env fs = http.NotFound w r.
Proof.
  intros H. unfold getHandler. fold (storedPath cfg r). rewrite H. reflexivity.
Qed.

Lemma getHandler_serves (w : http.ResponseWriter) (r : Request) (cfg : config)
    (env : Env) (fs : os.FS) :
  os.Stat fs (storedPath cfg r) <> inl os.ENOENT ->
  getHandler w r cfg env fs
  = http.ServeFile (Files env) (withFileHeaders w r env) r (storedPath cfg r) fs.
Proof.
  intros H. unfold getHandler. fold (storedPath cfg r).
  destruct (os.Stat fs (storedPath cfg r)) as [e|n] eqn:E.
  - destruct e; try contradiction; cbn [os.errOf os.IsNotExist];
      unfold withFileHeaders, contentTypeOf; rewrite length_zero_eqb;
      reflexivity.
  - cbn [os.errOf os.IsNotExist].
    unfold withFileHeaders, contentTypeOf. rewrite length_zero_eqb. reflexivity.
Qed.



(** What [http.ServeFile] does with a regular file in the plain case. *)
Lemma ServeFile_regular (srv : http.FileServer) (w : http.ResponseWriter)
    (r : Request) (name : string) (fs : os.FS) (data : string) :
  http.containsDotDot (URL_Path r) = false ->
  strings.HasSuffix (URL_Path r) "/index.html" = false ->
  os.Stat fs name = inr (os.File data) ->
  http.conditional r = false ->
  Method r <> "HEAD" ->
  http.Status w = None ->
  http.Status (http.ServeFile srv w r name fs) = Some 200 /\
  http.Body (http.ServeFile srv w r name fs) = (http.Body w ++ data)%string.
Proof.
  intros Hdd Hidx Hstat Hcond Hhead Hw.
  unfold http.ServeFile, http.serveContent.
  rewrite Hdd, Hidx, Hstat, Hcond.
  destruct (String.eqb_spec (Method r) "HEAD") as [|_]; [contradiction|].
  split.
  - apply Status_Write, Status_WriteHeader. exact Hw.
  - rewrite Body_Write, Body_WriteHeader. reflexivity.
Qed.

(** What it does when opening the file fails. *)
Lemma ServeFile_open_error (srv : http.FileServer) (w : http.ResponseWriter)
    (r : Request) (name : string) (fs : os.FS) (e : os.errno) :
  http.containsDotDot (URL_Path r) = false ->
  strings.HasSuffix (URL_Path r) "/index.html" = false ->
  os.Stat fs name = inl e ->
  http.Status w = None ->
  http.Status (http.ServeFile srv w r name fs)
  = Some (http.toHTTPError (http.mapOpenError fs e name)).2.
Proof.
  intros Hdd Hidx Hstat Hw. unfold http.ServeFile.
  rewrite Hdd, Hidx, Hstat.
  destruct (http.toHTTPError (http.mapOpenError fs e name)) as [msg code].
  apply Error_Status. exact Hw.
Qed.




(** An over-long file name is another such failure: stat fails with
    ENAMETOOLONG and the response is 500. *)
Lemma stat_failure_answered_500 :
  let r := Sample.get ("/files/2024/03/05/" ++ Sample.longName) in
  let routed := withVars r (Sample.vars "2024" "03" "05" Sample.longName) in
  os.Stat Sample.disk (storedPath Sample.cfg routed) = inl os.ENAMETOOLONG /\
  http.Status (serve Sample.cfg Sample.env r Sample.disk).1 = Some 500.
Proof. cbv zeta. run_all. Qed.

(** C6: the path looked up is the upload root joined with the four route
    variables as they come, whatever strings they are: when nothing is there
    the response is 404, and when a file is there it is the one served. *)
Theorem retrieval_path_is_joined (w : http.ResponseWriter) (r : Request)
    (cfg : config) (env : Env) (fs : os.FS) :
  http.Status w = None ->
  let path :=
    filepath.Join
      [UploadDir cfg; mux.Var r "year"; mux.Var r "month"; mux.Var r "day";
       mux.Var r "filename"] in
  let out := getHandler w r cfg env fs in
  (os.Stat fs path = inl os.ENOENT ->
   http.Status out = Some 404 /\
   http.Body out = (http.Body w ++ "404 page not found" ++ http.newline)%string) /\
  (forall data,
     os.Stat fs path = inr (os.File data) ->
     http.containsDotDot (URL_Path r) = false ->
     strings.HasSuffix (URL_Path r) "/index.html" = false ->
     http.conditional r = false ->
     Method r <> "HEAD" ->
     http.Status out = Some 200 /\ http.Body out = (http.Body w ++ data)%string).
Proof.
  intros Hw path out. subst out. fold (storedPath cfg r) in path. subst path.
  split.
  - intros Hstat. rewrite getHandler_missing by exact Hstat.
    split; [apply Error_Status, Hw | apply Error_Body].
  - intros data Hstat Hdd Hidx Hcond Hhead.
    rewrite getHandler_serves by (rewrite Hstat; discriminate).
    apply (ServeFile_regular (Files env) (withFileHeaders w r env) r
             (storedPath cfg r) fs data Hdd Hidx Hstat Hcond Hhead Hw).
Qed.

Lemma retrieval_path_is_joined_witness :
  let r :=
    withVars (Sample.get "/files/misc/not a month/x/README")
      (Sample.vars "misc" "not a month" "x" "README") in
  let r' :=
    withVars (Sample.get "/files/2024/03/06/cat.png")
      (Sample.vars "2024" "03" "06" "cat.png") in
  (http.Status (getHandler http.newResponse r Sample.cfg Sample.env Sample.disk)
   = Some 200 /\
   http.Body (getHandler http.newResponse r Sample.cfg Sample.env Sample.disk)
   = "read me") /\
  http.Status (getHandler http.newResponse r' Sample.cfg Sample.env Sample.disk)
  = Some 404.
Proof.
  intros r r'. split.
  - apply (proj2 (retrieval_path_is_joined http.newResponse r Sample.cfg
                    Sample.env Sample.disk eq_refl) "read me");
      solve [run].
  - apply (proj1 (retrieval_path_is_joined http.newResponse r' Sample.cfg
                    Sample.env Sample.disk eq_refl)).
    run.
Defined.

(** ** The store: a file that was created is found again *)

Lemma walk_app (fs : os.FS) (rooted : bool) (seen : list string)
    (cur : os.node) (a b : list string) :
  os.walk fs rooted seen cur (a ++ b)
  = match os.walk fs rooted seen cur a with
    | inl e => inl e
    | inr n => os.walk fs rooted (seen ++ a) n b
    end.
Proof.
  revert seen cur. induction a as [|name a IH]; intros seen cur; simpl.
  - rewrite app_nil_r. reflexivity.
  - destruct (os.lookupIn fs rooted seen cur name) as [e|[next|]]; try reflexivity.
    rewrite IH, <- app_assoc. reflexivity.
Qed.

Section Store.

Variable fs : os.FS.
Variable rooted : bool.

(** Writing a node under a name leaves the walks along shorter names alone. *)
Lemma walk_insert_shorter (elems : list string) (n : os.node)
    (seen : list string) (cur : os.node) (todo : list string) :
  (length (seen ++ todo) < length elems)%nat ->
  os.walk (<[(rooted, elems) := n]> fs) rooted seen cur todo
  = os.walk fs rooted seen cur todo.
Proof.
  revert seen cur. induction todo as [|name todo IH]; intros seen cur Hlen.
  - reflexivity.
  - simpl. unfold os.lookupIn. destruct cur as [data|acc]; [reflexivity|].
    destruct acc; [|reflexivity]. cbn [negb].
    destruct (os.NAME_MAX <? String.length name)%nat; [reflexivity|].
    rewrite lookup_insert_ne.
    + destruct (fs !! (rooted, seen ++ [name])) as [next|]; [|reflexivity].
      apply IH. rewrite <- app_assoc. exact Hlen.
    + intros [= E]. rewrite E in Hlen.
      rewrite !length_app in Hlen. simpl in Hlen. lia.
Qed.

(** Once the entry of a name resolves, a node written under the name is
    what the name resolves to. *)
Lemma resolve_written (elems : list string) (n : os.node) (x : option os.node) :
  elems <> [] ->
  os.entry fs rooted elems = inr x ->
  os.resolve (<[(rooted, elems) := n]> fs) rooted elems = inr n.
Proof.
  intros Hne Hentry. unfold os.entry in Hentry.
  destruct (List.rev elems) as [|name rparent] eqn:Erev.
  { apply (f_equal (@List.rev string)) in Erev.
    rewrite rev_involutive in Erev. contradiction. }
  assert (Helems : elems = List.rev rparent ++ [name]).
  { apply (f_equal (@List.rev string)) in Erev.
    rewrite rev_involutive in Erev. exact Erev. }
  destruct (os.resolve fs rooted (List.rev rparent)) as [e|dir] eqn:Edir;
    [discriminate|].
  unfold os.resolve. rewrite Helems at 2. rewrite walk_app.
  rewrite walk_insert_shorter
    by (rewrite Helems, !length_app; simpl; lia).
  unfold os.resolve in Edir. rewrite Edir. simpl.
  unfold os.lookupIn in *. destruct dir as [data|acc]; [discriminate|].
  destruct acc; [|discriminate]. cbn [negb] in *.
  destruct (os.NAME_MAX <? String.length name)%nat; [discriminate|].
  rewrite <- Helems, lookup_insert_eq. reflexivity.
Qed.

End Store.

(** After [os.Create] and a complete [io.Copy], [os.Stat] finds the file
    with the bytes copied. *)
Lemma Stat_created (fs fs2 fs3 : os.FS) (path data : string)
    (dst : bool * list string) :
  os.Create fs path = inr (fs2, dst) ->
  io.Copy fs2 dst data None = (fs3, true) ->
  os.Stat fs3 path = inr (os.File data).
Proof.
  unfold os.Create, io.Copy, os.write, os.Stat. cbn [fst snd].
  destruct (os.entry fs (filepath.isRooted path) (os.elements path))
    as [e|x] eqn:Eentry; [discriminate|].
  intros Hcreate Hcopy.
  assert (Hne : os.elements path <> []).
  { intros E. rewrite E in Eentry. simpl in Eentry.
    injection Eentry as <-. discriminate. }
  assert (Hfs2 : fs2 = <[(filepath.isRooted path, os.elements path)
                         := os.File EmptyString]> fs /\
                 dst = (filepath.isRooted path, os.elements path)).
  { destruct x as [[d|acc]|]; try discriminate;
      injection Hcreate as <- <-; auto. }
  destruct Hfs2 as [-> ->].
  rewrite lookup_insert_eq in Hcopy. injection Hcopy as <-.
  rewrite insert_insert_eq. simpl.
  eapply resolve_written; eauto.
Qed.

(** ** [filepath.Ext] *)

Section Ext.

Lemma extScan_stops (a b seen : list ascii) :
  List.existsb isStop a = true ->
  filepath.extScan (a ++ b) seen = filepath.extScan a seen.
Proof.
  revert seen. induction a as [|c a IH]; intros seen; simpl; [discriminate|].
  unfold isStop at 1, filepath.Separator.
  destruct (Ascii.eqb c "/"); [reflexivity|].
  destruct (Ascii.eqb c "."); [reflexivity|].
  simpl. apply IH.
Qed.

Lemma extScan_passes (a b seen : list ascii) :
  List.existsb isStop a = false ->
  filepath.extScan (a ++ b) seen = filepath.extScan b (List.rev a ++ seen).
Proof.
  revert seen. induction a as [|c a IH]; intros seen; simpl; [reflexivity|].
  unfold isStop at 1, filepath.Separator.
  destruct (Ascii.eqb c "/"); [discriminate|].
  destruct (Ascii.eqb c "."); [discriminate|].
  simpl. intros H. rewrite IH by exact H.
  rewrite <- app_assoc. reflexivity.
Qed.

Lemma existsb_isStop (s : string) :
  List.existsb isStop (List.rev (list_ascii_of_string s))
  = strings.ContainsByte s "/" || strings.ContainsByte s ".".
Proof.
  induction s as [|c s IH]; [reflexivity|].
  simpl. rewrite existsb_app, IH. simpl. unfold isStop.
  destruct (Ascii.eqb c "/"), (Ascii.eqb c "."),
    (strings.ContainsByte s "/"), (strings.ContainsByte s "."); reflexivity.
Qed.

(** The loop of [filepath.Ext], read from the front of the path. *)
Lemma Ext_cons (c : ascii) (s : string) :
  filepath.Ext (String c s)
  = if strings.ContainsByte s "/" || strings.ContainsByte s "."
    then filepath.Ext s
    else if Ascii.eqb c "." then String c s else EmptyString.
Proof.
  unfold filepath.Ext. simpl.
  destruct (strings.ContainsByte s "/" || strings.ContainsByte s ".") eqn:E;
    rewrite <- existsb_isStop in E.
  - rewrite extScan_stops by exact E. reflexivity.
  - rewrite extScan_passes by exact E. simpl.
    unfold filepath.Separator.
    destruct (Ascii.eqb_spec c "/") as [->|_]; [reflexivity|].
    destruct (Ascii.eqb c "."); [|reflexivity].
    rewrite rev_involutive, app_nil_r. simpl.
    rewrite string_of_list_ascii_of_string. reflexivity.
Qed.

Lemma lastElement_same (s : string) :
  strings.ContainsByte s "/" = false -> lastElement s = s.
Proof.
  destruct s as [|c s]; [reflexivity|]. simpl.
  destruct (Ascii.eqb c "/"); [discriminate|]. simpl.
  intros ->. reflexivity.
Qed.

Lemma fromLastDot_none (s : string) :
  strings.ContainsByte s "." = false -> fromLastDot s = EmptyString.
Proof.
  destruct s as [|c s]; [reflexivity|]. simpl.
  destruct (Ascii.eqb c "."); [discriminate|]. simpl.
  intros ->. reflexivity.
Qed.

(** [filepath.Ext] is what starts at the last dot of the last element. *)
Lemma Ext_fromLastDot (path : string) :
  filepath.Ext path = fromLastDot (lastElement path).
Proof.
  induction path as [|c s IH]; [reflexivity|].
  rewrite Ext_cons. cbn [lastElement].
  destruct (strings.ContainsByte s "/") eqn:Eslash; cbn [orb]; [exact IH|].
  rewrite lastElement_same in IH by exact Eslash.
  destruct (strings.ContainsByte s ".") eqn:Edot.
  - rewrite IH. destruct (Ascii.eqb c "/"); [reflexivity|].
    cbn [fromLastDot]. rewrite Edot. reflexivity.
  - destruct (Ascii.eqb_spec c "/") as [->|Hc].
    + simpl. rewrite fromLastDot_none by exact Edot. reflexivity.
    + cbn [fromLastDot]. rewrite Edot. reflexivity.
Qed.

(** An extension is empty, or a dot followed by bytes that are neither a dot
    nor a separator. *)
Lemma Ext_shape (path : string) :
  filepath.Ext path = EmptyString \/
  exists t, filepath.Ext path = String "." t /\
            strings.ContainsByte t "." = false /\
            strings.ContainsByte t "/" = false.
Proof.
  induction path as [|c s IH]; [left; reflexivity|].
  rewrite Ext_cons.
  destruct (strings.ContainsByte s "/") eqn:Eslash; cbn [orb]; [exact IH|].
  destruct (strings.ContainsByte s ".") eqn:Edot; [exact IH|].
  destruct (Ascii.eqb_spec c ".") as [->|_]; [|left; reflexivity].
  right. exists s. auto.
Qed.

End Ext.

(** ** More on strings *)

Lemma sapp_assoc (a b c : string) : ((a ++ b) ++ c = a ++ (b ++ c))%string.
Proof. induction a as [|x a IH]; simpl; [reflexivity | rewrite IH; reflexivity]. Qed.

Lemma sapp_nil_r (a : string) : (a ++ EmptyString)%string = a.
Proof. induction a as [|x a IH]; simpl; [reflexivity | rewrite IH; reflexivity]. Qed.

Lemma slength_app (a b : string) :
  String.length (a ++ b) = (String.length a + String.length b)%nat.
Proof. induction a as [|x a IH]; simpl; [reflexivity | rewrite IH; reflexivity]. Qed.

(** ** [fmt] and [uuid] *)

Lemma below_100 (P : Z -> bool) :
  List.forallb (fun k => P (Z.of_nat k)) (List.seq 0 100) = true ->
  forall n, 0 <= n < 100 -> P n = true.
Proof.
  intros H n Hn. rewrite forallb_forall in H.
  specialize (H (Z.to_nat n)). rewrite Z2Nat.id in H by lia.
  apply H. apply in_seq. lia.
Qed.

(** Verb [%02d] writes a number from 0 to 99 in exactly two digits. *)
Lemma verb_0d_two_digits (n : Z) :
  0 <= n < 100 -> fmt.verb_0d 2 n = twoDigits n.
Proof.
  intros Hn. apply String.eqb_eq.
  apply (below_100 (fun n => String.eqb (fmt.verb_0d 2 n) (twoDigits n)));
    [vm_compute; reflexivity | exact Hn].
Qed.

Lemma hexEncode_length (src : list ascii) :
  String.length (uuid.hexEncode src) = (2 * length src)%nat.
Proof. induction src as [|b src IH]; simpl; [reflexivity | rewrite IH; lia]. Qed.

Lemma uuid_String_length (u : uuid.UUID) :
  String.length (uuid.String_ u) = 36%nat.
Proof.
  unfold uuid.String_. rewrite !slength_app, !hexEncode_length.
  unfold uuid.slice. rewrite !length_map, !length_seq. reflexivity.
Qed.

(** ** Ingest: what a success is *)

Lemma timeNameString_relativePath (now : Time) (id : uuid.UUID) (ext : string) :
  ((fmt.verb_d (Year now) ++ "/" ++ fmt.verb_0d 2 (Month now) ++ "/"
    ++ fmt.verb_0d 2 (Day now)) ++ "/" ++ (uuid.String_ id ++ ext))%string
  = relativePath now id ext.
Proof. unfold relativePath. rewrite !sapp_assoc. reflexivity. Qed.

(** A response 200 of the ingest handler means that every step was taken. *)
Lemma upload_success (w : http.ResponseWriter) (r : Request) (cfg : config)
    (env : Env) (fs : os.FS) :
  http.Status w = None ->
  http.Status (uploadHander w r cfg env fs).1 = Some 200 ->
  exists header fs1 fs2 dst fs3,
    FormFile r "file" = Some header /\
    let rel :=
      relativePath (Now env) (NewUUID env) (filepath.Ext (Filename header)) in
    os.Create fs1 (filepath.Join [UploadDir cfg; rel]) = inr (fs2, dst) /\
    io.Copy fs2 dst (Content header) None = (fs3, true) /\
    uploadHander w r cfg env fs
    = (http.Write (http.WriteHeader w 200) (AccessPrefix cfg ++ "/" ++ rel), fs3).
Proof.
  intros Hw. unfold uploadHander.
  destruct (negb (String.eqb (Method r) http.MethodPost)).
  { cbn [fst]. rewrite Error_Status by exact Hw. discriminate. }
  destruct (basicAuth r cfg).
  { cbn [fst]. rewrite Error_Status by exact Hw. discriminate. }
  destruct (FormFile r "file") as [header|].
  2: { cbn [fst]. rewrite Error_Status by exact Hw. discriminate. }
  cbv zeta. rewrite timeNameString_relativePath.
  set (rel := relativePath (Now env) (NewUUID env)
                (filepath.Ext (Filename header))).
  destruct (os.MkdirAll fs _) as [[e|] fs1].
  { cbn [fst]. rewrite Error_Status by exact Hw. discriminate. }
  destruct (os.Create fs1 _) as [e|[fs2 dst]] eqn:Ecreate.
  { cbn [fst]. rewrite Error_Status by exact Hw. discriminate. }
  destruct (CopyFault env) as [n|].
  { cbn [io.Copy negb fst]. rewrite Error_Status by exact Hw. discriminate. }
  cbn [io.Copy negb]. intros _.
  exists header, fs1, fs2, dst, (os.write fs2 dst (Content header)).
  auto.
Qed.




(** ** Plain strings: the date and the id hold no separator and no dot *)

Section Plain.

Lemma plain_app (a b : string) : plain (a ++ b) = plain a && plain b.
Proof.
  induction a as [|c a IH]; simpl; [reflexivity|].
  rewrite IH. apply andb_assoc.
Qed.

Lemma plain_no_slash (s : string) :
  plain s = true -> strings.ContainsByte s "/" = false.
Proof.
  induction s as [|c s IH]; simpl; [reflexivity|]. unfold isStop.
  destruct (Ascii.eqb c "/"); [discriminate|].
  intros H. apply andb_true_iff in H as [_ H]. auto.
Qed.

Lemma plain_no_dot (s : string) :
  plain s = true -> strings.ContainsByte s "." = false.
Proof.
  induction s as [|c s IH]; simpl; [reflexivity|]. unfold isStop.
  destruct (Ascii.eqb c "."); [rewrite orb_true_r; discriminate|].
  intros H. apply andb_true_iff in H as [_ H]. auto.
Qed.

Lemma plain_uint (u : Decimal.uint) : plain (NilEmpty.string_of_uint u) = true.
Proof. induction u; simpl; auto. Qed.

Lemma plain_digits (n : Z) : plain (fmt.digits n) = true.
Proof.
  unfold fmt.digits, NilZero.string_of_uint.
  destruct (N.to_uint (Z.to_N n)) eqn:E; try reflexivity;
    rewrite <- E; apply plain_uint.
Qed.

Lemma digits_not_empty (n : Z) : fmt.digits n <> EmptyString.
Proof.
  unfold fmt.digits, NilZero.string_of_uint.
  destruct (N.to_uint (Z.to_N n)); simpl; discriminate.
Qed.

Lemma plain_zeros (k : nat) : plain (fmt.zeros k) = true.
Proof. induction k; simpl; auto. Qed.

Lemma plain_verb_d (n : Z) : plain (fmt.verb_d n) = true.
Proof.
  unfold fmt.verb_d. destruct (n <? 0); [simpl|]; apply plain_digits.
Qed.

Lemma plain_verb_0d (width : nat) (n : Z) : plain (fmt.verb_0d width n) = true.
Proof.
  unfold fmt.verb_0d. destruct (n <? 0); [simpl|];
    rewrite plain_app, plain_zeros, plain_digits; reflexivity.
Qed.

Lemma sapp_not_empty_r (a b : string) :
  b <> EmptyString -> (a ++ b)%string <> EmptyString.
Proof. destruct a; simpl; [auto | discriminate]. Qed.

Lemma verb_d_not_empty (n : Z) : fmt.verb_d n <> EmptyString.
Proof.
  unfold fmt.verb_d. destruct (n <? 0); [discriminate | apply digits_not_empty].
Qed.

Lemma verb_0d_not_empty (width : nat) (n : Z) :
  fmt.verb_0d width n <> EmptyString.
Proof.
  unfold fmt.verb_0d. destruct (n <? 0); [discriminate|].
  apply sapp_not_empty_r, digits_not_empty.
Qed.

Lemma hexDigit_plain (n : N) : isStop (uuid.hexDigit n) = false.
Proof.
  unfold uuid.hexDigit. generalize (N.to_nat n). intros k.
  do 16 (destruct k as [|k]; [reflexivity|]). reflexivity.
Qed.

Lemma plain_hexEncode (src : list ascii) : plain (uuid.hexEncode src) = true.
Proof.
  induction src as [|b src IH]; simpl; [reflexivity|].
  rewrite !hexDigit_plain, IH. reflexivity.
Qed.

Lemma plain_uuid (u : uuid.UUID) : plain (uuid.String_ u) = true.
Proof.
  unfold uuid.String_. rewrite !plain_app, !plain_hexEncode. reflexivity.
Qed.

(** A plain string that is not empty is an element [Clean] keeps. *)
Lemma plain_goodElem (s : string) :
  plain s = true -> s <> EmptyString -> goodElem s = true.
Proof.
  destruct s as [|c s]; [contradiction|]. intros H _.
  simpl in H. apply andb_true_iff in H as [Hc _].
  unfold goodElem, isStop in *. simpl.
  destruct (Ascii.eqb_spec c ".") as [->|Hne].
  - rewrite orb_true_r in Hc. discriminate.
  - destruct (Ascii.eqb_spec "." c); [congruence | reflexivity].
Qed.

End Plain.

(** ** Splitting and joining at the separator *)

Section SplitJoin.

Variable sep : ascii.

Lemma Split_not_nil (s : string) : strings.Split s sep <> [].
Proof.
  unfold strings.Split. destruct s as [|c s]; simpl; [discriminate|].
  destruct (Ascii.eqb sep c); [discriminate|].
  destruct (strings.SplitFunc (Ascii.eqb sep) s); discriminate.
Qed.

Lemma Split_cons_sep (s : string) :
  strings.Split (String sep s) sep = EmptyString :: strings.Split s sep.
Proof. unfold strings.Split. simpl. rewrite Ascii.eqb_refl. reflexivity. Qed.

Lemma Split_no_sep (s : string) :
  strings.ContainsByte s sep = false -> strings.Split s sep = [s].
Proof.
  unfold strings.Split. induction s as [|c s IH]; simpl; [reflexivity|].
  rewrite Ascii.eqb_sym. destruct (Ascii.eqb sep c); [discriminate|].
  simpl. intros H. rewrite IH by exact H. reflexivity.
Qed.

Lemma Split_app (a b : string) :
  strings.Split (a ++ String sep b) sep
  = strings.Split a sep ++ strings.Split b sep.
Proof.
  induction a as [|c a IH].
  - simpl. apply Split_cons_sep.
  - unfold strings.Split in *. simpl.
    destruct (Ascii.eqb sep c).
    + rewrite IH. reflexivity.
    + rewrite IH.
      pose proof (Split_not_nil a) as Hne. unfold strings.Split in Hne.
      destruct (strings.SplitFunc (Ascii.eqb sep) a); [contradiction|].
      reflexivity.
Qed.

Lemma Join_cons (e : string) (rest : list string) :
  rest <> [] ->
  strings.Join (e :: rest) (String sep EmptyString)
  = (e ++ String sep (strings.Join rest (String sep EmptyString)))%string.
Proof. destruct rest; [contradiction | reflexivity]. Qed.

Lemma Join_Split (s : string) :
  strings.Join (strings.Split s sep) (String sep EmptyString) = s.
Proof.
  induction s as [|c s IH]; [reflexivity|].
  pose proof (Split_not_nil s) as Hne.
  unfold strings.Split in *. simpl.
  destruct (Ascii.eqb_spec sep c) as [E|Hc].
  - rewrite <- E. rewrite Join_cons by exact Hne. simpl. rewrite IH.
    reflexivity.
  - destruct (strings.SplitFunc (Ascii.eqb sep) s) as [|piece pieces];
      [contradiction|].
    destruct pieces as [|p2 pieces].
    + simpl in *. rewrite IH. reflexivity.
    + rewrite Join_cons by discriminate.
      rewrite Join_cons in IH by discriminate.
      cbn [String.append]. f_equal. exact IH.
Qed.

End SplitJoin.

(** ** [filepath.Clean] and the router's [cleanPath] on a clean path *)

Lemma cleanStep_good (rooted : bool) (kept : list string) (e : string) :
  goodElem e = true -> filepath.cleanStep rooted kept e = e :: kept.
Proof.
  unfold goodElem, filepath.cleanStep. intros H.
  apply negb_true_iff in H.
  apply orb_false_elim in H as [H H3]. apply orb_false_elim in H as [H1 H2].
  rewrite H1, H2, H3. reflexivity.
Qed.

Lemma fold_cleanStep_good (rooted : bool) (elems kept : list string) :
  List.forallb goodElem elems = true ->
  List.fold_left (filepath.cleanStep rooted) elems kept
  = List.rev elems ++ kept.
Proof.
  revert kept. induction elems as [|e elems IH]; intros kept; simpl;
    [reflexivity|].
  intros H. apply andb_true_iff in H as [He H].
  rewrite cleanStep_good by exact He. rewrite IH by exact H.
  rewrite <- app_assoc. reflexivity.
Qed.

(** A rooted path whose elements are all good is clean. *)
Lemma Clean_rooted_good (rest : string) :
  List.forallb goodElem (strings.Split rest "/") = true ->
  filepath.Clean (String "/" rest) = String "/" rest.
Proof.
  intros H. unfold filepath.Clean, filepath.cleanElems, filepath.Separator.
  cbn [filepath.isRooted]. unfold filepath.Separator.
  rewrite Ascii.eqb_refl, Split_cons_sep. cbn [List.fold_left].
  replace (filepath.cleanStep true [] EmptyString) with (@nil string)
    by reflexivity.
  rewrite fold_cleanStep_good by exact H.
  rewrite app_nil_r, rev_involutive, Join_Split. reflexivity.
Qed.

Section Suffix.

Lemma HasSuffix_app_short (pre f suffix : string) :
  (String.length suffix <= String.length f)%nat ->
  strings.HasSuffix (pre ++ f) suffix = strings.HasSuffix f suffix.
Proof.
  intros Hlen. induction pre as [|c pre IH]; [reflexivity|].
  cbn [String.append strings.HasSuffix]. rewrite IH.
  destruct (String.eqb_spec (String c (pre ++ f)) suffix) as [E|_];
    [|reflexivity].
  apply (f_equal String.length) in E. simpl in E.
  rewrite slength_app in E. lia.
Qed.

Lemma HasSuffix_contains (f suffix : string) (c : ascii) :
  strings.HasSuffix f (String c suffix) = true ->
  strings.ContainsByte f c = true.
Proof.
  induction f as [|x f IH]; intros H.
  - simpl in H. discriminate.
  - cbn [strings.HasSuffix strings.ContainsByte] in *.
    destruct (Ascii.eqb_spec x c) as [->|Hne]; [reflexivity|].
    cbn [orb]. apply IH.
    assert (Hdiff : String.eqb (String x f) (String c suffix) = false).
    { simpl. destruct (Ascii.eqb_spec x c); [contradiction | reflexivity]. }
    rewrite Hdiff in H. exact H.
Qed.

(** A path that ends in a name of some length without separator does not
    end in a shorter text that starts with the separator. *)
Lemma HasSuffix_after_name (pre f suffix : string) :
  strings.ContainsByte f "/" = false ->
  (String.length (String "/" suffix) <= String.length f)%nat ->
  strings.HasSuffix (pre ++ f) (String "/" suffix) = false.
Proof.
  intros Hf Hlen. rewrite HasSuffix_app_short by exact Hlen.
  destruct (strings.HasSuffix f (String "/" suffix)) eqn:E; [|reflexivity].
  apply HasSuffix_contains in E. congruence.
Qed.

End Suffix.

(** ** No ".." in the URL of a stored file *)

Section NoDotDot.

Lemma Contains_dotdot_cons (c : ascii) (s : string) :
  strings.Contains (String c s) ".."
  = (Ascii.eqb "." c && strings.HasPrefix s ".") || strings.Contains s "..".
Proof.
  cbn [strings.Contains]. f_equal.
  unfold strings.HasPrefix. cbn [strings.TrimPrefix].
  destruct (Ascii.eqb "." c); [|reflexivity].
  destruct s as [|b s]; [reflexivity|]. cbn [strings.TrimPrefix andb].
  destruct (Ascii.eqb "." b); reflexivity.
Qed.

Lemma noDotDot_no_dot (s : string) :
  strings.ContainsByte s "." = false -> strings.Contains s ".." = false.
Proof.
  induction s as [|c s IH]; [reflexivity|].
  rewrite Contains_dotdot_cons. cbn [strings.ContainsByte].
  rewrite Ascii.eqb_sym.
  destruct (Ascii.eqb "." c); [discriminate|]. cbn [orb andb]. exact IH.
Qed.

Lemma noDotDot_app_no_dot (a b : string) :
  strings.ContainsByte a "." = false ->
  strings.Contains b ".." = false ->
  strings.Contains (a ++ b) ".." = false.
Proof.
  intros Ha Hb. induction a as [|c a IH]; [exact Hb|].
  cbn [String.append]. rewrite Contains_dotdot_cons.
  cbn [strings.ContainsByte] in Ha. rewrite Ascii.eqb_sym in Ha.
  destruct (Ascii.eqb "." c); [discriminate|]. cbn [orb andb] in *. auto.
Qed.

Lemma HasPrefix_dot_app (a b : string) :
  a <> EmptyString ->
  strings.HasPrefix (a ++ b) "." = strings.HasPrefix a ".".
Proof.
  destruct a as [|c a]; [contradiction|]. intros _.
  unfold strings.HasPrefix. cbn [String.append strings.TrimPrefix].
  destruct (Ascii.eqb "." c); reflexivity.
Qed.

Lemma noDotDot_app_sep (a b : string) (x : ascii) :
  strings.Contains a ".." = false ->
  Ascii.eqb "." x = false ->
  strings.Contains (String x b) ".." = false ->
  strings.Contains (a ++ String x b) ".." = false.
Proof.
  intros Ha Hx Hb. induction a as [|c a IH]; [exact Hb|].
  cbn [String.append]. rewrite Contains_dotdot_cons in Ha |- *.
  apply orb_false_elim in Ha as [Hc Ha]. rewrite (IH Ha), orb_false_r.
  destruct (Ascii.eqb "." c); [|reflexivity]. cbn [andb] in *.
  destruct a as [|c' a].
  - cbn [String.append]. unfold strings.HasPrefix.
    cbn [strings.TrimPrefix]. rewrite Hx. reflexivity.
  - rewrite HasPrefix_dot_app by discriminate. exact Hc.
Qed.

Lemma noDotDot_slash (s : string) :
  strings.Contains s ".." = false ->
  strings.Contains (String "/" s) ".." = false.
Proof. intros H. rewrite Contains_dotdot_cons. exact H. Qed.

Lemma Ext_noDotDot (name : string) :
  strings.Contains (filepath.Ext name) ".." = false.
Proof.
  destruct (Ext_shape name) as [->|(t & -> & Hdot & _)]; [reflexivity|].
  rewrite Contains_dotdot_cons, (noDotDot_no_dot _ Hdot), orb_false_r.
  rewrite Ascii.eqb_refl. cbn [andb].
  destruct t as [|b t]; [reflexivity|].
  unfold strings.HasPrefix. cbn [strings.TrimPrefix].
  cbn [strings.ContainsByte] in Hdot. rewrite Ascii.eqb_sym in Hdot.
  destruct (Ascii.eqb "." b); [discriminate | reflexivity].
Qed.

Lemma Ext_no_slash (name : string) :
  strings.ContainsByte (filepath.Ext name) "/" = false.
Proof.
  destruct (Ext_shape name) as [->|(t & -> & _ & Hslash)]; [reflexivity|].
  simpl. exact Hslash.
Qed.

End NoDotDot.

(** ** The name of a stored file and its URL *)

Section StoredName.

Variables (now : Time) (id : uuid.UUID) (name : string).

#[local] Abbreviation year := (fmt.verb_d (Year now)).
#[local] Abbreviation month := (fmt.verb_0d 2 (Month now)).
#[local] Abbreviation day := (fmt.verb_0d 2 (Day now)).
#[local] Abbreviation filename := (uuid.String_ id ++ filepath.Ext name)%string.

Lemma relativePath_joined :
  relativePath now id (filepath.Ext name)
  = strings.Join [year; month; day; filename] "/".
Proof. reflexivity. Qed.

Lemma filename_no_slash : strings.ContainsByte filename "/" = false.
Proof.
  rewrite ContainsByte_app, Ext_no_slash.
  rewrite plain_no_slash by apply plain_uuid. reflexivity.
Qed.

Lemma filename_long : (36 <= String.length filename)%nat.
Proof. rewrite slength_app, uuid_String_length. lia. Qed.

Lemma filename_not_empty : filename <> EmptyString.
Proof.
  intros E. pose proof filename_long as Hlen. rewrite E in Hlen.
  simpl in Hlen. lia.
Qed.

Lemma filename_good : goodElem filename = true.
Proof.
  pose proof (uuid_String_length id) as Hlen.
  pose proof (plain_uuid id) as Hplain.
  destruct (uuid.String_ id) as [|c s]; [discriminate|].
  cbn [plain] in Hplain. apply andb_true_iff in Hplain as [Hc _].
  unfold isStop in Hc. apply negb_true_iff, orb_false_elim in Hc as [_ Hc].
  unfold goodElem. cbn [String.append String.eqb].
  rewrite Hc. reflexivity.
Qed.

Lemma filename_noDotDot : strings.Contains filename ".." = false.
Proof.
  apply noDotDot_app_no_dot.
  - apply plain_no_dot, plain_uuid.
  - apply Ext_noDotDot.
Qed.

Lemma Split_relativePath :
  strings.Split (relativePath now id (filepath.Ext name)) "/"
  = [year; month; day; filename].
Proof.
  change (relativePath now id (filepath.Ext name))
    with (year ++ String "/" (month ++ String "/" (day ++ String "/" filename)))%string.
  rewrite !Split_app.
  rewrite (Split_no_sep _ _ filename_no_slash).
  rewrite !Split_no_sep; [reflexivity | | |];
    apply plain_no_slash;
    first [apply plain_verb_0d | apply plain_verb_d].
Qed.

Lemma relativePath_good :
  List.forallb goodElem
    (strings.Split (relativePath now id (filepath.Ext name)) "/") = true.
Proof.
  rewrite Split_relativePath. cbn [List.forallb].
  rewrite filename_good.
  rewrite !plain_goodElem; [reflexivity | | | | | |];
    first [ apply plain_verb_0d | apply plain_verb_d
          | apply verb_0d_not_empty | apply verb_d_not_empty ].
Qed.

Lemma relativePath_noDotDot :
  strings.Contains (relativePath now id (filepath.Ext name)) ".." = false.
Proof.
  unfold relativePath.
  apply noDotDot_app_no_dot; [apply plain_no_dot, plain_verb_d|].
  apply noDotDot_slash.
  apply noDotDot_app_no_dot; [apply plain_no_dot, plain_verb_0d|].
  apply noDotDot_slash.
  apply noDotDot_app_no_dot; [apply plain_no_dot, plain_verb_0d|].
  apply noDotDot_slash. apply filename_noDotDot.
Qed.

(** The relative path ends in the file name. *)
Lemma relativePath_ends :
  exists pre, relativePath now id (filepath.Ext name) = (pre ++ filename)%string.
Proof.
  exists (year ++ "/" ++ month ++ "/" ++ day ++ "/")%string.
  unfold relativePath. rewrite !sapp_assoc. reflexivity.
Qed.

(** Joining the root with the relative path, or with its four elements. *)
Lemma Join_relativePath (root : string) :
  filepath.Join [root; relativePath now id (filepath.Ext name)]
  = filepath.Join [root; year; month; day; filename].
Proof.
  rewrite relativePath_joined.
  pose proof (verb_d_not_empty (Year now)) as Hy.
  cbn [filepath.Join].
  destruct (String.eqb root EmptyString); [|reflexivity].
  destruct (String.eqb_spec year EmptyString) as [|_]; [contradiction|].
  destruct (String.eqb_spec (strings.Join [year; month; day; filename] "/")
              EmptyString) as [E|_]; [|reflexivity].
  exfalso. cbn [strings.Join] in E.
  destruct year; [contradiction | discriminate].
Qed.

End StoredName.

(** ** Routing the URL of a stored file *)

Section Routing.

Variables (cfg : config) (now : Time) (id : uuid.UUID) (name : string).

Hypothesis prefix_ok : validPrefix (AccessPrefix cfg) = true.

#[local] Abbreviation rel := (relativePath now id (filepath.Ext name)).
#[local] Abbreviation url := (AccessPrefix cfg ++ "/" ++ rel)%string.
#[local] Abbreviation filename :=
  (uuid.String_ id ++ filepath.Ext name)%string.

Lemma url_elements_good :
  List.forallb goodElem (strings.Split url "/") = true.
Proof.
  change url with (AccessPrefix cfg ++ String "/" rel)%string.
  rewrite Split_app, forallb_app.
  unfold validPrefix in prefix_ok.
  apply andb_true_iff in prefix_ok as [-> _].
  apply relativePath_good.
Qed.

Lemma url_noDotDot : strings.Contains (String "/" url) ".." = false.
Proof.
  apply noDotDot_slash.
  unfold validPrefix in prefix_ok.
  apply andb_true_iff in prefix_ok as [_ Hp]. apply negb_true_iff in Hp.
  apply noDotDot_app_sep; [exact Hp | reflexivity|].
  apply noDotDot_slash. apply relativePath_noDotDot.
Qed.

Lemma url_ends : exists pre, String "/" url = (pre ++ filename)%string.
Proof.
  destruct (relativePath_ends now id name) as [pre Hpre].
  exists (String "/" (AccessPrefix cfg ++ "/" ++ pre))%string.
  rewrite Hpre. cbn [String.append]. rewrite !sapp_assoc. reflexivity.
Qed.

Lemma url_no_index :
  strings.HasSuffix (String "/" url) "/index.html" = false.
Proof.
  destruct url_ends as [pre ->].
  apply HasSuffix_after_name.
  - apply filename_no_slash.
  - pose proof (filename_long id name). simpl String.length at 1. lia.
Qed.

Lemma url_no_final_slash : http.lastByteIs (String "/" url) "/" = false.
Proof.
  destruct url_ends as [pre ->]. unfold http.lastByteIs.
  apply HasSuffix_after_name.
  - apply filename_no_slash.
  - pose proof (filename_long id name). simpl String.length at 1. lia.
Qed.

Lemma url_is_clean : mux.cleanPath (String "/" url) = String "/" url.
Proof.
  unfold mux.cleanPath. cbn [String.eqb filepath.isRooted].
  unfold filepath.Separator. rewrite Ascii.eqb_refl.
  rewrite url_no_final_slash. cbn [andb].
  apply Clean_rooted_good, url_elements_good.
Qed.

Lemma url_is_not_upload :
  mux.matchTemplate "/upload" [] (String "/" url) = None.
Proof.
  unfold mux.matchTemplate.
  destruct (strings.TrimPrefix "/upload" (String "/" url)) as [rest|] eqn:E;
    [|reflexivity].
  destruct (String.eqb_spec rest EmptyString) as [->|_]; [|reflexivity].
  apply TrimPrefix_Some in E. cbn [String.append] in E. injection E as E.
  apply (f_equal (fun s => strings.ContainsByte s "/")) in E.
  rewrite ContainsByte_app in E. cbn [String.append strings.ContainsByte] in E.
  rewrite Ascii.eqb_refl, orb_true_r in E. discriminate.
Qed.

Lemma url_matches :
  mux.matchTemplate ("/" ++ AccessPrefix cfg ++ "/")
    ["year"; "month"; "day"; "filename"] (String "/" url)
  = Some (<["year" := fmt.verb_d (Year now)]>
            (<["month" := fmt.verb_0d 2 (Month now)]>
               (<["day" := fmt.verb_0d 2 (Day now)]>
                  (<["filename" := filename]> ∅)))).
Proof.
  unfold mux.matchTemplate.
  replace (String "/" url)
    with (("/" ++ AccessPrefix cfg ++ "/") ++ rel)%string
    by (cbn [String.append]; rewrite sapp_assoc; reflexivity).
  rewrite TrimPrefix_app.
  rewrite Split_relativePath. cbn [mux.bindVars].
  assert (Hne : forall s, s <> EmptyString -> strings.nonEmpty s = true).
  { intros s Hs. unfold strings.nonEmpty.
    destruct (String.eqb_spec s EmptyString); [contradiction | reflexivity]. }
  rewrite (Hne _ (verb_d_not_empty _)), !(Hne _ (verb_0d_not_empty _ _)).
  rewrite (Hne _ (filename_not_empty id name)). reflexivity.
Qed.

End Routing.

(** ** Ingest, then retrieval *)

Lemma containsDotDot_none (v : string) :
  strings.Contains v ".." = false -> http.containsDotDot v = false.
Proof. intros H. unfold http.containsDotDot. rewrite H. reflexivity. Qed.

Lemma route_vars (y m d f : string) :
  let vars : gmap string string :=
    <["year" := y]> (<["month" := m]> (<["day" := d]> (<["filename" := f]> ∅)))
  in
  vars !! "year" = Some y /\ vars !! "month" = Some m /\
  vars !! "day" = Some d /\ vars !! "filename" = Some f.
Proof.
  cbv zeta. repeat match goal with |- _ /\ _ => split end.
  - apply lookup_insert_eq.
  - rewrite lookup_insert_ne by discriminate. apply lookup_insert_eq.
  - rewrite !lookup_insert_ne by discriminate. apply lookup_insert_eq.
  - rewrite !lookup_insert_ne by discriminate. apply lookup_insert_eq.
Qed.

(** A GET without headers for the URL of a stored file reaches
    [getHandler], which serves the file. *)
Lemma retrieve_stored (cfg : config) (env : Env) (now : Time) (id : uuid.UUID)
    (name data : string) (fs : os.FS) :
  validPrefix (AccessPrefix cfg) = true ->
  let rel := relativePath now id (filepath.Ext name) in
  os.Stat fs (filepath.Join [UploadDir cfg; rel]) = inr (os.File data) ->
  let out := serve cfg env (plainGet (String "/" (AccessPrefix cfg ++ "/" ++ rel))) fs in
  http.Status out.1 = Some 200 /\ http.Body out.1 = data /\ out.2 = fs.
Proof.
  intros Hprefix rel Hstat out. subst out rel.
  unfold serve, plainGet. cbn [URL_Path].
  rewrite url_is_clean by exact Hprefix.
  rewrite String.eqb_refl. cbn [negb].
  rewrite url_is_not_upload, url_matches.
  match goal with |- context [withVars ?r ?v] => set (get := withVars r v) end.
  destruct (route_vars (fmt.verb_d (Year now)) (fmt.verb_0d 2 (Month now))
              (fmt.verb_0d 2 (Day now))
              (uuid.String_ id ++ filepath.Ext name)%string)
    as (Hy & Hm & Hd & Hf).
  assert (Hpath : storedPath cfg get
                  = filepath.Join
                      [UploadDir cfg; relativePath now id (filepath.Ext name)]).
  { rewrite Join_relativePath. unfold storedPath, mux.Var, get, withVars.
    cbn [Vars]. rewrite Hy, Hm, Hd, Hf. reflexivity. }
  cbn [fst snd]. split; [|split; [|reflexivity]].
  all: rewrite getHandler_serves by (rewrite Hpath, Hstat; discriminate).
  all: rewrite Hpath.
  all: apply (ServeFile_regular (Files env)
                (withFileHeaders http.newResponse get env) get
                (filepath.Join
                   [UploadDir cfg; relativePath now id (filepath.Ext name)])
                fs data);
         [ apply containsDotDot_none, (url_noDotDot cfg now id name Hprefix)
         | apply (url_no_index cfg now id name)
         | exact Hstat
         | reflexivity
         | discriminate
         | reflexivity ].
Qed.



(** The sample run, computed: the URL returned, and the retrieval of it. *)
Example sample_roundtrip :
  let ingest :=
    serve Sample.cfg Sample.env (Sample.upload "photo.png" "PNG") Sample.disk in
  let retrieval :=
    serve Sample.cfg Sample.env (plainGet ("/" ++ http.Body ingest.1)) ingest.2 in
  http.Body ingest.1
  = "files/2024/03/05/01234567-89ab-cdef-0011-2233445566ff.png" /\
  http.Status retrieval.1 = Some 200 /\
  http.Body retrieval.1 = "PNG" /\
  http.RHeader retrieval.1 !! "Content-Type" = Some ["image/png"].
Proof. cbv zeta. run_all. Qed.

(** * Further properties of the handlers

    What follows is about the same handlers and the same router: when an
    ingest succeeds and when it cannot, what it leaves in the store, where
    its file lies, what a retrieval can reach, and what the credential check
    lets in.  As before, the access prefix is literal text of the retrieval
    route (it holds no brace). *)

(** ** Ingest: the answers it can give *)

(** X1: The ingest handler answers 200, 400, 401, 405 or 500 and nothing else;
    with 400, 401 and 405 the store is as it was, and the body of a 500 is the
    fixed text, whatever went wrong. *)
Theorem upload_status_codes (w : http.ResponseWriter) (r : Request)
    (cfg : config) (env : Env) (fs : os.FS) :
  http.Status w = None ->
  let out := uploadHander w r cfg env fs in
  (exists code,
     http.Status out.1 = Some code /\ In code [200; 400; 401; 405; 500]) /\
  (http.Status out.1 = Some 400 \/ http.Status out.1 = Some 401 \/
   http.Status out.1 = Some 405 -> out.2 = fs) /\
  (http.Status out.1 = Some 500 ->
   http.Body out.1
   = (http.Body w ++ "Internal Server Error" ++ http.newline)%string).
Proof.
  intros Hw out. subst out. unfold uploadHander.
  assert (Hno : forall msg code (fs' : os.FS),
            In code [200; 400; 401; 405; 500] ->
            (code = 500 -> msg = "Internal Server Error") ->
            (code = 500 \/ fs' = fs) ->
            (exists c, http.Status (http.Error w msg code, fs').1 = Some c /\
                       In c [200; 400; 401; 405; 500]) /\
            (http.Status (http.Error w msg code, fs').1 = Some 400 \/
             http.Status (http.Error w msg code, fs').1 = Some 401 \/
             http.Status (http.Error w msg code, fs').1 = Some 405 ->
             (http.Error w msg code, fs').2 = fs) /\
            (http.Status (http.Error w msg code, fs').1 = Some 500 ->
             http.Body (http.Error w msg code, fs').1
             = (http.Body w ++ "Internal Server Error" ++ http.newline)%string)).
  { intros msg code fs' Hin Hmsg Hfs. cbn [fst snd].
    rewrite (Error_Status w msg code Hw). split; [eauto|]. split.
    - intros Hc. destruct Hfs as [-> | ->]; [|reflexivity].
      destruct Hc as [Hc|[Hc|Hc]]; discriminate.
    - intros [= ->]. rewrite Error_Body, Hmsg; reflexivity. }
  destruct (negb (String.eqb (Method r) http.MethodPost)).
  { apply Hno; [simpl; auto | discriminate | auto]. }
  destruct (basicAuth r cfg).
  { apply Hno; [simpl; auto | discriminate | auto]. }
  destruct (FormFile r "file") as [header|].
  2: { apply Hno; [simpl; auto | discriminate | auto]. }
  cbv zeta.
  destruct (os.MkdirAll fs _) as [[e|] fs1].
  { apply Hno; [simpl; auto 6 | auto | auto]. }
  destruct (os.Create fs1 _) as [e|[fs2 dst]].
  { apply Hno; [simpl; auto 6 | auto | auto]. }
  destruct (io.Copy fs2 dst (Content header) (CopyFault env)) as [fs3 copied].
  destruct copied; cbn [negb].
  - cbn [fst snd].
    rewrite (Status_Write _ _ 200) by (apply Status_WriteHeader, Hw).
    split; [exists 200; simpl; auto|].
    split; [intros [H|[H|H]]; discriminate | discriminate].
  - apply Hno; [simpl; auto 6 | auto | auto].
Qed.

Lemma upload_status_codes_witness :
  exists code,
    http.Status
      (uploadHander http.newResponse (Sample.upload "photo.png" "PNG")
         Sample.cfg Sample.env Sample.disk).1 = Some code /\
    In code [200; 400; 401; 405; 500].
Proof.
  exact (proj1 (upload_status_codes http.newResponse
                  (Sample.upload "photo.png" "PNG") Sample.cfg Sample.env
                  Sample.disk eq_refl)).
Defined.

(** ** The router: what can change the store *)

Lemma matchTemplate_upload (path : string) (vars : gmap string string) :
  mux.matchTemplate "/upload" [] path = Some vars -> path = "/upload".
Proof.
  unfold mux.matchTemplate.
  destruct (strings.TrimPrefix "/upload" path) as [rest|] eqn:E; [|discriminate].
  apply TrimPrefix_Some in E.
  destruct (String.eqb_spec rest EmptyString) as [->|_]; [|discriminate].
  intros _. exact E.
Qed.

(** X2: Of all the requests the router of [main] takes, only a POST to /upload
    that passes the credential check and carries the form file "file" can
    change the store: every other request leaves it as it was. *)
Theorem only_upload_writes (cfg : config) (env : Env) (r : Request)
    (fs : os.FS) :
  URL_Path r <> "/upload" \/ Method r <> "POST" \/ basicAuth r cfg <> None \/
  FormFile r "file" = None ->
  (serve cfg env r fs).2 = fs.
Proof.
  intros Hwhy. unfold serve.
  destruct (negb (String.eqb (mux.cleanPath (URL_Path r)) (URL_Path r)));
    [reflexivity|].
  destruct (mux.matchTemplate "/upload" [] (URL_Path r)) as [vars|] eqn:Eup.
  - apply matchTemplate_upload in Eup.
    unfold uploadHander, http.MethodPost. cbn [Method withVars].
    change (basicAuth (withVars r vars) cfg) with (basicAuth r cfg).
    change (FormFile (withVars r vars) "file") with (FormFile r "file").
    destruct (String.eqb_spec (Method r) "POST") as [Hm|Hm]; [|reflexivity].
    cbn [negb].
    destruct (basicAuth r cfg) as [e|] eqn:Eauth; [reflexivity|].
    destruct (FormFile r "file") as [header|] eqn:Eform; [|reflexivity].
    destruct Hwhy as [H|[H|[H|H]]]; try contradiction; discriminate.
  - destruct (mux.matchTemplate ("/" ++ AccessPrefix cfg ++ "/")
                ["year"; "month"; "day"; "filename"] (URL_Path r));
      reflexivity.
Qed.

Lemma only_upload_writes_witness :
  (serve Sample.cfg Sample.env (Sample.get "/files/2024/03/05/cat.png")
     Sample.disk).2 = Sample.disk /\
  (serve Sample.cfg Sample.env
     (Sample.post ["Basic dTpwOnEx"] [{| Filename := "x.png"; Content := "X" |}])
     Sample.disk).2 = Sample.disk.
Proof.
  split.
  - apply only_upload_writes. left. discriminate.
  - apply only_upload_writes. right. right. left. vm_compute. discriminate.
Defined.

(** ** The credential check: what a configuration lets in *)

(** X3: A configured user name that holds a colon can never be matched, since
    the user name of a request ends at the first colon: the credential check
    fails for every request, and every POST to the ingest handler is answered
    401 and stores nothing. *)
Theorem colon_in_username_locks_out (w : http.ResponseWriter) (r : Request)
    (cfg : config) (env : Env) (fs : os.FS) :
  strings.ContainsByte (Username cfg) ":" = true ->
  basicAuth r cfg <> None /\
  (http.Status w = None -> Method r = "POST" ->
   http.Status (uploadHander w r cfg env fs).1 = Some 401 /\
   (uploadHander w r cfg env fs).2 = fs).
Proof.
  intros Hcolon.
  assert (Hfail : basicAuth r cfg <> None).
  { intros Hpass. apply basicAuth_passes in Hpass as (info & _ & _ & Hu).
    congruence. }
  split; [exact Hfail|]. intros Hw Hm.
  unfold uploadHander, http.MethodPost. rewrite Hm, String.eqb_refl.
  cbn [negb]. destruct (basicAuth r cfg); [|contradiction].
  split; [apply Error_Status, Hw | reflexivity].
Qed.

Lemma colon_in_username_locks_out_witness :
  basicAuth (Sample.post ["Basic YTpiOnB3"] []) Sample.colonCfg <> None /\
  base64.DecodeString "YTpiOnB3" = Some "a:b:pw".
Proof.
  split; [|reflexivity].
  apply (colon_in_username_locks_out http.newResponse
           (Sample.post ["Basic YTpiOnB3"] []) Sample.colonCfg Sample.env
           Sample.disk).
  reflexivity.
Defined.

(** X4: A client that sends the header of its user name and password, as the
    Basic scheme builds it (the base64 text of user:password, the user name
    free of colons), passes the check if and only if the two are the
    configured ones. *)
Theorem encoded_credentials_pass_iff (r : Request) (cfg : config)
    (user password : string) :
  strings.ContainsByte user ":" = false ->
  Header_Get (Header r) "Authorization"
  = ("Basic " ++ base64.EncodeToString (user ++ ":" ++ password))%string ->
  (basicAuth r cfg = None <-> user = Username cfg /\ password = Password cfg).
Proof.
  intros Hu Hh. split.
  - intros Hpass. apply basicAuth_passes in Hpass as (info & Hh' & Hdec & Hcu).
    rewrite Hh in Hh'. injection Hh' as Hinfo. simpl in Hinfo. subst info.
    rewrite DecodeString_EncodeToString in Hdec. injection Hdec as E.
    exact (credentials_inj _ _ _ _ Hu Hcu E).
  - intros [-> ->]. apply basicAuth_accepts_encoded; assumption.
Qed.

Lemma encoded_credentials_pass_iff_witness :
  (basicAuth (Sample.upload "photo.png" "PNG") Sample.cfg = None <->
   "u" = Username Sample.cfg /\ "p:q" = Password Sample.cfg) /\
  (basicAuth (Sample.post ["Basic dTpwOnEx"] []) Sample.cfg = None <->
   "u" = Username Sample.cfg /\ "p:q1" = Password Sample.cfg).
Proof.
  split.
  - apply encoded_credentials_pass_iff; reflexivity.
  - apply encoded_credentials_pass_iff; reflexivity.
Defined.

(** ** Ingest: a copy that breaks *)

(** What [os.Create] leaves, and what the copy then makes of it. *)
Lemma Create_inserts (fs fs2 : os.FS) (path : string)
    (dst : bool * list string) :
  os.Create fs path = inr (fs2, dst) ->
  dst = resolvedName path /\
  fs2 = <[dst := os.File EmptyString]> fs /\
  os.elements path <> [] /\
  exists x, os.entry fs dst.1 dst.2 = inr x /\
            forall acc, x <> Some (os.Dir acc).
Proof.
  unfold os.Create, resolvedName. cbn [fst snd].
  destruct (os.entry fs (filepath.isRooted path) (os.elements path))
    as [e|x] eqn:Eentry; [discriminate|].
  intros Hcreate.
  assert (Hne : os.elements path <> []).
  { intros E. rewrite E in Eentry. simpl in Eentry.
    injection Eentry as <-. discriminate. }
  destruct x as [[d|acc]|]; try discriminate; injection Hcreate as <- <-;
    (split; [reflexivity|]); (split; [reflexivity|]); (split; [exact Hne|]);
    eexists; (split; [exact Eentry | intros acc; discriminate]).
Qed.

Lemma Copy_inserts (fs : os.FS) (dst : bool * list string) (data : string)
    (fault : option nat) :
  (io.Copy (<[dst := os.File EmptyString]> fs) dst data fault).1
  = <[dst := os.File (match fault with
                      | None => data
                      | Some n => io.take n data
                      end)]> fs.
Proof.
  unfold io.Copy, os.write.
  destruct fault as [n|]; cbn [fst]; rewrite lookup_insert_eq;
    rewrite insert_insert_eq; reflexivity.
Qed.

(** After [os.Create] and an [io.Copy] that breaks after [n] bytes,
    [os.Stat] finds the file with the bytes that got through. *)
Lemma Stat_copied (fs fs2 : os.FS) (path data : string)
    (dst : bool * list string) (fault : option nat) :
  os.Create fs path = inr (fs2, dst) ->
  os.Stat (io.Copy fs2 dst data fault).1 path
  = inr (os.File (match fault with
                  | None => data
                  | Some n => io.take n data
                  end)).
Proof.
  intros Hcreate.
  destruct (Create_inserts fs fs2 path dst Hcreate)
    as (-> & -> & Hne & x & Hentry & _).
  rewrite Copy_inserts. unfold os.Stat, resolvedName in *.
  cbn [fst snd] in Hentry. eapply resolve_written; eauto.
Qed.

(** X5: When the copy of an upload breaks after [n] bytes, in a request that
    would have succeeded otherwise, the answer is 500 and the file stays where
    it was created, holding the first [n] bytes of the upload: the handler
    does not remove it. *)
Theorem copy_fault_leaves_partial_file (w : http.ResponseWriter) (r : Request)
    (cfg : config) (env : Env) (fs : os.FS) (n : nat) :
  http.Status w = None ->
  http.Status (uploadHander w r cfg (withCopyFault env None) fs).1 = Some 200 ->
  let out := uploadHander w r cfg (withCopyFault env (Some n)) fs in
  exists header,
    FormFile r "file" = Some header /\
    http.Status out.1 = Some 500 /\
    http.Body out.1
    = (http.Body w ++ "Internal Server Error" ++ http.newline)%string /\
    os.Stat out.2 (uploadTarget cfg env header)
    = inr (os.File (io.take n (Content header))).
Proof.
  intros Hw. unfold uploadHander. cbn [withCopyFault Now NewUUID CopyFault].
  destruct (negb (String.eqb (Method r) http.MethodPost)).
  { cbn [fst]. rewrite Error_Status by exact Hw. discriminate. }
  destruct (basicAuth r cfg).
  { cbn [fst]. rewrite Error_Status by exact Hw. discriminate. }
  destruct (FormFile r "file") as [header|].
  2: { cbn [fst]. rewrite Error_Status by exact Hw. discriminate. }
  cbv zeta. rewrite timeNameString_relativePath.
  fold (uploadTarget cfg env header).
  destruct (os.MkdirAll fs _) as [[e|] fs1].
  { cbn [fst]. rewrite Error_Status by exact Hw. discriminate. }
  destruct (os.Create fs1 _) as [e|[fs2 dst]] eqn:Ecreate.
  { cbn [fst]. rewrite Error_Status by exact Hw. discriminate. }
  intros _. exists header. split; [reflexivity|].
  pose proof (Stat_copied fs1 fs2 (uploadTarget cfg env header)
                (Content header) dst (Some n) Ecreate) as Hstat.
  cbn [io.Copy negb fst snd] in *.
  split; [apply Error_Status, Hw|]. split; [apply Error_Body | exact Hstat].
Qed.

Lemma copy_fault_leaves_partial_file_witness :
  let out :=
    uploadHander http.newResponse (Sample.upload "photo.png" "PNG data")
      Sample.cfg (withCopyFault Sample.env (Some 3%nat)) Sample.disk in
  exists header,
    FormFile (Sample.upload "photo.png" "PNG data") "file" = Some header /\
    http.Status out.1 = Some 500 /\
    os.Stat out.2 (uploadTarget Sample.cfg Sample.env header)
    = inr (os.File (io.take 3 (Content header))).
Proof.
  intros out.
  destruct (copy_fault_leaves_partial_file http.newResponse
              (Sample.upload "photo.png" "PNG data") Sample.cfg Sample.env
              Sample.disk 3 eq_refl)
    as (header & Hform & Hstatus & _ & Hstat).
  - vm_compute. reflexivity.
  - exists header. auto.
Defined.

(** ** Where a cleaned path and a joined path lead *)

Section Elements.

Lemma Split_elems_no_sep (sep : ascii) (s : string) :
  Forall (fun e => strings.ContainsByte e sep = false) (strings.Split s sep).
Proof.
  unfold strings.Split. induction s as [|c s IH]; simpl.
  - repeat constructor.
  - destruct (Ascii.eqb sep c) eqn:Ec.
    + constructor; [reflexivity | exact IH].
    + destruct (strings.SplitFunc (Ascii.eqb sep) s) as [|piece pieces].
      * repeat constructor. simpl. rewrite Ascii.eqb_sym, Ec. reflexivity.
      * inversion IH as [|? ? Hp Hps]; subst. constructor; [|exact Hps].
        simpl. rewrite Ascii.eqb_sym, Ec. exact Hp.
Qed.

Lemma Split_Join (sep : ascii) (elems : list string) :
  elems <> [] ->
  Forall (fun e => strings.ContainsByte e sep = false) elems ->
  strings.Split (strings.Join elems (String sep EmptyString)) sep = elems.
Proof.
  induction elems as [|e rest IH]; [contradiction|]. intros _ Hall.
  inversion Hall as [|? ? He Hrest]; subst.
  destruct rest as [|e' rest].
  - simpl. apply Split_no_sep, He.
  - rewrite Join_cons by discriminate. rewrite Split_app.
    rewrite (Split_no_sep _ _ He), IH by (discriminate || assumption).
    reflexivity.
Qed.

Lemma filter_all {A : Type} (f : A -> bool) (l : list A) :
  Forall (fun x => f x = true) l -> List.filter f l = l.
Proof.
  induction 1 as [|x l Hx _ IH]; simpl; [reflexivity|].
  rewrite Hx, IH. reflexivity.
Qed.

Variable P : string -> Prop.

(** [Clean] keeps elements of the path only, and neither an empty one nor
    a "." . *)
Lemma cleanStep_kept (rooted : bool) (kept : list string) (elem : string) :
  Forall (fun e => P e /\ os.keptElem e = true) kept ->
  P elem ->
  Forall (fun e => P e /\ os.keptElem e = true)
    (filepath.cleanStep rooted kept elem).
Proof.
  intros Hkept Helem. unfold filepath.cleanStep.
  destruct (String.eqb elem EmptyString || String.eqb elem ".") eqn:E1;
    [exact Hkept|].
  assert (Hk : os.keptElem elem = true)
    by (unfold os.keptElem; rewrite E1; reflexivity).
  destruct (String.eqb elem "..").
  - destruct kept as [|top below].
    + destruct rooted; [constructor | repeat constructor; assumption].
    + destruct (String.eqb top "..").
      * constructor; [split; assumption | exact Hkept].
      * inversion Hkept; assumption.
  - constructor; [split; assumption | exact Hkept].
Qed.

Lemma fold_cleanStep_kept (rooted : bool) (elems kept : list string) :
  Forall (fun e => P e /\ os.keptElem e = true) kept ->
  Forall P elems ->
  Forall (fun e => P e /\ os.keptElem e = true)
    (List.fold_left (filepath.cleanStep rooted) elems kept).
Proof.
  revert kept. induction elems as [|e elems IH]; intros kept Hkept Hall;
    simpl; [exact Hkept|].
  inversion Hall; subst. apply IH; [|assumption].
  apply cleanStep_kept; assumption.
Qed.

(** In a rooted path it keeps no ".." either. *)
Lemma cleanStep_rooted_good (kept : list string) (elem : string) :
  Forall (fun e => P e /\ goodElem e = true) kept ->
  P elem ->
  Forall (fun e => P e /\ goodElem e = true)
    (filepath.cleanStep true kept elem).
Proof.
  intros Hkept Helem. unfold filepath.cleanStep.
  destruct (String.eqb elem EmptyString || String.eqb elem ".") eqn:E1;
    [exact Hkept|].
  destruct (String.eqb elem "..") eqn:E2.
  - destruct kept as [|top below]; [constructor|].
    inversion Hkept as [|? ? [_ Htop] Hbelow]; subst.
    unfold goodElem in Htop. apply negb_true_iff, orb_false_elim in Htop.
    destruct Htop as [_ ->]. exact Hbelow.
  - constructor; [|exact Hkept]. split; [exact Helem|].
    unfold goodElem. rewrite E1, E2. reflexivity.
Qed.

Lemma fold_cleanStep_rooted_good (elems kept : list string) :
  Forall (fun e => P e /\ goodElem e = true) kept ->
  Forall P elems ->
  Forall (fun e => P e /\ goodElem e = true)
    (List.fold_left (filepath.cleanStep true) elems kept).
Proof.
  revert kept. induction elems as [|e elems IH]; intros kept Hkept Hall;
    simpl; [exact Hkept|].
  inversion Hall; subst. apply IH; [|assumption].
  apply cleanStep_rooted_good; assumption.
Qed.

End Elements.

Lemma cleanElems_kept (rooted : bool) (path : string) :
  Forall (fun e => strings.ContainsByte e "/" = false /\ os.keptElem e = true)
    (filepath.cleanElems rooted (strings.Split path "/")).
Proof.
  unfold filepath.cleanElems. apply Forall_rev.
  apply (fold_cleanStep_kept (fun e => strings.ContainsByte e "/" = false));
    [constructor | apply Split_elems_no_sep].
Qed.

Lemma cleanElems_rooted_good (path : string) :
  Forall (fun e => strings.ContainsByte e "/" = false /\ goodElem e = true)
    (filepath.cleanElems true (strings.Split path "/")).
Proof.
  unfold filepath.cleanElems. apply Forall_rev.
  apply (fold_cleanStep_rooted_good
           (fun e => strings.ContainsByte e "/" = false));
    [constructor | apply Split_elems_no_sep].
Qed.

(** The elements of a path made of names that are kept. *)
Lemma elements_Join (elems : list string) :
  Forall (fun e => strings.ContainsByte e "/" = false /\ os.keptElem e = true)
    elems ->
  os.elements (strings.Join elems "/") = elems.
Proof.
  intros Hall. destruct elems as [|e rest]; [reflexivity|].
  unfold os.elements, filepath.Separator.
  rewrite Split_Join; [| discriminate | eapply Forall_impl; [exact Hall|]].
  - apply filter_all. eapply Forall_impl; [exact Hall|].
    intros x [_ Hx]. exact Hx.
  - intros x [Hx _]. exact Hx.
Qed.

Lemma elements_rooted (body : string) :
  os.elements (String "/" body) = os.elements body.
Proof.
  unfold os.elements, filepath.Separator. rewrite Split_cons_sep. reflexivity.
Qed.

(** Where [filepath.Clean] leads: from the root if the path is rooted, along
    the elements that the cleaning keeps. *)
Lemma Clean_resolved (path : string) :
  resolvedName (filepath.Clean path)
  = (filepath.isRooted path,
     filepath.cleanElems (filepath.isRooted path) (strings.Split path "/")).
Proof.
  pose proof (cleanElems_kept (filepath.isRooted path) path) as Hall.
  unfold filepath.Clean, filepath.Separator in *.
  set (elems := filepath.cleanElems (filepath.isRooted path)
                  (strings.Split path "/")) in *.
  unfold resolvedName.
  destruct (filepath.isRooted path).
  - cbn [String.eqb]. cbn [filepath.isRooted]. unfold filepath.Separator.
    rewrite Ascii.eqb_refl, elements_rooted, elements_Join by exact Hall.
    reflexivity.
  - destruct elems as [|e rest] eqn:E; [reflexivity|].
    inversion Hall as [|? ? [Hslash Hkept] _]; subst.
    destruct e as [|c e]; [discriminate|].
    assert (Hout : exists tail,
              strings.Join (String c e :: rest) "/" = String c tail).
    { destruct rest; [exists e; reflexivity|]. eexists. reflexivity. }
    destruct Hout as [tail Hout].
    pose proof (elements_Join (String c e :: rest) Hall) as Hel.
    rewrite Hout in *. cbn [String.eqb filepath.isRooted].
    unfold filepath.Separator. cbn [strings.ContainsByte] in Hslash.
    apply orb_false_elim in Hslash as [-> _]. rewrite Hel. reflexivity.
Qed.

Lemma oneName_spec (e : string) :
  oneName e = true <->
  strings.ContainsByte e "/" = false /\ goodElem e = true.
Proof.
  unfold oneName. rewrite andb_true_iff, negb_true_iff. tauto.
Qed.

Lemma oneName_kept (e : string) : oneName e = true -> os.keptElem e = true.
Proof.
  intros H. apply oneName_spec in H as [_ H]. unfold goodElem in H.
  apply negb_true_iff, orb_false_elim in H as [H _].
  unfold os.keptElem. rewrite H. reflexivity.
Qed.

Lemma oneName_not_rooted (e tail : string) :
  oneName e = true -> filepath.isRooted (e ++ tail) = false.
Proof.
  intros H. apply oneName_spec in H as [Hslash Hgood].
  destruct e as [|c e]; [discriminate|].
  cbn [String.append filepath.isRooted]. cbn [strings.ContainsByte] in Hslash.
  apply orb_false_elim in Hslash as [Hc _]. exact Hc.
Qed.

Lemma Join_starts (e : string) (rest : list string) :
  exists tail, strings.Join (e :: rest) "/" = (e ++ tail)%string.
Proof.
  destruct rest as [|e' rest].
  - exists EmptyString. simpl. rewrite sapp_nil_r. reflexivity.
  - eexists. reflexivity.
Qed.

(** Joining a root with names leads where the cleaned root leads, and then
    down along the names. *)
Lemma Join_resolved (root : string) (names : list string) :
  names <> [] ->
  List.forallb oneName names = true ->
  resolvedName (filepath.Join (root :: names))
  = ((resolvedName (filepath.Clean root)).1,
     (resolvedName (filepath.Clean root)).2 ++ names).
Proof.
  intros Hne Hnames. rewrite (Clean_resolved root). cbn [fst snd].
  assert (Hgood : List.forallb goodElem names = true).
  { rewrite forallb_forall in *. intros e He.
    apply oneName_spec, Hnames, He. }
  assert (Hslash : Forall (fun e => strings.ContainsByte e "/" = false) names).
  { apply List.Forall_forall. intros e He. rewrite forallb_forall in Hnames.
    apply oneName_spec, Hnames, He. }
  destruct root as [|c0 root0].
  - cbn [filepath.Join String.eqb filepath.isRooted].
    destruct names as [|e rest]; [contradiction|].
    assert (He : oneName e = true)
      by (cbn [List.forallb] in Hnames; apply andb_true_iff in Hnames; tauto).
    cbn [filepath.Join].
    destruct (String.eqb_spec e EmptyString) as [->|_]; [discriminate|].
    rewrite Clean_resolved.
    destruct (Join_starts e rest) as [tail Htail].
    rewrite Htail at 1. rewrite (oneName_not_rooted e tail He).
    rewrite (Split_Join "/" (e :: rest)) by (discriminate || assumption).
    unfold filepath.cleanElems.
    rewrite fold_cleanStep_good by exact Hgood.
    rewrite app_nil_r, rev_involutive. reflexivity.
  - cbn [filepath.Join String.eqb].
    rewrite Clean_resolved.
    rewrite (Join_cons "/") by exact Hne.
    cbn [String.append filepath.isRooted].
    change (String c0 (root0 ++ String "/" (strings.Join names "/")))%string
      with (String c0 root0 ++ String "/" (strings.Join names "/"))%string.
    rewrite Split_app, (Split_Join "/" names) by assumption.
    unfold filepath.cleanElems.
    rewrite fold_left_app, (fold_cleanStep_good _ names) by exact Hgood.
    rewrite rev_app_distr, rev_involutive. reflexivity.
Qed.

(** A rooted path, cleaned. *)
Lemma Clean_rooted (path : string) :
  filepath.isRooted path = true ->
  filepath.Clean path
  = String "/" (strings.Join
                  (filepath.cleanElems true (strings.Split path "/")) "/").
Proof. intros H. unfold filepath.Clean. rewrite H. reflexivity. Qed.

(** A path that the router takes as it is has elements of two kinds: empty
    ones (before the first separator, after a last one) and names. *)
Lemma cleanPath_elems (p : string) :
  mux.cleanPath p = p ->
  Forall (fun e => e = EmptyString \/ oneName e = true) (strings.Split p "/").
Proof.
  unfold mux.cleanPath.
  destruct (String.eqb_spec p EmptyString) as [->|_]; [discriminate|].
  set (p' := if filepath.isRooted p then p else String "/" p).
  assert (Hrooted : filepath.isRooted p' = true).
  { subst p'. destruct (filepath.isRooted p) eqn:E; [exact E | reflexivity]. }
  rewrite (Clean_rooted p' Hrooted).
  pose proof (cleanElems_rooted_good p') as Hall.
  set (elems := filepath.cleanElems true (strings.Split p' "/")) in *.
  clearbody elems.
  assert (Hsplit : Forall (fun e => e = EmptyString \/ oneName e = true)
                     (strings.Split (strings.Join elems "/") "/")).
  { destruct elems as [|e rest]; [repeat constructor|].
    rewrite Split_Join; [| discriminate | eapply Forall_impl; [exact Hall|]].
    - eapply Forall_impl; [exact Hall|].
      intros x Hx. right. apply oneName_spec, Hx.
    - intros x [Hx _]. exact Hx. }
  destruct (http.lastByteIs p' "/" && _); intros <-.
  - change (String "/" (strings.Join elems "/") ++ "/")%string
      with (String "/" (strings.Join elems "/" ++ String "/" EmptyString))%string.
    rewrite Split_cons_sep, Split_app.
    constructor; [left; reflexivity|].
    apply Forall_app. split; [exact Hsplit | repeat constructor].
  - rewrite Split_cons_sep. constructor; [left; reflexivity | exact Hsplit].
Qed.

Lemma nonEmpty_spec (s : string) : strings.nonEmpty s = true <-> s <> EmptyString.
Proof.
  unfold strings.nonEmpty. destruct (String.eqb_spec s EmptyString); simpl.
  - split; [discriminate | contradiction].
  - split; [auto | reflexivity].
Qed.

(** What the template of the retrieval route binds. *)
Lemma bindVars_four (segments : list string) (vars : gmap string string) :
  mux.bindVars ["year"; "month"; "day"; "filename"] segments = Some vars ->
  exists y m d f,
    segments = [y; m; d; f] /\
    Forall (fun e => e <> EmptyString) [y; m; d; f] /\
    vars = <["year" := y]> (<["month" := m]> (<["day" := d]>
             (<["filename" := f]> ∅))).
Proof.
  destruct segments as [|y [|m [|d [|f [|x rest]]]]]; cbn [mux.bindVars];
    try discriminate;
    repeat match goal with
           | |- context [strings.nonEmpty ?s] =>
               destruct (strings.nonEmpty s) eqn:?; try discriminate
           end; cbn; try discriminate.
  intros [= <-]. exists y, m, d, f.
  split; [reflexivity|]. split; [|reflexivity].
  repeat constructor; apply nonEmpty_spec; assumption.
Qed.

(** The variables the retrieval route binds in a path that the router takes
    as it is: the four elements after the prefix, each one a name. *)
Lemma route_binds_names (prefix path : string) (vars : gmap string string) :
  mux.cleanPath path = path ->
  mux.matchTemplate ("/" ++ prefix ++ "/") ["year"; "month"; "day"; "filename"]
    path = Some vars ->
  exists y m d f,
    path = ("/" ++ prefix ++ "/" ++ y ++ "/" ++ m ++ "/" ++ d ++ "/" ++ f)%string /\
    List.forallb oneName [y; m; d; f] = true /\
    vars = <["year" := y]> (<["month" := m]> (<["day" := d]>
             (<["filename" := f]> ∅))).
Proof.
  intros Hclean. unfold mux.matchTemplate.
  destruct (strings.TrimPrefix ("/" ++ prefix ++ "/") path) as [rest|] eqn:E;
    [|discriminate].
  apply TrimPrefix_Some in E. intros Hbind.
  apply bindVars_four in Hbind as (y & m & d & f & Hsplit & Hne & ->).
  exists y, m, d, f. split; [|split; [|reflexivity]].
  - rewrite E, <- (Join_Split "/" rest), Hsplit.
    cbn [strings.Join String.append]. rewrite !sapp_assoc. reflexivity.
  - apply cleanPath_elems in Hclean.
    replace path with (String "/" prefix ++ String "/" rest)%string in Hclean
      by (rewrite E; cbn [String.append]; rewrite sapp_assoc; reflexivity).
    rewrite Split_app, Hsplit in Hclean.
    apply Forall_app in Hclean as [_ Hclean].
    apply forallb_forall. intros e He.
    rewrite List.Forall_forall in Hclean, Hne.
    destruct (Hclean e He) as [->|Hone]; [|exact Hone].
    destruct (Hne _ He). reflexivity.
Qed.

(** ** Retrieval: no way out of the upload root *)

Lemma Stat_resolvedName (fs : os.FS) (path : string) :
  os.Stat fs path = os.resolve fs (resolvedName path).1 (resolvedName path).2.
Proof. reflexivity. Qed.



(** ** Ingest: where the file lands *)

Lemma plain_oneName (s : string) :
  plain s = true -> s <> EmptyString -> oneName s = true.
Proof.
  intros Hp Hne. apply oneName_spec.
  split; [apply plain_no_slash, Hp | apply plain_goodElem; assumption].
Qed.

Lemma dateElems_names (now : Time) :
  List.forallb oneName (dateElems now) = true.
Proof.
  unfold dateElems. cbn [List.forallb].
  rewrite !plain_oneName; [reflexivity | | | | | |];
    first [ apply plain_verb_0d | apply plain_verb_d
          | apply verb_0d_not_empty | apply verb_d_not_empty ].
Qed.

Lemma storedName_name (env : Env) (header : FileHeader) :
  oneName (storedName env header) = true.
Proof.
  apply oneName_spec. split; [apply filename_no_slash | apply filename_good].
Qed.

Lemma upload_names (env : Env) (header : FileHeader) :
  List.forallb oneName (dateElems (Now env) ++ [storedName env header]) = true.
Proof.
  rewrite forallb_app, dateElems_names. cbn [List.forallb andb].
  rewrite storedName_name. reflexivity.
Qed.

(** The directory of the day: joining the root with the text year/month/day
    or with the three names is the same. *)
Lemma Join_timePath (root : string) (now : Time) :
  filepath.Join
    [root;
     (fmt.verb_d (Year now) ++ "/" ++ fmt.verb_0d 2 (Month now) ++ "/"
      ++ fmt.verb_0d 2 (Day now))%string]
  = filepath.Join (root :: dateElems now).
Proof.
  pose proof (verb_d_not_empty (Year now)) as Hy.
  unfold dateElems. cbn [filepath.Join].
  destruct (String.eqb root EmptyString); [|reflexivity].
  destruct (String.eqb_spec (fmt.verb_d (Year now)) EmptyString) as [|_];
    [contradiction|].
  match goal with
  | |- (if String.eqb ?s EmptyString then _ else _) = _ =>
      destruct (String.eqb_spec s EmptyString) as [E|_]; [|reflexivity]
  end.
  exfalso. destruct (fmt.verb_d (Year now)); [contradiction | discriminate].
Qed.

(** Where the directory of the day and the file of an upload lie. *)
Lemma uploadDir_resolved (cfg : config) (now : Time) :
  resolvedName (filepath.Join (UploadDir cfg :: dateElems now))
  = ((resolvedName (filepath.Clean (UploadDir cfg))).1,
     (resolvedName (filepath.Clean (UploadDir cfg))).2 ++ dateElems now).
Proof. apply Join_resolved; [discriminate | apply dateElems_names]. Qed.

Lemma uploadTarget_resolved (cfg : config) (env : Env) (header : FileHeader) :
  resolvedName (uploadTarget cfg env header)
  = ((resolvedName (filepath.Clean (UploadDir cfg))).1,
     (resolvedName (filepath.Clean (UploadDir cfg))).2
     ++ dateElems (Now env) ++ [storedName env header]).
Proof.
  unfold uploadTarget. rewrite Join_relativePath.
  apply (Join_resolved (UploadDir cfg)
           (dateElems (Now env) ++ [storedName env header]));
    [discriminate | apply upload_names].
Qed.

(** X7: Whatever file name the client gives, the file of a successful ingest
    lies under the cleaned upload root in the directory year/month/day and has
    the name id+extension, all four of them names without separator and none
    of them "..": the client's file name cannot steer the upload to another
    place. *)
Theorem upload_lands_under_root (w : http.ResponseWriter) (r : Request)
    (cfg : config) (env : Env) (fs : os.FS) :
  http.Status w = None ->
  let out := uploadHander w r cfg env fs in
  http.Status out.1 = Some 200 ->
  exists header,
    FormFile r "file" = Some header /\
    let root := resolvedName (filepath.Clean (UploadDir cfg)) in
    let names := dateElems (Now env) ++ [storedName env header] in
    List.forallb oneName names = true /\
    os.resolve out.2 root.1 (root.2 ++ names)
    = inr (os.File (Content header)).
Proof.
  intros Hw out Hok. subst out.
  destruct (upload_success w r cfg env fs Hw Hok)
    as (header & fs1 & fs2 & dst & fs3 & Hform & Hcreate & Hcopy & Hout).
  cbv zeta in Hcreate, Hout.
  exists header. split; [exact Hform|]. cbv zeta.
  split; [apply upload_names|].
  rewrite Hout. cbn [snd].
  pose proof (Stat_created fs1 fs2 fs3 _ _ dst Hcreate Hcopy) as Hstat.
  fold (uploadTarget cfg env header) in Hstat.
  rewrite Stat_resolvedName, uploadTarget_resolved in Hstat. exact Hstat.
Qed.

Lemma upload_lands_under_root_witness :
  let out :=
    uploadHander http.newResponse
      (Sample.upload "../../etc/passwd.sh" "#!/bin/sh")
      Sample.cfg Sample.env Sample.disk in
  exists header,
    FormFile (Sample.upload "../../etc/passwd.sh" "#!/bin/sh") "file"
    = Some header /\
    os.resolve out.2 true
      (["data"] ++ dateElems (Now Sample.env) ++ [storedName Sample.env header])
    = inr (os.File (Content header)).
Proof.
  intros out.
  destruct (upload_lands_under_root http.newResponse
              (Sample.upload "../../etc/passwd.sh" "#!/bin/sh")
              Sample.cfg Sample.env Sample.disk eq_refl)
    as (header & Hform & _ & Hres).
  - vm_compute. reflexivity.
  - exists header. split; [exact Hform | exact Hres].
Defined.

(** ** Ingest: what it leaves alone *)

Section Frame.

Lemma rev_cons_inv {A : Type} (l : list A) (x : A) (rest : list A) :
  List.rev l = x :: rest -> l = List.rev rest ++ [x].
Proof.
  intros E. apply (f_equal (@List.rev A)) in E.
  rewrite rev_involutive in E. exact E.
Qed.

(** The entry of a name, when its directory can be read, is what the store
    has under the name. *)
Lemma entry_lookup (fs : os.FS) (rooted : bool) (elems : list string)
    (x : option os.node) :
  elems <> [] -> os.entry fs rooted elems = inr x -> fs !! (rooted, elems) = x.
Proof.
  intros Hne. unfold os.entry.
  destruct (List.rev elems) as [|name rparent] eqn:Erev.
  { apply (f_equal (@List.rev string)) in Erev.
    rewrite rev_involutive in Erev. contradiction. }
  apply rev_cons_inv in Erev. subst elems.
  destruct (os.resolve fs rooted (List.rev rparent)) as [e|dir]; [discriminate|].
  unfold os.lookupIn. destruct dir as [data|acc]; [discriminate|].
  destruct acc; [|discriminate]. cbn [negb].
  destruct (os.NAME_MAX <? String.length name)%nat; [discriminate|].
  intros [= <-]. reflexivity.
Qed.

(** A name that resolves is in the store, with the node it resolves to. *)
Lemma resolve_lookup (fs : os.FS) (rooted : bool) (elems : list string)
    (n : os.node) :
  elems <> [] -> os.resolve fs rooted elems = inr n ->
  fs !! (rooted, elems) = Some n.
Proof.
  intros Hne. unfold os.resolve.
  destruct (List.rev elems) as [|name rparent] eqn:Erev.
  { apply (f_equal (@List.rev string)) in Erev.
    rewrite rev_involutive in Erev. contradiction. }
  apply rev_cons_inv in Erev. subst elems. rewrite walk_app.
  destruct (os.walk fs rooted [] os.startDir (List.rev rparent)) as [e|dir];
    [discriminate|].
  cbn [os.walk app]. unfold os.lookupIn.
  destruct dir as [data|acc]; [discriminate|].
  destruct acc; [|discriminate]. cbn [negb].
  destruct (os.NAME_MAX <? String.length name)%nat; [discriminate|].
  destruct (fs !! (rooted, List.rev rparent ++ [name])) as [next|];
    [|discriminate].
  intros [= <-]. reflexivity.
Qed.

Lemma mkdirAt_inserts (fs fs2 : os.FS) (rooted : bool) (elems : list string) :
  os.mkdirAt fs rooted elems = inr fs2 ->
  fs !! (rooted, elems) = None /\
  fs2 = <[(rooted, elems) := os.Dir true]> fs /\
  os.entry fs rooted elems = inr None.
Proof.
  unfold os.mkdirAt.
  destruct (os.entry fs rooted elems) as [e|[x|]] eqn:E; try discriminate.
  intros [= <-]. split; [|split; reflexivity].
  apply (entry_lookup fs rooted elems None); [|exact E].
  intros ->. discriminate.
Qed.

(** One step of [os.MkdirAll]. *)
Lemma mkdirAllAt_eq (fs : os.FS) (rooted : bool) (relems : list string) :
  os.mkdirAllAt fs rooted relems
  = match os.resolve fs rooted (List.rev relems) with
    | inr (os.Dir _) => (None, fs)
    | inr (os.File _) => (Some os.ENOTDIR, fs)
    | inl _ =>
        let '(err, fs1) :=
          match relems with
          | [] => (None, fs)
          | _ :: rparent => os.mkdirAllAt fs rooted rparent
          end in
        match err with
        | Some e => (Some e, fs1)
        | None =>
            match os.mkdirAt fs1 rooted (List.rev relems) with
            | inr fs2 => (None, fs2)
            | inl e =>
                match os.resolve fs1 rooted (List.rev relems) with
                | inr (os.Dir _) => (None, fs1)
                | _ => (Some e, fs1)
                end
            end
        end
    end.
Proof. destruct relems; reflexivity. Qed.

(** [os.MkdirAll] adds directories and changes nothing that is there. *)
Lemma mkdirAllAt_extends (fs : os.FS) (rooted : bool) (relems : list string)
    (k : bool * list string) (n : os.node) :
  fs !! k = Some n -> (os.mkdirAllAt fs rooted relems).2 !! k = Some n.
Proof.
  intros Hk. induction relems as [|name rparent IH].
  - rewrite mkdirAllAt_eq.
    destruct (os.resolve fs rooted (List.rev [])) as [e|[d|acc]]; exact Hk.
  - rewrite mkdirAllAt_eq.
    destruct (os.resolve fs rooted (List.rev (name :: rparent)))
      as [e|[d|acc]]; try exact Hk.
    destruct (os.mkdirAllAt fs rooted rparent) as [[e'|] fs1]; cbn [snd] in *;
      [exact IH|].
    destruct (os.mkdirAt fs1 rooted (List.rev (name :: rparent)))
      as [e2|fs2] eqn:Emk.
    + destruct (os.resolve fs1 rooted (List.rev (name :: rparent)))
        as [e3|[d|acc]]; exact IH.
    + apply mkdirAt_inserts in Emk as (Hfree & -> & _). cbn [snd].
      rewrite lookup_insert_ne; [exact IH|].
      intros <-. congruence.
Qed.

(** A walk that arrives still arrives, at the same node, in a store that
    has more. *)
Lemma walk_extends (fs fs' : os.FS) (rooted : bool) (seen : list string)
    (cur : os.node) (todo : list string) (n : os.node) :
  (forall k x, fs !! k = Some x -> fs' !! k = Some x) ->
  os.walk fs rooted seen cur todo = inr n ->
  os.walk fs' rooted seen cur todo = inr n.
Proof.
  intros Hext. revert seen cur.
  induction todo as [|name rest IH]; intros seen cur; [auto|].
  cbn [os.walk]. unfold os.lookupIn. destruct cur as [data|acc]; [auto|].
  destruct acc; [|auto]. cbn [negb].
  destruct (os.NAME_MAX <? String.length name)%nat; [auto|].
  destruct (fs !! (rooted, seen ++ [name])) as [next|] eqn:E; [|discriminate].
  rewrite (Hext _ _ E). apply IH.
Qed.

(** A file written under a name that held no directory is not on the way
    of a walk that arrived elsewhere. *)
Lemma walk_insert_file (fs : os.FS) (k : bool * list string) (d : string)
    (rooted : bool) (seen : list string) (cur : os.node) (todo : list string)
    (n : os.node) :
  (forall acc, fs !! k <> Some (os.Dir acc)) ->
  k <> (rooted, seen ++ todo) ->
  os.walk fs rooted seen cur todo = inr n ->
  os.walk (<[k := os.File d]> fs) rooted seen cur todo = inr n.
Proof.
  intros Hnodir. revert seen cur.
  induction todo as [|name rest IH]; intros seen cur Hk Hwalk; [exact Hwalk|].
  cbn [os.walk] in *. unfold os.lookupIn in *.
  destruct cur as [data|acc]; [discriminate|].
  destruct acc; [|discriminate]. cbn [negb] in *.
  destruct (os.NAME_MAX <? String.length name)%nat; [discriminate|].
  destruct (fs !! (rooted, seen ++ [name])) as [next|] eqn:Enext;
    [|discriminate].
  destruct (decide (k = (rooted, seen ++ [name]))) as [->|Hne].
  - exfalso. destruct next as [data|acc]; [|exact (Hnodir acc Enext)].
    destruct rest as [|name2 rest]; [exact (Hk eq_refl)|].
    cbn [os.walk os.lookupIn] in Hwalk. discriminate.
  - rewrite lookup_insert_ne by exact Hne. rewrite Enext.
    apply IH; [rewrite <- app_assoc; exact Hk | exact Hwalk].
Qed.

End Frame.

(** The store an ingest leaves: the one it found with the directories that
    [os.MkdirAll] added, and on top of that at most the file of the upload,
    written under a name that held no directory. *)
Lemma upload_store_shape (w : http.ResponseWriter) (r : Request)
    (cfg : config) (env : Env) (fs : os.FS) :
  exists fs1,
    (forall k n, fs !! k = Some n -> fs1 !! k = Some n) /\
    ((uploadHander w r cfg env fs).2 = fs1 \/
     exists header d,
       FormFile r "file" = Some header /\
       (uploadHander w r cfg env fs).2
       = <[resolvedName (uploadTarget cfg env header) := os.File d]> fs1 /\
       os.elements (uploadTarget cfg env header) <> [] /\
       forall acc,
         fs1 !! resolvedName (uploadTarget cfg env header) <> Some (os.Dir acc)).
Proof.
  unfold uploadHander.
  destruct (negb (String.eqb (Method r) http.MethodPost));
    [exists fs; auto|].
  destruct (basicAuth r cfg); [exists fs; auto|].
  destruct (FormFile r "file") as [header|]; [|exists fs; auto].
  cbv zeta. rewrite timeNameString_relativePath.
  fold (uploadTarget cfg env header).
  match goal with
  | |- context [os.MkdirAll fs ?dir] =>
      pose proof (fun k n => mkdirAllAt_extends fs (filepath.isRooted dir)
                               (List.rev (os.elements dir)) k n) as Hext;
      fold (os.MkdirAll fs dir) in Hext;
      destruct (os.MkdirAll fs dir) as [err fs1]
  end.
  cbn [snd] in Hext. exists fs1. split; [exact Hext|].
  destruct err as [e|]; [auto|].
  destruct (os.Create fs1 (uploadTarget cfg env header)) as [e|[fs2 dst]]
    eqn:Ecreate; [auto|].
  destruct (Create_inserts _ _ _ _ Ecreate)
    as (-> & -> & Hne & x & Hentry & Hnodir).
  right.
  exists header,
    (match CopyFault env with
     | None => Content header
     | Some n => io.take n (Content header)
     end).
  split; [reflexivity|].
  pose proof (Copy_inserts fs1 (resolvedName (uploadTarget cfg env header))
                (Content header) (CopyFault env)) as Hcopy.
  destruct (io.Copy _ _ (Content header) (CopyFault env)) as [fs3 copied].
  cbn [fst] in Hcopy. subst fs3.
  split; [destruct copied; reflexivity|]. split; [exact Hne|].
  intros acc Hdir.
  apply entry_lookup in Hentry; [|exact Hne].
  unfold resolvedName in Hdir, Hentry. cbn [fst snd] in Hentry.
  rewrite Hentry in Hdir. exact (Hnodir acc Hdir).
Qed.

(** What resolved before an ingest resolves after it, to the same node,
    unless it is the name of the upload itself. *)
Lemma Stat_after_upload (w : http.ResponseWriter) (r : Request) (cfg : config)
    (env : Env) (fs : os.FS) (path : string) (n : os.node) :
  os.Stat fs path = inr n ->
  (forall header,
     FormFile r "file" = Some header ->
     resolvedName path <> resolvedName (uploadTarget cfg env header)) ->
  os.Stat (uploadHander w r cfg env fs).2 path = inr n.
Proof.
  intros Hstat Hother.
  destruct (upload_store_shape w r cfg env fs)
    as (fs1 & Hext & [-> | (header & d & Hform & -> & _ & Hnodir)]).
  - exact (walk_extends fs fs1 _ _ _ _ _ Hext Hstat).
  - apply walk_insert_file.
    + exact Hnodir.
    + intros E. apply (Hother header Hform). symmetry. exact E.
    + exact (walk_extends fs fs1 _ _ _ _ _ Hext Hstat).
Qed.

(** X8: An ingest, whatever its outcome, removes nothing and overwrites
    nothing but the file of the upload: a path that led to a directory leads
    to it afterwards, and a path that led to a file leads to the same file
    with the same bytes, unless it is the path of the upload itself. *)
Theorem upload_keeps_other_paths (w : http.ResponseWriter) (r : Request)
    (cfg : config) (env : Env) (fs : os.FS) (path : string) (n : os.node) :
  os.Stat fs path = inr n ->
  (os.IsDir n = true \/
   forall header,
     FormFile r "file" = Some header ->
     resolvedName path <> resolvedName (uploadTarget cfg env header)) ->
  os.Stat (uploadHander w r cfg env fs).2 path = inr n.
Proof.
  intros Hstat [Hdir|Hother]; [|exact (Stat_after_upload _ _ _ _ _ _ _ Hstat Hother)].
  destruct (upload_store_shape w r cfg env fs)
    as (fs1 & Hext & [-> | (header & d & Hform & -> & Hne & Hnodir)]).
  - exact (walk_extends fs fs1 _ _ _ _ _ Hext Hstat).
  - pose proof (walk_extends fs fs1 _ _ _ _ _ Hext Hstat) as Hstat1.
    apply walk_insert_file; [exact Hnodir | | exact Hstat1].
    intros E. destruct n as [data|acc]; [discriminate|].
    destruct (os.elements path) as [|e rest] eqn:Eelems.
    + unfold resolvedName in E. injection E as _ E. contradiction.
    + apply (Hnodir acc). rewrite E.
      apply resolve_lookup; [discriminate | exact Hstat1].
Qed.

Lemma upload_keeps_other_paths_witness :
  let out :=
    uploadHander http.newResponse (Sample.upload "cat.png" "another cat")
      Sample.cfg Sample.env Sample.disk in
  os.Stat out.2 "/data/2024/03/05/cat.png" = inr (os.File "PNG") /\
  os.Stat out.2 "/data/misc" = inr (os.Dir true).
Proof.
  split.
  - apply upload_keeps_other_paths; [reflexivity|].
    right. intros header [= <-]. vm_compute. discriminate.
  - apply upload_keeps_other_paths; [reflexivity|].
    left. reflexivity.
Defined.

(** ** One ingest after another *)

Lemma sapp_inj_length (a a' b b' : string) :
  String.length a = String.length a' ->
  (a ++ b)%string = (a' ++ b')%string -> a = a'.
Proof.
  revert a'. induction a as [|c a IH]; intros [|c' a'] Hlen E;
    try reflexivity; try discriminate.
  cbn [String.append] in E. injection E as -> E.
  f_equal. apply IH; [simpl in Hlen; lia | exact E].
Qed.

(** Uploads with different ids have different names in the store. *)
Lemma uploadTarget_differs (cfg : config) (env env' : Env)
    (header header' : FileHeader) :
  uuid.String_ (NewUUID env) <> uuid.String_ (NewUUID env') ->
  resolvedName (uploadTarget cfg env header)
  <> resolvedName (uploadTarget cfg env' header').
Proof.
  intros Hid E. rewrite !uploadTarget_resolved in E.
  injection E as E. apply app_inv_head in E.
  apply (f_equal (fun names => List.nth 3 names EmptyString)) in E.
  unfold dateElems in E. cbn [app List.nth] in E.
  apply Hid. unfold storedName in E.
  apply (sapp_inj_length _ _ _ _) in E; [exact E|].
  rewrite !uuid_String_length. reflexivity.
Qed.



(** ** Ingest: when it succeeds *)

Section MkdirAll.

Lemma namesBelow_app (base elems : list string) (x : string) :
  namesBelow base (elems ++ [x])
  = namesBelow base elems ++ [base ++ elems ++ [x]].
Proof.
  revert base. induction elems as [|e elems IH]; intros base; [reflexivity|].
  cbn [namesBelow app]. rewrite IH, <- app_assoc. reflexivity.
Qed.

Lemma namesBelow_length (base elems name : list string) :
  In name (namesBelow base elems) ->
  (length base < length name <= length base + length elems)%nat.
Proof.
  revert base. induction elems as [|e elems IH]; intros base; [contradiction|].
  cbn [namesBelow In length]. intros [<-|Hin].
  - rewrite length_app. simpl. lia.
  - apply IH in Hin. rewrite length_app in Hin. simpl in Hin. lia.
Qed.

Variables (fs : os.FS) (rooted : bool).

Lemma lookupIn_open (seen : list string) (name : string) :
  (String.length name <= os.NAME_MAX)%nat ->
  os.lookupIn fs rooted seen (os.Dir true) name
  = inr (fs !! (rooted, seen ++ [name])).
Proof.
  intros Hlen. unfold os.lookupIn. cbn [negb].
  destruct (Nat.ltb_spec os.NAME_MAX (String.length name)); [lia | reflexivity].
Qed.

(** In a directory that the server may use, the entry of a name that is not
    too long is what the store has, and the name resolves to it. *)
Lemma entry_in_open_dir (dir : list string) (name : string) :
  os.resolve fs rooted dir = inr (os.Dir true) ->
  (String.length name <= os.NAME_MAX)%nat ->
  os.entry fs rooted (dir ++ [name]) = inr (fs !! (rooted, dir ++ [name])).
Proof.
  intros Hdir Hlen. unfold os.entry.
  rewrite rev_app_distr. cbn [List.rev app]. rewrite rev_involutive, Hdir.
  apply lookupIn_open, Hlen.
Qed.

Lemma resolve_child (dir : list string) (name : string) (n : os.node) :
  os.resolve fs rooted dir = inr (os.Dir true) ->
  (String.length name <= os.NAME_MAX)%nat ->
  fs !! (rooted, dir ++ [name]) = Some n ->
  os.resolve fs rooted (dir ++ [name]) = inr n.
Proof.
  intros Hdir Hlen Hn. unfold os.resolve in *. rewrite walk_app, Hdir.
  cbn [os.walk app]. rewrite lookupIn_open by exact Hlen.
  rewrite Hn. reflexivity.
Qed.

End MkdirAll.

(** [os.MkdirAll] succeeds below a directory that the server may use when
    each name on the way down is free or is such a directory, and is not too
    long; it touches those names only. *)
Lemma mkdirAllAt_ok (fs : os.FS) (rooted : bool) (base elems : list string) :
  os.resolve fs rooted base = inr (os.Dir true) ->
  Forall (fun name => freeOrOpen fs (rooted, name) = true)
    (namesBelow base elems) ->
  Forall (fun e => (String.length e <= os.NAME_MAX)%nat) elems ->
  exists fs1,
    os.mkdirAllAt fs rooted (List.rev (base ++ elems)) = (None, fs1) /\
    os.resolve fs1 rooted (base ++ elems) = inr (os.Dir true) /\
    forall k,
      (forall name, In name (namesBelow base elems) -> k <> (rooted, name)) ->
      fs1 !! k = fs !! k.
Proof.
  intros Hbase. induction elems as [|x elems IH] using rev_ind;
    intros Hfree Hlen.
  - exists fs. rewrite app_nil_r, mkdirAllAt_eq, rev_involutive, Hbase. auto.
  - rewrite namesBelow_app in Hfree.
    apply Forall_app in Hfree as [Hfree Hx].
    apply Forall_app in Hlen as [Hlen Hxlen].
    inversion Hx as [|? ? Hx' _]; subst. inversion Hxlen as [|? ? Hxlen' _]; subst.
    destruct (IH Hfree Hlen) as (fs1 & Hmk & Hres & Hframe). clear IH.
    assert (Hsame : fs1 !! (rooted, base ++ elems ++ [x])
                    = fs !! (rooted, base ++ elems ++ [x])).
    { apply Hframe. intros name Hin [= <-].
      apply namesBelow_length in Hin. rewrite !length_app in Hin.
      simpl in Hin. lia. }
    assert (Hframe' : forall k,
              (forall name,
                 In name (namesBelow base (elems ++ [x])) -> k <> (rooted, name)) ->
              k <> (rooted, base ++ elems ++ [x]) /\ fs1 !! k = fs !! k).
    { intros k Hk. split.
      - apply Hk. rewrite namesBelow_app. apply in_or_app. right. left.
        reflexivity.
      - apply Hframe. intros name Hin. apply Hk.
        rewrite namesBelow_app. apply in_or_app. left. exact Hin. }
    rewrite mkdirAllAt_eq.
    replace (List.rev (base ++ elems ++ [x]))
      with (x :: List.rev (base ++ elems))
      by (rewrite (app_assoc base), (rev_app_distr (base ++ elems)); reflexivity).
    cbn [List.rev]. rewrite rev_involutive, <- app_assoc.
    unfold freeOrOpen in Hx'.
    destruct (os.resolve fs rooted (base ++ elems ++ [x])) as [e|n] eqn:Eres.
    + rewrite Hmk.
      pose proof (entry_in_open_dir fs1 rooted (base ++ elems) x Hres Hxlen')
        as Hentry.
      rewrite <- app_assoc, Hsame in Hentry.
      unfold os.mkdirAt. rewrite Hentry.
      destruct (fs !! (rooted, base ++ elems ++ [x])) as [[d|[|]]|] eqn:Eold;
        try discriminate.
      * assert (Hres' : os.resolve fs1 rooted (base ++ elems ++ [x])
                        = inr (os.Dir true)).
        { rewrite app_assoc. apply resolve_child; [exact Hres | exact Hxlen'|].
          rewrite <- app_assoc. exact Hsame. }
        rewrite Hres'. exists fs1. split; [reflexivity|].
        split; [exact Hres'|]. intros k Hk. apply Hframe', Hk.
      * exists (<[(rooted, base ++ elems ++ [x]) := os.Dir true]> fs1).
        split; [reflexivity|]. split.
        -- apply (resolve_written fs1 rooted _ _ None);
             [destruct base, elems; discriminate | exact Hentry].
        -- intros k Hk. destruct (Hframe' k Hk) as [Hne <-].
           apply lookup_insert_ne. congruence.
    + pose proof Eres as Elook.
      apply resolve_lookup in Elook; [|destruct base, elems; discriminate].
      rewrite Elook in Hx'. destruct n as [d|[|]]; try discriminate.
      exists fs. auto.
Qed.

(** [os.Create] succeeds in a directory that the server may use, under a
    name that is not too long and holds no directory. *)
Lemma Create_in_open_dir (fs : os.FS) (path : string) (dir : list string)
    (name : string) :
  os.elements path = dir ++ [name] ->
  os.resolve fs (filepath.isRooted path) dir = inr (os.Dir true) ->
  (String.length name <= os.NAME_MAX)%nat ->
  (forall acc, fs !! resolvedName path <> Some (os.Dir acc)) ->
  exists fs2, os.Create fs path = inr (fs2, resolvedName path).
Proof.
  intros Helems Hdir Hlen Hnodir. unfold os.Create. cbn [fst snd].
  unfold resolvedName in *. rewrite Helems in *.
  rewrite (entry_in_open_dir fs _ dir name Hdir Hlen).
  destruct (fs !! (filepath.isRooted path, dir ++ [name])) as [[d|acc]|] eqn:E;
    eauto.
  destruct (Hnodir acc eq_refl).
Qed.

Lemma resolvedName_parts (path : string) (rooted : bool)
    (elems : list string) :
  resolvedName path = (rooted, elems) ->
  filepath.isRooted path = rooted /\ os.elements path = elems.
Proof. unfold resolvedName. intros [= -> ->]. auto. Qed.



(** ** Ingest: an upload root that is no directory for the server *)

Lemma walk_from_file (fs : os.FS) (rooted : bool) (seen : list string)
    (d : string) (name : string) (rest : list string) :
  os.walk fs rooted seen (os.File d) (name :: rest) = inl os.ENOTDIR.
Proof. reflexivity. Qed.

Lemma walk_from_closed (fs : os.FS) (rooted : bool) (seen : list string)
    (name : string) (rest : list string) :
  os.walk fs rooted seen (os.Dir false) (name :: rest) = inl os.EACCES.
Proof. reflexivity. Qed.

(** Below a file, and below a directory closed to the server,
    [os.MkdirAll] fails and makes nothing. *)
Lemma mkdirAllAt_blocked (fs : os.FS) (rooted : bool) (base elems : list string)
    (n : os.node) :
  os.resolve fs rooted base = inr n ->
  n <> os.Dir true ->
  elems <> [] ->
  exists e, os.mkdirAllAt fs rooted (List.rev (base ++ elems)) = (Some e, fs).
Proof.
  intros Hbase Hn.
  assert (Hfail : forall x rest,
            exists e, os.resolve fs rooted (base ++ x :: rest) = inl e).
  { intros x rest. unfold os.resolve in *. rewrite walk_app, Hbase.
    destruct n as [d|[|]]; [| contradiction |]; eexists; reflexivity. }
  induction elems as [|x elems IH] using rev_ind; [contradiction|].
  intros _.
  replace (List.rev (base ++ elems ++ [x]))
    with (x :: List.rev (base ++ elems))
    by (rewrite (app_assoc base), (rev_app_distr (base ++ elems)); reflexivity).
  rewrite mkdirAllAt_eq. cbn [List.rev]. rewrite rev_involutive, <- app_assoc.
  assert (Hhere : exists e, os.resolve fs rooted (base ++ elems ++ [x]) = inl e).
  { destruct elems as [|y elems]; apply Hfail. }
  destruct Hhere as [e Hhere]. rewrite Hhere.
  destruct elems as [|y elems].
  - rewrite app_nil_r, mkdirAllAt_eq, rev_involutive, Hbase.
    cbn [app] in *.
    destruct n as [d|[|]]; [eauto | contradiction |].
    unfold os.mkdirAt, os.entry. rewrite rev_app_distr. cbn [List.rev app].
    rewrite rev_involutive, Hbase. cbn [os.lookupIn negb].
    rewrite Hhere. eauto.
  - destruct IH as [e' ->]; [discriminate|]. eauto.
Qed.

(** X11: When the cleaned upload root is a regular file, or a directory closed
    to the server, an ingest that gets past its checks is answered 500 and the
    store is as it was. *)
Theorem upload_needs_open_root (w : http.ResponseWriter) (r : Request)
    (cfg : config) (env : Env) (fs : os.FS) (n : os.node) :
  os.Stat fs (filepath.Clean (UploadDir cfg)) = inr n ->
  n <> os.Dir true ->
  http.Status w = None ->
  Method r = "POST" ->
  basicAuth r cfg = None ->
  FormFile r "file" <> None ->
  let out := uploadHander w r cfg env fs in
  http.Status out.1 = Some 500 /\ out.2 = fs.
Proof.
  intros Hroot Hn Hw Hm Hauth Hform out. subst out.
  rewrite Stat_resolvedName in Hroot.
  pose proof (uploadDir_resolved cfg (Now env)) as Hdir.
  apply resolvedName_parts in Hdir as [Hdir1 Hdir2].
  destruct (mkdirAllAt_blocked fs _ _ (dateElems (Now env)) n Hroot Hn)
    as [e Hmk]; [discriminate|].
  unfold uploadHander, http.MethodPost.
  rewrite Hm, String.eqb_refl, Hauth. cbn [negb].
  destruct (FormFile r "file") as [header|]; [|contradiction].
  cbv zeta. rewrite Join_timePath.
  unfold os.MkdirAll. rewrite Hdir1, Hdir2, Hmk.
  split; [apply Error_Status, Hw | reflexivity].
Qed.

Lemma upload_needs_open_root_witness :
  let out :=
    uploadHander http.newResponse (Sample.upload "photo.png" "PNG")
      Sample.cfg Sample.env Sample.rootIsFile in
  http.Status out.1 = Some 500 /\ out.2 = Sample.rootIsFile.
Proof.
  apply (upload_needs_open_root http.newResponse
           (Sample.upload "photo.png" "PNG") Sample.cfg Sample.env
           Sample.rootIsFile (os.File "not a directory"));
    try reflexivity; discriminate.
Defined.

(** ** Ingest, then retrieval: the headers *)

Lemma Ext_plain (a : string) : plain a = true -> filepath.Ext a = EmptyString.
Proof.
  intros H. rewrite Ext_fromLastDot.
  rewrite lastElement_same by (apply plain_no_slash, H).
  apply fromLastDot_none, plain_no_dot, H.
Qed.

(** The extension of a stored name is the extension of the name uploaded. *)
Lemma Ext_of_stored (a name : string) :
  plain a = true ->
  filepath.Ext (a ++ filepath.Ext name) = filepath.Ext name.
Proof.
  intros Ha.
  destruct (Ext_shape name) as [->|(t & -> & Hdot & Hslash)].
  - rewrite sapp_nil_r. apply Ext_plain, Ha.
  - rewrite Ext_fromLastDot.
    rewrite lastElement_same
      by (rewrite ContainsByte_app, (plain_no_slash _ Ha); exact Hslash).
    clear Ha. induction a as [|c a IH]; cbn [String.append fromLastDot].
    + rewrite Hdot, Ascii.eqb_refl. reflexivity.
    + rewrite ContainsByte_app. cbn [strings.ContainsByte].
      rewrite Ascii.eqb_refl, orb_true_r. exact IH.
Qed.

(** The headers that [http.ServeFile] leaves as the handler set them, when
    it serves a regular file. *)
Lemma ServeFile_regular_header (srv : http.FileServer)
    (w : http.ResponseWriter) (r : Request) (name : string) (fs : os.FS)
    (data key : string) :
  http.containsDotDot (URL_Path r) = false ->
  strings.HasSuffix (URL_Path r) "/index.html" = false ->
  os.Stat fs name = inr (os.File data) ->
  http.conditional r = false ->
  key <> "Accept-Ranges" -> key <> "Content-Length" ->
  http.RHeader (http.ServeFile srv w r name fs) !! key = http.RHeader w !! key.
Proof.
  intros Hdd Hidx Hstat Hcond H1 H2.
  unfold http.ServeFile, http.serveContent.
  rewrite Hdd, Hidx, Hstat, Hcond.
  destruct (String.eqb (Method r) "HEAD");
    rewrite ?RHeader_Write, RHeader_WriteHeader, !RHeader_Set;
    rewrite !lookup_insert_ne by congruence; reflexivity.
Qed.

(** A GET without headers for the URL of a stored file is handed to
    [getHandler] with the four names of the file. *)
Lemma serve_stored (cfg : config) (env : Env) (now : Time) (id : uuid.UUID)
    (name : string) (fs : os.FS) :
  validPrefix (AccessPrefix cfg) = true ->
  let url :=
    String "/" (AccessPrefix cfg ++ "/" ++ relativePath now id (filepath.Ext name)) in
  exists routed,
    serve cfg env (plainGet url) fs
    = (getHandler http.newResponse routed cfg env fs, fs) /\
    URL_Path routed = url /\ Method routed = "GET" /\
    http.conditional routed = false /\
    mux.Var routed "filename" = (uuid.String_ id ++ filepath.Ext name)%string /\
    storedPath cfg routed
    = filepath.Join [UploadDir cfg; relativePath now id (filepath.Ext name)].
Proof.
  intros Hprefix url. subst url. unfold serve, plainGet. cbn [URL_Path].
  rewrite url_is_clean by exact Hprefix.
  rewrite String.eqb_refl. cbn [negb].
  rewrite url_is_not_upload, url_matches.
  eexists. split; [reflexivity|].
  destruct (route_vars (fmt.verb_d (Year now)) (fmt.verb_0d 2 (Month now))
              (fmt.verb_0d 2 (Day now))
              (uuid.String_ id ++ filepath.Ext name)%string)
    as (Hy & Hm & Hd & Hf).
  split; [reflexivity|]. split; [reflexivity|]. split; [reflexivity|].
  split.
  - unfold mux.Var, withVars. cbn [Vars]. rewrite Hf. reflexivity.
  - rewrite Join_relativePath. unfold storedPath, mux.Var, withVars.
    cbn [Vars]. rewrite Hy, Hm, Hd, Hf. reflexivity.
Qed.



(** ** The router: no listing of directories *)

Lemma oneName_not_empty (e : string) : oneName e = true -> e <> EmptyString.
Proof. intros H ->. discriminate. Qed.

(** A path that ends in a name does not end in a separator. *)
Lemma lastByteIs_name (pre name : string) :
  oneName name = true -> http.lastByteIs (pre ++ name) "/" = false.
Proof.
  intros H. unfold http.lastByteIs. apply HasSuffix_after_name.
  - apply oneName_spec, H.
  - destruct name as [|c name]; [discriminate | simpl; lia].
Qed.

(** X13: The answer of the router of [main] does not depend on how the file
    server would answer for a directory whose URL ends in a slash (with an
    index page or a listing): no request gets there, since the path of a
    request handed to [getHandler] ends in a name. A path that leads to a
    directory is answered by a redirect at most. *)
Theorem router_never_lists_directories (cfg : config) (env : Env)
    (r : Request) (fs : os.FS)
    (reply : Request -> os.FS -> string -> http.ResponseWriter
             -> http.ResponseWriter) :
  serve cfg (withDirectoryReply env reply) r fs = serve cfg env r fs.
Proof.
  unfold serve.
  destruct (String.eqb_spec (mux.cleanPath (URL_Path r)) (URL_Path r))
    as [Hclean|_]; [|reflexivity].
  cbn [negb].
  destruct (mux.matchTemplate "/upload" [] (URL_Path r)) as [v|];
    [reflexivity|].
  destruct (mux.matchTemplate ("/" ++ AccessPrefix cfg ++ "/")
              ["year"; "month"; "day"; "filename"] (URL_Path r))
    as [vars|] eqn:Ematch; [|reflexivity].
  destruct (route_binds_names _ _ _ Hclean Ematch)
    as (y & m & d & f & Hpath & Hnames & _).
  assert (Hlast : http.lastByteIs (URL_Path (withVars r vars)) "/" = false).
  { cbn [URL_Path withVars]. rewrite Hpath.
    replace ("/" ++ AccessPrefix cfg ++ "/" ++ y ++ "/" ++ m ++ "/" ++ d
             ++ "/" ++ f)%string
      with (("/" ++ AccessPrefix cfg ++ "/" ++ y ++ "/" ++ m ++ "/" ++ d
             ++ "/") ++ f)%string
      by (rewrite !sapp_assoc; reflexivity).
    apply lastByteIs_name.
    cbn [List.forallb] in Hnames. rewrite !andb_true_iff in Hnames. tauto. }
  f_equal. unfold getHandler.
  destruct (os.IsNotExist _); [reflexivity|].
  unfold http.ServeFile. rewrite Hlast.
  destruct (http.containsDotDot _); [reflexivity|].
  destruct (strings.HasSuffix _ "/index.html"); [reflexivity|].
  destruct (os.Stat fs _) as [e|[data|acc]]; reflexivity.
Qed.

(** ** Ingest: a name too long for a directory *)

Section LongName.

Variables (fs : os.FS) (rooted : bool).

Lemma lookupIn_long (seen : list string) (cur : os.node) (name : string) :
  (os.NAME_MAX < String.length name)%nat ->
  exists e, os.lookupIn fs rooted seen cur name = inl e.
Proof.
  intros Hlen. unfold os.lookupIn. destruct cur as [d|[|]]; eauto.
  cbn [negb].
  destruct (Nat.ltb_spec os.NAME_MAX (String.length name)); [eauto | lia].
Qed.

Lemma resolve_long (dir : list string) (name : string) :
  (os.NAME_MAX < String.length name)%nat ->
  exists e, os.resolve fs rooted (dir ++ [name]) = inl e.
Proof.
  intros Hlen. unfold os.resolve. rewrite walk_app.
  destruct (os.walk fs rooted [] os.startDir dir) as [e|cur]; [eauto|].
  cbn [os.walk]. destruct (lookupIn_long ([] ++ dir) cur name Hlen) as [e ->].
  eauto.
Qed.

Lemma entry_long (dir : list string) (name : string) :
  (os.NAME_MAX < String.length name)%nat ->
  exists e, os.entry fs rooted (dir ++ [name]) = inl e.
Proof.
  intros Hlen. unfold os.entry. rewrite rev_app_distr. cbn [List.rev app].
  destruct (os.resolve fs rooted (List.rev (List.rev dir))) as [e|cur];
    [eauto|].
  apply lookupIn_long, Hlen.
Qed.

End LongName.

(** X14: The name of the stored file is the id and the extension of the
    client's file name, however long that is. When the two together are longer
    than a directory takes (36 bytes and an extension of more than 219), an
    ingest that gets past its checks is answered 500, and nothing is stored
    under the name. *)
Theorem upload_long_name_fails (w : http.ResponseWriter) (r : Request)
    (cfg : config) (env : Env) (fs : os.FS) (header : FileHeader) :
  http.Status w = None ->
  Method r = "POST" ->
  basicAuth r cfg = None ->
  FormFile r "file" = Some header ->
  (os.NAME_MAX < String.length (storedName env header))%nat ->
  let out := uploadHander w r cfg env fs in
  http.Status out.1 = Some 500 /\
  exists e, os.Stat out.2 (uploadTarget cfg env header) = inl e.
Proof.
  intros Hw Hm Hauth Hform Hlen out. subst out.
  pose proof (uploadTarget_resolved cfg env header) as Htarget.
  apply resolvedName_parts in Htarget as [_ Helems].
  rewrite app_assoc in Helems.
  assert (Hstat : forall fs',
            exists e, os.Stat fs' (uploadTarget cfg env header) = inl e).
  { intros fs'. unfold os.Stat. rewrite Helems. apply resolve_long, Hlen. }
  unfold uploadHander, http.MethodPost.
  rewrite Hm, String.eqb_refl, Hauth, Hform. cbn [negb]. cbv zeta.
  rewrite timeNameString_relativePath.
  fold (uploadTarget cfg env header).
  destruct (os.MkdirAll fs _) as [[e|] fs1]; cbn [fst snd].
  { split; [apply Error_Status, Hw | apply Hstat]. }
  unfold os.Create. cbn [fst snd]. rewrite Helems.
  destruct (entry_long fs1 (filepath.isRooted (uploadTarget cfg env header))
              ((resolvedName (filepath.Clean (UploadDir cfg))).2
               ++ dateElems (Now env)) _ Hlen) as [e ->].
  cbn [fst snd]. split; [apply Error_Status, Hw | apply Hstat].
Qed.

Lemma upload_long_name_fails_witness :
  let out :=
    uploadHander http.newResponse
      (Sample.upload ("x." ++ Sample.longName) "DATA")
      Sample.cfg Sample.env Sample.disk in
  http.Status out.1 = Some 500.
Proof.
  apply (upload_long_name_fails http.newResponse
           (Sample.upload ("x." ++ Sample.longName) "DATA")
           Sample.cfg Sample.env Sample.disk
           {| Filename := "x." ++ Sample.longName; Content := "DATA" |});
    try reflexivity.
  apply Nat.ltb_lt. vm_compute. reflexivity.
Defined.

(** ** The router: credentials count for ingest only *)

Lemma conditional_withAuthorization (r : Request) (auth : list string)
    (vars : gmap string string) :
  http.conditional (withVars (withAuthorization r auth) vars)
  = http.conditional r.
Proof.
  unfold http.conditional, http.conditionHeaders, Header_Get, withVars,
    withAuthorization.
  cbn [List.existsb Header].
  rewrite !lookup_insert_ne by discriminate. reflexivity.
Qed.

(** X15: The credential check belongs to the ingest route alone: for a request
    to any other path, without preconditions and byte ranges, the answer and
    the store do not depend on the Authorization header. Retrieval is open to
    whoever has the URL. *)
Theorem credentials_count_for_upload_only (cfg : config) (env : Env)
    (r : Request) (fs : os.FS) (auth : list string) :
  URL_Path r <> "/upload" ->
  http.conditional r = false ->
  serve cfg env (withAuthorization r auth) fs = serve cfg env r fs.
Proof.
  intros Hpath Hcond. unfold serve. cbn [URL_Path withAuthorization].
  destruct (String.eqb_spec (mux.cleanPath (URL_Path r)) (URL_Path r))
    as [Hclean|_]; [|reflexivity].
  cbn [negb].
  destruct (mux.matchTemplate "/upload" [] (URL_Path r)) as [v|] eqn:Eup.
  { apply matchTemplate_upload in Eup. contradiction. }
  destruct (mux.matchTemplate ("/" ++ AccessPrefix cfg ++ "/")
              ["year"; "month"; "day"; "filename"] (URL_Path r))
    as [vars|] eqn:Ematch; [|reflexivity].
  destruct (route_binds_names _ _ _ Hclean Ematch)
    as (y & m & d & f & Hurl & Hnames & _).
  assert (Hlast : http.lastByteIs (URL_Path r) "/" = false).
  { rewrite Hurl.
    replace ("/" ++ AccessPrefix cfg ++ "/" ++ y ++ "/" ++ m ++ "/" ++ d
             ++ "/" ++ f)%string
      with (("/" ++ AccessPrefix cfg ++ "/" ++ y ++ "/" ++ m ++ "/" ++ d
             ++ "/") ++ f)%string
      by (rewrite !sapp_assoc; reflexivity).
    apply lastByteIs_name.
    cbn [List.forallb] in Hnames. rewrite !andb_true_iff in Hnames. tauto. }
  f_equal. unfold getHandler.
  change (mux.Var (withVars (withAuthorization r auth) vars))
    with (mux.Var (withVars r vars)).
  destruct (os.IsNotExist _); [reflexivity|].
  unfold http.ServeFile, http.serveContent.
  rewrite conditional_withAuthorization.
  change (http.conditional (withVars r vars)) with (http.conditional r).
  rewrite Hcond.
  cbn [URL_Path Method withVars withAuthorization]. rewrite Hlast.
  destruct (http.containsDotDot _); [reflexivity|].
  destruct (strings.HasSuffix _ "/index.html"); [reflexivity|].
  destruct (os.Stat fs _) as [e|[data|acc]]; reflexivity.
Qed.

Lemma credentials_count_for_upload_only_witness :
  serve Sample.cfg Sample.env
    (withAuthorization (Sample.get "/files/2024/03/05/cat.png")
       ["Basic bm9ib2R5Om5vdGhpbmc="]) Sample.disk
  = serve Sample.cfg Sample.env (Sample.get "/files/2024/03/05/cat.png")
      Sample.disk.
Proof.
  apply credentials_count_for_upload_only; [discriminate | reflexivity].
Defined.

(** ** The router: an access prefix that no clean path has *)

(** A path that the router takes as it is: a separator, names joined by
    separators, and perhaps a last separator. *)
Lemma cleanPath_cases (p : string) :
  mux.cleanPath p = p ->
  exists names,
    Forall (fun e => oneName e = true) names /\
    (p = String "/" (strings.Join names "/") \/
     p = String "/" (strings.Join names "/" ++ String "/" EmptyString)).
Proof.
  unfold mux.cleanPath.
  destruct (String.eqb_spec p EmptyString) as [->|_]; [discriminate|].
  set (p' := if filepath.isRooted p then p else String "/" p).
  assert (Hrooted : filepath.isRooted p' = true).
  { subst p'. destruct (filepath.isRooted p) eqn:E; [exact E | reflexivity]. }
  rewrite (Clean_rooted p' Hrooted).
  pose proof (cleanElems_rooted_good p') as Hall.
  set (elems := filepath.cleanElems true (strings.Split p' "/")) in *.
  clearbody elems. intros Hp. exists elems. split.
  - eapply Forall_impl; [exact Hall|]. intros x Hx. apply oneName_spec, Hx.
  - destruct (http.lastByteIs p' "/" && _); [right | left];
      rewrite <- Hp; reflexivity.
Qed.

(** When its last element is not empty, its elements after the first are
    names. *)
Lemma cleanPath_names (p : string) (front : list string) (last : string) :
  mux.cleanPath p = p ->
  strings.Split p "/" = front ++ [last] ->
  last <> EmptyString ->
  exists names,
    Forall (fun e => oneName e = true) names /\
    strings.Split p "/" = EmptyString :: names.
Proof.
  intros Hclean Hsplit Hlast.
  destruct (cleanPath_cases p Hclean) as (names & Hnames & [Hp|Hp]).
  - destruct names as [|e rest].
    + exfalso. rewrite Hp in Hsplit.
      change (strings.Split (String "/" (strings.Join [] "/")) "/")
        with ([EmptyString] ++ [EmptyString]) in Hsplit.
      apply app_inj_tail in Hsplit as [_ E]. congruence.
    + exists (e :: rest). split; [exact Hnames|].
      rewrite Hp, Split_cons_sep, Split_Join; [reflexivity | discriminate|].
      eapply Forall_impl; [exact Hnames|].
      intros x Hx. apply oneName_spec, Hx.
  - exfalso. rewrite Hp, Split_cons_sep, Split_app in Hsplit.
    change (strings.Split EmptyString "/") with [EmptyString] in Hsplit.
    rewrite app_comm_cons in Hsplit.
    apply app_inj_tail in Hsplit as [_ E]. congruence.
Qed.



(** ** Retrieval: a file named index.html *)

(** X17: A file named index.html is never served: a request whose path ends in
    /index.html is answered with a redirect (by the router for a path that is
    not clean, by the file server to "./" otherwise), with 400 or with 404,
    whether the file is there or not; the answer 301 has no body, and the
    store is as it was. *)
Theorem index_html_is_never_served (cfg : config) (env : Env) (r : Request)
    (fs : os.FS) :
  strings.HasSuffix (URL_Path r) "/index.html" = true ->
  let out := serve cfg env r fs in
  (http.Status out.1 = Some 301 \/ http.Status out.1 = Some 400 \/
   http.Status out.1 = Some 404) /\
  (http.Status out.1 = Some 301 -> http.Body out.1 = EmptyString) /\
  out.2 = fs.
Proof.
  intros Hidx out. subst out. unfold serve.
  destruct (negb (String.eqb (mux.cleanPath (URL_Path r)) (URL_Path r))).
  { cbn [fst snd]. split; [left; reflexivity|]. split; reflexivity. }
  destruct (mux.matchTemplate "/upload" [] (URL_Path r)) as [v|] eqn:Eup.
  { apply matchTemplate_upload in Eup. rewrite Eup in Hidx. discriminate. }
  destruct (mux.matchTemplate ("/" ++ AccessPrefix cfg ++ "/")
              ["year"; "month"; "day"; "filename"] (URL_Path r)) as [vars|].
  2: { cbn [fst snd]. split; [right; right; reflexivity|].
       split; [discriminate | reflexivity]. }
  cbn [fst snd]. split; [|split; [|reflexivity]].
  - unfold getHandler.
    destruct (os.IsNotExist _); [right; right; reflexivity|].
    unfold http.ServeFile. cbn [URL_Path withVars]. rewrite Hidx.
    destruct (http.containsDotDot (URL_Path r));
      [right; left | left]; reflexivity.
  - unfold getHandler.
    destruct (os.IsNotExist _); [intros [=]|].
    unfold http.ServeFile. cbn [URL_Path withVars]. rewrite Hidx.
    destruct (http.containsDotDot (URL_Path r)); [intros [=] | reflexivity].
Qed.

Lemma index_html_is_never_served_witness :
  let out :=
    serve Sample.cfg Sample.env (Sample.get "/files/2024/03/05/index.html")
      Sample.siteDisk in
  os.Stat Sample.siteDisk "/data/2024/03/05/index.html"
  = inr (os.File "<html>") /\
  (http.Status out.1 = Some 301 \/ http.Status out.1 = Some 400 \/
   http.Status out.1 = Some 404) /\
  (http.Status out.1 = Some 301 -> http.Body out.1 = EmptyString).
Proof.
  split; [reflexivity|].
  pose proof (index_html_is_never_served Sample.cfg Sample.env
                (Sample.get "/files/2024/03/05/index.html") Sample.siteDisk
                eq_refl) as (Hstatus & Hbody & _).
  split; [exact Hstatus | exact Hbody].
Defined.
